(** * YouGen tweet quality filter: a shallow embedding of
      [yougen/core/quality_filter.py] and the properties of its two-stage
      pipeline (rule engine, batched AI scoring, response parsing), with the
      loop of its caller in [yougen/core/tweet_collector.py].

    Python values are embedded as follows.
    - [str] is a list of Unicode code points ([pystr]); literals of the source
      are written [py "..."], the UTF-8 decoding of the literal's bytes.
    - [int] is [Z]; [float] is the kernel's binary64 [float].
    - Dynamically typed values (what [json.loads] returns) are [pyval].
    - [Tweet] objects live in a store ([heap]) and lists hold references to
      them, because the filter annotates the objects it is given in place.
    - An exception is a value of [exn]; code that may raise returns
      [outcome]. *)

From Stdlib Require Import ZArith NArith Floats String Ascii Lia.
From stdpp Require Import base decidable list functions strings pretty.

Local Open Scope Z_scope.

(** ** Python strings *)

Abbreviation pystr := (list N).

Definition len {A} (l : list A) : Z := Z.of_nat (length l).

(** Decoder of the UTF-8 bytes of a source literal into code points. *)
Fixpoint utf8_decode (bs : list N) : pystr :=
  match bs with
  | [] => []
  | b0 :: r0 =>
    if (b0 <? 0x80)%N then b0 :: utf8_decode r0
    else match r0 with
    | [] => []
    | b1 :: r1 =>
      if (b0 <? 0xE0)%N then
        N.lor (N.shiftl (N.land b0 0x1F) 6) (N.land b1 0x3F) :: utf8_decode r1
      else match r1 with
      | [] => []
      | b2 :: r2 =>
        if (b0 <? 0xF0)%N then
          N.lor (N.shiftl (N.land b0 0x0F) 12)
            (N.lor (N.shiftl (N.land b1 0x3F) 6) (N.land b2 0x3F))
          :: utf8_decode r2
        else match r2 with
        | [] => []
        | b3 :: r3 =>
          N.lor (N.shiftl (N.land b0 0x07) 18)
            (N.lor (N.shiftl (N.land b1 0x3F) 12)
               (N.lor (N.shiftl (N.land b2 0x3F) 6) (N.land b3 0x3F)))
          :: utf8_decode r3
        end
      end
    end
  end.

Definition py (s : string) : pystr :=
  utf8_decode (map N_of_ascii (list_ascii_of_string s)).

(** [Py_UNICODE_ISSPACE]: the one whitespace test behind [str.strip],
    [str.split] and the [\s]/[\S] classes of [re] on [str] patterns. *)
Definition isspace (c : N) : bool :=
  ((0x09 <=? c) && (c <=? 0x0D) || (0x1C <=? c) && (c <=? 0x20)
   || (c =? 0x85) || (c =? 0xA0) || (c =? 0x1680)
   || (0x2000 <=? c) && (c <=? 0x200A)
   || (c =? 0x2028) || (c =? 0x2029) || (c =? 0x202F) || (c =? 0x205F)
   || (c =? 0x3000))%N.

Fixpoint lstrip (l : pystr) : pystr :=
  match l with
  | [] => []
  | c :: r => if isspace c then lstrip r else l
  end.

Definition rstrip (l : pystr) : pystr := rev (lstrip (rev l)).

(** [text.strip()] *)
Definition strip (l : pystr) : pystr := rstrip (lstrip l).

(** [text.split()]: the maximal runs of non-whitespace characters.
    [cur] is the run being read, in reverse. *)
Fixpoint split_aux (cur : pystr) (l : pystr) : list pystr :=
  match l with
  | [] => match cur with [] => [] | _ => [rev cur] end
  | c :: r =>
    if isspace c then
      match cur with [] => split_aux [] r | _ => rev cur :: split_aux [] r end
    else split_aux (c :: cur) r
  end.

Definition split (l : pystr) : list pystr := split_aux [] l.

(** [prefix_of p l]: what follows [p] when [l] starts with [p]. *)
Fixpoint prefix_of (p l : pystr) : option pystr :=
  match p, l with
  | [], _ => Some l
  | _ :: _, [] => None
  | a :: p', b :: l' => if (a =? b)%N then prefix_of p' l' else None
  end.

(** [word in text] *)
Fixpoint contains (word text : pystr) : bool :=
  match prefix_of word text with
  | Some _ => true
  | None => match text with [] => false | _ :: r => contains word r end
  end.

(** ** Regular expressions of the source

    A pattern is embedded as the function [match_at] that gives the length of
    its match at the start of a text, if it matches there. *)

(** [re.sub(pattern, '', text)]: scan from the left, drop each match and go on
    after it. [skip] counts the characters of the current match that are still
    to be dropped. *)
Fixpoint re_sub_empty (match_at : pystr -> option nat) (skip : nat)
    (l : pystr) : pystr :=
  match l with
  | [] => []
  | c :: r =>
    match skip with
    | S k => re_sub_empty match_at k r
    | O =>
      match match_at l with
      | Some (S k) => re_sub_empty match_at k r
      | _ => c :: re_sub_empty match_at 0 r
      end
    end
  end.

(** [re.search(pattern, text) is not None] *)
Fixpoint re_search (match_at : pystr -> option nat) (l : pystr) : bool :=
  match match_at l with
  | Some _ => true
  | None => match l with [] => false | _ :: r => re_search match_at r end
  end.

(** [re.match(pattern, text) is not None] *)
Definition re_match (match_at : pystr -> option nat) (l : pystr) : bool :=
  match match_at l with
  | Some _ => true
  | None => false
  end.

(** Length of the longest prefix whose characters all satisfy [p]. *)
Fixpoint run_length (p : N -> bool) (l : pystr) : nat :=
  match l with
  | c :: r => if p c then S (run_length p r) else O
  | [] => O
  end.

(** [https?://\S+] *)
Definition url_pattern (l : pystr) : option nat :=
  let after (scheme : pystr) :=
    match prefix_of scheme l with
    | Some rest =>
      match run_length (fun c => negb (isspace c)) rest with
      | O => None
      | n => Some (length scheme + n)%nat
      end
    | None => None
    end in
  match after (py "https://") with
  | Some n => Some n
  | None => after (py "http://")
  end.

(** The character class of [_is_chinese_text]: U+4E00 to U+9FFF, the CJK
    Unified Ideographs block. *)
Definition is_cjk (c : N) : bool := ((0x4e00 <=? c) && (c <=? 0x9fff))%N.

(** ** What the Python runtime supplies

    The Unicode tables behind [\d] and [\w], case-insensitive matching of a
    pattern literal, [json.loads] and [float(str)] are not code of this
    repository; the development is parametric in them. *)

#[warnings="-register-all"]
Inductive pyval :=
| PNone
| PBool (b : bool)
| PInt (z : Z)
| PFloat (x : float)
| PStr (s : pystr)
| PList (l : list pyval)
| PDict (d : list (pystr * pyval)).

Class PyRuntime := {
  (** [\d]: a character of category Nd *)
  re_digit : N -> bool;
  (** [\w]: alphanumeric or underscore *)
  re_word : N -> bool;
  (** under [re.IGNORECASE], does the pattern literal (first argument)
      match the character (second argument)? *)
  re_ieq : N -> N -> bool;
  (** [json.loads]: the decoded value, or the message of the
      [JSONDecodeError] *)
  json_loads : pystr -> pyval + pystr;
  (** [float(s)] on a [str]: [None] stands for [ValueError] *)
  float_of_str : pystr -> option float
}.

(** [dict.get(key, default)] *)
Fixpoint dict_get (key : pystr) (d : list (pystr * pyval)) (default : pyval)
    : pyval :=
  match d with
  | [] => default
  | (k, v) :: d' => if bool_decide (k = key) then v else dict_get key d' default
  end.

(** A list of string tags, as in [issues=["media_only"]]. *)
Definition tags (l : list string) : pyval := PList (map (fun s => PStr (py s)) l).

(** [str(n)] on an [int] *)
Definition str_of_int (z : Z) : pystr := py (pretty z).

(** [float(n)] on an [int]: the nearest binary64 value, ties to even.
    (An [int] beyond the range of [float] makes Python raise
    [OverflowError]; see [py_float].) *)
Definition float_of_int (z : Z) : float :=
  SF2Prim (binary_normalize prec emax z 0 false).

(** ** Exceptions *)

Inductive exn_class :=
| JSONDecodeError | ValueError | KeyError
| TypeError | OverflowError | AttributeError | OtherError.

Record exn := { exn_kind : exn_class; exn_msg : pystr }.

Inductive outcome (A : Type) :=
| Ok (a : A)
| Raise (e : exn).
Arguments Ok {A} a.
Arguments Raise {A} e.

(** ** Data model: [yougen/storage/models.py] *)

Record Author := {
  username : pystr;
  user_id : pystr;
  name : pystr;
  followers : option Z
}.

Record Tweet := {
  tweet_id : pystr;
  author : Author;
  text : pystr;
  created_at : Z;
  like_count : Z;
  retweet_count : Z;
  reply_count : Z;
  conversation_id : pystr;
  trending_score : float;
  discovered_at : option Z;
  is_reply : bool;
  in_reply_to_status_id : option pystr;
  quoted_tweet_id : option pystr;
  media : list pyval;
  urls : list pystr;
  has_quoted_content : bool;
  (** the three annotations written by the filter *)
  quality_score : option float;
  quality_issues : pyval;
  filtered_reason : pyval
}.

(** [tweet.quality_score = v] and its two siblings, on the object's value. *)
Definition set_quality_score (v : option float) (t : Tweet) : Tweet :=
  {| tweet_id := tweet_id t; author := author t; text := text t;
     created_at := created_at t; like_count := like_count t;
     retweet_count := retweet_count t; reply_count := reply_count t;
     conversation_id := conversation_id t;
     trending_score := trending_score t; discovered_at := discovered_at t;
     is_reply := is_reply t;
     in_reply_to_status_id := in_reply_to_status_id t;
     quoted_tweet_id := quoted_tweet_id t; media := media t; urls := urls t;
     has_quoted_content := has_quoted_content t;
     quality_score := v; quality_issues := quality_issues t;
     filtered_reason := filtered_reason t |}.

Definition set_quality_issues (v : pyval) (t : Tweet) : Tweet :=
  {| tweet_id := tweet_id t; author := author t; text := text t;
     created_at := created_at t; like_count := like_count t;
     retweet_count := retweet_count t; reply_count := reply_count t;
     conversation_id := conversation_id t;
     trending_score := trending_score t; discovered_at := discovered_at t;
     is_reply := is_reply t;
     in_reply_to_status_id := in_reply_to_status_id t;
     quoted_tweet_id := quoted_tweet_id t; media := media t; urls := urls t;
     has_quoted_content := has_quoted_content t;
     quality_score := quality_score t; quality_issues := v;
     filtered_reason := filtered_reason t |}.

Definition set_filtered_reason (v : pyval) (t : Tweet) : Tweet :=
  {| tweet_id := tweet_id t; author := author t; text := text t;
     created_at := created_at t; like_count := like_count t;
     retweet_count := retweet_count t; reply_count := reply_count t;
     conversation_id := conversation_id t;
     trending_score := trending_score t; discovered_at := discovered_at t;
     is_reply := is_reply t;
     in_reply_to_status_id := in_reply_to_status_id t;
     quoted_tweet_id := quoted_tweet_id t; media := media t; urls := urls t;
     has_quoted_content := has_quoted_content t;
     quality_score := quality_score t; quality_issues := quality_issues t;
     filtered_reason := v |}.

(** Tweets are objects: a list of tweets is a list of references into the
    store, and two entries of a list may be the same object. *)
Abbreviation ref := nat.
Abbreviation heap := (nat -> Tweet).

(** ** [QualityFilterResult] *)

Record QualityFilterResult := {
  passed : bool;
  score : option float;
  issues : pyval;
  reason : pyval
}.

(** The dataclass constructor followed by [__post_init__], which replaces a
    [None] for [issues] by a fresh empty list. Omitted arguments take the
    defaults [score=None], [issues=None], [reason=None]. *)
Definition new_result (passed : bool) (score : option float) (issues : pyval)
    (reason : pyval) : QualityFilterResult :=
  {| passed := passed; score := score;
     issues := match issues with PNone => PList [] | _ => issues end;
     reason := reason |}.

(** ** Configuration

    The configuration is a dictionary of dictionaries read with
    [dict.get(key, default)]: an absent key is [None] here. *)

Record RulesConfig := {
  cfg_min_text_length : option Z;
  cfg_filter_media_only : option bool;
  cfg_filter_reply_without_context : option bool;
  cfg_filter_external_references : option bool
}.

Record AIConfig := {
  cfg_ai_enabled : option bool;
  cfg_min_quality_score : option float;
  cfg_batch_size : option Z;
  cfg_max_concurrent : option Z;
  cfg_model : option pystr;
  cfg_timeout_seconds : option Z;
  cfg_on_failure : option pystr
}.

Record Config := {
  cfg_enabled : option bool;
  cfg_rules : option RulesConfig;
  cfg_ai_analysis : option AIConfig
}.

Definition empty_rules : RulesConfig :=
  {| cfg_min_text_length := None; cfg_filter_media_only := None;
     cfg_filter_reply_without_context := None;
     cfg_filter_external_references := None |}.

Definition empty_ai : AIConfig :=
  {| cfg_ai_enabled := None; cfg_min_quality_score := None;
     cfg_batch_size := None; cfg_max_concurrent := None; cfg_model := None;
     cfg_timeout_seconds := None; cfg_on_failure := None |}.

(** The attributes of a [TweetQualityFilter] instance. *)
Record TweetQualityFilter := {
  config : Config;
  rules_config : RulesConfig;
  ai_config : AIConfig;
  min_text_length : Z;
  filter_media_only : bool;
  filter_reply_without_context : bool;
  filter_external_references : bool;
  ai_enabled : bool;
  min_quality_score : float;
  batch_size : Z;
  max_concurrent : Z;
  model : pystr;
  timeout_seconds : Z;
  on_failure : pystr
}.

(** [TweetQualityFilter.__init__] *)
Definition init (config : Config) : TweetQualityFilter :=
  let rules_config := default empty_rules (cfg_rules config) in
  let ai_config := default empty_ai (cfg_ai_analysis config) in
  {| config := config;
     rules_config := rules_config;
     ai_config := ai_config;
     min_text_length := default 20 (cfg_min_text_length rules_config);
     filter_media_only := default true (cfg_filter_media_only rules_config);
     filter_reply_without_context :=
       default true (cfg_filter_reply_without_context rules_config);
     filter_external_references :=
       default true (cfg_filter_external_references rules_config);
     ai_enabled := default true (cfg_ai_enabled ai_config);
     min_quality_score := default 60%float (cfg_min_quality_score ai_config);
     batch_size := default 5 (cfg_batch_size ai_config);
     max_concurrent := default 3 (cfg_max_concurrent ai_config);
     model := default (py "claude-sonnet-4-5-20250929") (cfg_model ai_config);
     timeout_seconds := default 30 (cfg_timeout_seconds ai_config);
     on_failure := default (py "pass") (cfg_on_failure ai_config) |}.

(** ** The rule engine *)

Section RuleEngine.
Context `{RT : PyRuntime}.

(** Pattern combinators: alternation [p|q] and concatenation [pq] (the
    patterns below never need to backtrack into the first component), a
    literal, a character set, and a bounded repetition of a class. *)
Definition re_alt (p q : pystr -> option nat) (l : pystr) : option nat :=
  match p l with
  | Some n => Some n
  | None => q l
  end.

Definition re_seq (p q : pystr -> option nat) (l : pystr) : option nat :=
  match p l with
  | Some n =>
    match q (drop n l) with
    | Some m => Some (n + m)%nat
    | None => None
    end
  | None => None
  end.

Definition re_set (accept : N -> bool) (l : pystr) : option nat :=
  match l with
  | c :: _ => if accept c then Some 1%nat else None
  | [] => None
  end.

(** a literal, with [re.IGNORECASE] *)
Fixpoint re_ilit (p : pystr) (l : pystr) : option nat :=
  match p, l with
  | [], _ => Some O
  | _ :: _, [] => None
  | a :: p', b :: l' =>
    if re_ieq a b then option_map S (re_ilit p' l') else None
  end.

(** a set of literals [[abc]], with [re.IGNORECASE] *)
Definition re_iset (members : pystr) : pystr -> option nat :=
  re_set (fun c => existsb (fun m => re_ieq m c) members).

(** [C{lo,hi}] for a character class [C], greedy, at the end of a pattern *)
Definition re_repeat (accept : N -> bool) (lo hi : nat) (l : pystr)
    : option nat :=
  let n := run_length accept l in
  if (lo <=? n)%nat then Some (Nat.min n hi) else None.

(** U+0022, the quotation mark *)
Definition quote : N := 34%N.

(** The quoted-substring alternative of the pattern: a quotation mark, one or
    more characters other than it (greedy), a quotation mark. *)
Definition quoted_pattern (l : pystr) : option nat :=
  match l with
  | c :: r =>
    if (c =? quote)%N then
      match run_length (fun d => negb (d =? quote)%N) r with
      | O => None
      | n => match drop n r with
             | _ :: _ => Some (n + 2)%nat
             | [] => None
             end
      end
    else None
  | [] => None
  end.

(** The pattern of [_has_clear_context]: one or more digits, a quoted
    substring, a fullwidth question mark or a question mark. *)
Definition context_pattern : pystr -> option nat :=
  re_alt (fun l => match run_length re_digit l with
                   | O => None
                   | n => Some n
                   end)
    (re_alt quoted_pattern
       (re_alt (re_set (fun c => bool_decide ([c] = py "？")))
          (re_set (fun c => bool_decide ([c] = py "?"))))).

Definition _remove_urls_from_text (text : pystr) : pystr :=
  strip (re_sub_empty url_pattern 0 text).

(** [chinese_chars / total_chars > 0.3] is a division of two [int]s into a
    [float]; both are lengths of the text, far below 2^53, where [float_of_int]
    is exact and the quotient is the correctly rounded one that Python
    computes. *)
#[warnings="-inexact-float"]
Definition _is_chinese_text (text : pystr) : bool :=
  let chinese_chars := len (List.filter is_cjk text) in
  let total_chars := len (strip text) in
  if total_chars =? 0 then false
  else (0.3 <? float_of_int chinese_chars / float_of_int total_chars)%float.

Definition opinion_words : list pystr :=
  [py "认为"; py "觉得"; py "同意"; py "反对";
   py "think"; py "believe"; py "agree"; py "disagree"].

Definition _has_clear_context (text : pystr) : bool :=
  if 30 <? len text then true
  else if existsb (fun word => contains word text) opinion_words then true
  else if re_search context_pattern text then true
  else false.

Definition so_very_really : pystr -> option nat :=
  re_alt (re_ilit (py "so")) (re_alt (re_ilit (py "very")) (re_ilit (py "really"))).

Definition vague_patterns : list (pystr -> option nat) :=
  [ re_seq (re_ilit (py "这个")) (re_seq (re_iset (py "真太很")) (re_repeat re_word 1 3));
    re_seq (re_ilit (py "那个")) (re_seq (re_iset (py "真太很")) (re_repeat re_word 1 3));
    re_seq (re_ilit (py "它")) (re_seq (re_iset (py "真太很")) (re_repeat re_word 1 3));
    re_seq (re_ilit (py "This is ")) so_very_really;
    re_seq (re_ilit (py "That is ")) so_very_really;
    re_seq (re_ilit (py "It is ")) so_very_really ].

(** The loop returns at the first pattern that matches a text shorter than
    30 characters. *)
Definition _has_unclear_external_reference (text : pystr) : bool :=
  let text := strip text in
  existsb (fun pattern => re_match pattern text && (len text <? 30))
    vague_patterns.

Definition _check_rules (self : TweetQualityFilter) (tweet : Tweet)
    : QualityFilterResult :=
  let media_only :=
    if filter_media_only self then
      let clean_text := _remove_urls_from_text (text tweet) in
      (0 <? len (media tweet)) && (len (strip clean_text) <? 10)
    else false in
  if media_only then
    new_result false None (tags ["media_only"])
      (PStr (py "仅包含媒体，文本内容不足"))
  else
  let reply_without_context :=
    if filter_reply_without_context self then
      if is_reply tweet && negb (has_quoted_content tweet) then
        let clean_text := _remove_urls_from_text (text tweet) in
        negb (_has_clear_context clean_text)
      else false
    else false in
  if reply_without_context then
    new_result false None (tags ["reply_without_context"])
      (PStr (py "回复推文缺乏上下文"))
  else
  let clean_text := _remove_urls_from_text (text tweet) in
  let too_short :=
    if _is_chinese_text clean_text then
      if len clean_text <? min_text_length self then Some (py "字）") else None
    else
      let words := split clean_text in
      if len words <? min_text_length self then Some (py "词）") else None in
  match too_short with
  | Some unit =>
    new_result false None (tags ["too_short"])
      (PStr (py "推文过短（<" ++ str_of_int (min_text_length self) ++ unit))
  | None =>
  if filter_external_references self
     && _has_unclear_external_reference (text tweet) then
    new_result false None (tags ["vague_reference"])
      (PStr (py "包含模糊的外部引用"))
  else
  new_result true None PNone PNone
  end.

(** ** The response parser *)

(** [float(x)] *)
Definition py_float (x : pyval) : outcome float :=
  match x with
  | PFloat y => Ok y
  | PInt z =>
    let y := float_of_int z in
    if is_infinity y then
      Raise {| exn_kind := OverflowError;
               exn_msg := py "int too large to convert to float" |}
    else Ok y
  | PBool b => Ok (if b then 1%float else 0%float)
  | PStr s =>
    match float_of_str s with
    | Some y => Ok y
    | None =>
      Raise {| exn_kind := ValueError;
               exn_msg := py "could not convert string to float: " ++ s |}
    end
  | PNone | PList _ | PDict _ =>
    Raise {| exn_kind := TypeError;
             exn_msg := py "float() argument must be a string or a real number" |}
  end.

(** Index of the last character of [l] accepted by [p]. *)
Fixpoint last_index (p : N -> bool) (l : pystr) : option nat :=
  match l with
  | [] => None
  | c :: r =>
    match last_index p r with
    | Some i => Some (S i)
    | None => if p c then Some O else None
    end
  end.

(** The pattern of [_parse_ai_response]: an opening brace, any characters
    (greedy), a closing brace; so the match at an opening brace runs to the
    last closing brace of the text. *)
Definition json_pattern (l : pystr) : option nat :=
  match l with
  | c :: r =>
    if bool_decide ([c] = py "{") then
      match last_index (fun d => bool_decide ([d] = py "}")) r with
      | Some i => Some (i + 2)%nat
      | None => None
      end
    else None
  | [] => None
  end.

(** [re.search(pattern, text)]: [group(0)] of the leftmost match *)
Fixpoint re_search_group (match_at : pystr -> option nat) (l : pystr)
    : option pystr :=
  match match_at l with
  | Some n => Some (take n l)
  | None => match l with [] => None | _ :: r => re_search_group match_at r end
  end.

(** The result of both fallbacks of the parser. *)
Definition parse_error_result (diagnostic : pystr) : QualityFilterResult :=
  new_result true (Some 50%float) (tags ["parse_error"]) (PStr diagnostic).

(** [except (json.JSONDecodeError, ValueError, KeyError)];
    [JSONDecodeError] is a subclass of [ValueError]. *)
Definition parse_handler_catches (e : exn) : bool :=
  match exn_kind e with
  | JSONDecodeError | ValueError | KeyError => true
  | _ => false
  end.

(** The body of the [try] block of [_parse_ai_response]. *)
Definition parse_try (self : TweetQualityFilter) (response : pystr)
    : outcome QualityFilterResult :=
  match re_search_group json_pattern response with
  | Some json_str =>
    match json_loads json_str with
    | inr msg => Raise {| exn_kind := JSONDecodeError; exn_msg := msg |}
    | inl (PDict data) =>
      match py_float (dict_get (py "score") data (PInt 50)) with
      | Raise e => Raise e
      | Ok score =>
        let issues := dict_get (py "issues") data (PList []) in
        let analysis := dict_get (py "analysis") data (PStr (py "")) in
        let passed := (min_quality_score self <=? score)%float in
        Ok (new_result passed (Some score) issues
              (if negb passed then analysis else PNone))
      end
    | inl _ =>
      Raise {| exn_kind := AttributeError;
               exn_msg := py "object has no attribute 'get'" |}
    end
  | None => Ok (parse_error_result (py "无法解析AI响应"))
  end.

Definition _parse_ai_response (self : TweetQualityFilter) (response : pystr)
    : outcome QualityFilterResult :=
  match parse_try self response with
  | Ok result => Ok result
  | Raise e =>
    if parse_handler_catches e then
      Ok (parse_error_result (py "解析AI响应失败: " ++ exn_msg e))
    else Raise e
  end.

(** ** The AI stage *)

(** What awaiting the call of the external scorer, under
    [asyncio.wait_for], comes to. *)
Inductive query_outcome :=
| Responded (response : pystr)
| TimedOut
| Failed (e : exn).

(** The [except Exception] clause of [_analyze_tweet_quality]. *)
Definition on_exception (self : TweetQualityFilter) (e : exn)
    : QualityFilterResult :=
  if bool_decide (on_failure self = py "pass") then
    new_result true None PNone PNone
  else
    new_result false None (tags ["ai_error"])
      (PStr (py "AI分析异常: " ++ exn_msg e)).

(** [_analyze_tweet_quality] relative to what the call of the scorer comes
    to. The two prompts only feed that call; they are not modelled. *)
Definition _analyze_tweet_quality (self : TweetQualityFilter)
    (call : query_outcome) : QualityFilterResult :=
  match call with
  | Responded response =>
    match _parse_ai_response self response with
    | Ok result => result
    | Raise e => on_exception self e
    end
  | TimedOut =>
    new_result (if bool_decide (on_failure self = py "filter") then false else true)
      (Some 50%float) (tags ["ai_timeout"]) (PStr (py "AI分析超时"))
  | Failed e => on_exception self e
  end.

End RuleEngine.

(** An entry of the list that [asyncio.gather] returns for the tasks of a
    batch under [return_exceptions=True]: the value a task returned, or the
    exception it raised. *)
Inductive task_outcome :=
| Returned (result : QualityFilterResult)
| Raised (e : exn).

(** The two lists a stage returns, with the store as the stage leaves it. *)
Record Partition := {
  store : heap;
  passed_tweets : list ref;
  filtered_tweets : list ref
}.

(** [range(start, stop, step)] as the list it iterates over. *)
Definition py_range (start stop step : Z) : outcome (list Z) :=
  if step =? 0 then
    Raise {| exn_kind := ValueError;
             exn_msg := py "range() arg 3 must not be zero" |}
  else
    let n := if 0 <? step then (stop - start + step - 1) / step
             else (start - stop - step - 1) / (- step) in
    Ok (map (fun k => start + Z.of_nat k * step) (seq 0 (Z.to_nat n))).

(** [l[lo:hi]] *)
Definition slice {A} (l : list A) (lo hi : Z) : list A :=
  let clamp k := if k <? 0 then Z.max 0 (k + len l) else Z.min k (len l) in
  take (Z.to_nat (clamp hi - clamp lo)) (drop (Z.to_nat (clamp lo)) l).

(** The body of the loop over [zip(batch, results)]. *)
Definition ai_step (self : TweetQualityFilter) (st : Partition)
    (item : ref * task_outcome) : Partition :=
  let '(tweet, result) := item in
  match result with
  | Raised e =>
    if bool_decide (on_failure self = py "pass") then
      {| store := store st;
         passed_tweets := passed_tweets st ++ [tweet];
         filtered_tweets := filtered_tweets st |}
    else
      {| store :=
           <[tweet :=
               set_quality_issues (tags ["ai_error"])
                 (set_filtered_reason (PStr (py "AI分析失败: " ++ exn_msg e))
                    (store st tweet))]> (store st);
         passed_tweets := passed_tweets st;
         filtered_tweets := filtered_tweets st ++ [tweet] |}
  | Returned result =>
    if passed result then
      {| store :=
           <[tweet := set_quality_score (score result) (store st tweet)]>
             (store st);
         passed_tweets := passed_tweets st ++ [tweet];
         filtered_tweets := filtered_tweets st |}
    else
      {| store :=
           <[tweet :=
               set_filtered_reason (reason result)
                 (set_quality_issues (issues result)
                    (set_quality_score (score result) (store st tweet)))]>
             (store st);
         passed_tweets := passed_tweets st;
         filtered_tweets := filtered_tweets st ++ [tweet] |}
  end.

(** One iteration of the loop over the batches: the batch that starts at
    index [i], the gathered results of its tasks, and the loop over both.
    [gather k] is what the task of the [k]-th tweet of [tweets] resolves
    to. *)
Definition ai_batch (self : TweetQualityFilter) (gather : nat -> task_outcome)
    (tweets : list ref) (st : Partition) (i : Z) : Partition :=
  let batch := slice tweets i (i + batch_size self) in
  let results := imap (fun k _ => gather (Z.to_nat i + k)%nat) batch in
  fold_left (ai_step self) (zip batch results) st.

Definition _apply_ai_filters (self : TweetQualityFilter)
    (gather : nat -> task_outcome) (h : heap) (tweets : list ref)
    : outcome Partition :=
  match py_range 0 (len tweets) (batch_size self) with
  | Raise e => Raise e
  | Ok starts =>
    Ok (fold_left (ai_batch self gather tweets) starts
          {| store := h; passed_tweets := []; filtered_tweets := [] |})
  end.

Section Pipeline.
Context `{RT : PyRuntime}.

(** The body of the loop of [_apply_rule_filters]. *)
Definition rule_step (self : TweetQualityFilter) (st : Partition)
    (tweet : ref) : Partition :=
  let result := _check_rules self (store st tweet) in
  if passed result then
    {| store := store st;
       passed_tweets := passed_tweets st ++ [tweet];
       filtered_tweets := filtered_tweets st |}
  else
    {| store :=
         <[tweet :=
             set_quality_issues (issues result)
               (set_filtered_reason (reason result) (store st tweet))]>
           (store st);
       passed_tweets := passed_tweets st;
       filtered_tweets := filtered_tweets st ++ [tweet] |}.

Definition _apply_rule_filters (self : TweetQualityFilter) (h : heap)
    (tweets : list ref) : Partition :=
  fold_left (rule_step self) tweets
    {| store := h; passed_tweets := []; filtered_tweets := [] |}.

(** [filter_batch], relative to what the scoring tasks resolve to. *)
Definition filter_batch (self : TweetQualityFilter)
    (gather : nat -> task_outcome) (h : heap) (tweets : list ref)
    : outcome Partition :=
  match tweets with
  | [] => Ok {| store := h; passed_tweets := []; filtered_tweets := [] |}
  | _ :: _ =>
    let rules := _apply_rule_filters self h tweets in
    if ai_enabled self && negb (bool_decide (passed_tweets rules = [])) then
      match _apply_ai_filters self gather (store rules) (passed_tweets rules) with
      | Raise e => Raise e
      | Ok ai =>
        let all_filtered := filtered_tweets rules ++ filtered_tweets ai in
        Ok {| store := store ai;
              passed_tweets := passed_tweets ai;
              filtered_tweets := all_filtered |}
      end
    else Ok rules
  end.

(** The tasks that [_apply_ai_filters] creates: every one awaits
    [_analyze_tweet_quality], which returns a result whatever the call of the
    scorer comes to; [calls k] is what the call for the [k]-th tweet comes
    to. *)
Definition scoring_tasks (self : TweetQualityFilter)
    (calls : nat -> query_outcome) (k : nat) : task_outcome :=
  Returned (_analyze_tweet_quality self (calls k)).

End Pipeline.

(** ** A runtime to run examples on

    [basic_runtime] follows CPython on texts of ASCII characters and CJK
    ideographs, and on the JSON documents made of objects, arrays, strings
    without escapes, integers, [true], [false] and [null]; for any other
    document its decoder reports an error. The theorems below hold for every
    runtime; this one only serves to evaluate the definitions on concrete
    inputs. *)

Definition ascii_lower (c : N) : N :=
  if ((65 <=? c) && (c <=? 90))%N then (c + 32)%N else c.

Definition ascii_digit (c : N) : bool := ((48 <=? c) && (c <=? 57))%N.

Definition basic_word (c : N) : bool :=
  (ascii_digit c || (65 <=? c) && (c <=? 90) || (97 <=? c) && (c <=? 122)
   || (c =? 95) || is_cjk c)%N.

Definition json_space (c : N) : bool :=
  ((c =? 32) || (c =? 9) || (c =? 10) || (c =? 13))%N.

Fixpoint json_skip (l : pystr) : pystr :=
  match l with
  | c :: r => if json_space c then json_skip r else l
  | [] => []
  end.

Fixpoint json_digits (acc : Z) (l : pystr) : Z * pystr :=
  match l with
  | c :: r =>
    if ascii_digit c then json_digits (10 * acc + (Z.of_N c - 48)) r
    else (acc, l)
  | [] => (acc, [])
  end.

(** The characters of a string up to its closing quotation mark. *)
Fixpoint json_string (l : pystr) : option (pystr * pystr) :=
  match l with
  | [] => None
  | c :: r =>
    if (c =? quote)%N then Some ([], r)
    else if ((c =? 92) || (c <? 32))%N then None
    else match json_string r with
         | Some (s, rest) => Some (c :: s, rest)
         | None => None
         end
  end.

Inductive json_mode :=
| JValue
| JMembers (acc : list (pystr * pyval))
| JElements (acc : list pyval).

(** Members are accumulated in front, so that [dict_get] finds the last of
    several values given for one key, as in a Python [dict]. *)
Fixpoint json_parse (fuel : nat) (mode : json_mode) (l : pystr)
    : option (pyval * pystr) :=
  match fuel with
  | O => None
  | S fuel =>
    match mode, json_skip l with
    | JValue, c :: r =>
      if bool_decide ([c] = py "{") then
        match json_skip r with
        | d :: r' =>
          if bool_decide ([d] = py "}") then Some (PDict [], r')
          else json_parse fuel (JMembers []) r
        | [] => None
        end
      else if bool_decide ([c] = py "[") then
        match json_skip r with
        | d :: r' =>
          if bool_decide ([d] = py "]") then Some (PList [], r')
          else json_parse fuel (JElements []) r
        | [] => None
        end
      else if (c =? quote)%N then
        match json_string r with
        | Some (s, rest) => Some (PStr s, rest)
        | None => None
        end
      else if ascii_digit c then
        let '(z, rest) := json_digits 0 (c :: r) in Some (PInt z, rest)
      else if bool_decide ([c] = py "-") then
        match r with
        | d :: _ =>
          if ascii_digit d then
            let '(z, rest) := json_digits 0 r in Some (PInt (- z), rest)
          else None
        | [] => None
        end
      else match prefix_of (py "true") (c :: r) with
      | Some rest => Some (PBool true, rest)
      | None =>
        match prefix_of (py "false") (c :: r) with
        | Some rest => Some (PBool false, rest)
        | None =>
          match prefix_of (py "null") (c :: r) with
          | Some rest => Some (PNone, rest)
          | None => None
          end
        end
      end
    | JMembers acc, c :: r =>
      if (c =? quote)%N then
        match json_string r with
        | Some (key, r1) =>
          match json_skip r1 with
          | colon :: r2 =>
            if bool_decide ([colon] = py ":") then
              match json_parse fuel JValue r2 with
              | Some (v, r3) =>
                match json_skip r3 with
                | d :: r4 =>
                  if bool_decide ([d] = py ",") then
                    json_parse fuel (JMembers ((key, v) :: acc)) r4
                  else if bool_decide ([d] = py "}") then
                    Some (PDict ((key, v) :: acc), r4)
                  else None
                | [] => None
                end
              | None => None
              end
            else None
          | [] => None
          end
        | None => None
        end
      else None
    | JElements acc, c :: r =>
      match json_parse fuel JValue (c :: r) with
      | Some (v, r1) =>
        match json_skip r1 with
        | d :: r2 =>
          if bool_decide ([d] = py ",") then
            json_parse fuel (JElements (acc ++ [v])) r2
          else if bool_decide ([d] = py "]") then Some (PList (acc ++ [v]), r2)
          else None
        | [] => None
        end
      | None => None
      end
    | _, [] => None
    end
  end.

Definition basic_json_loads (s : pystr) : pyval + pystr :=
  match json_parse (2 * length s + 2) JValue s with
  | Some (v, rest) =>
    match json_skip rest with
    | [] => inl v
    | _ :: _ => inr (py "Extra data")
    end
  | None => inr (py "Expecting value")
  end.

(** [float(s)] on the decimal integers, surrounding blanks allowed. *)
Definition basic_float_of_str (s : pystr) : option float :=
  match strip s with
  | [] => None
  | c :: r =>
    let digits := if bool_decide ([c] = py "-") then r else c :: r in
    match digits with
    | [] => None
    | _ :: _ =>
      if forallb ascii_digit digits then
        let z := fst (json_digits 0 digits) in
        Some (float_of_int (if bool_decide ([c] = py "-") then - z else z))
      else None
    end
  end.

Definition basic_runtime : PyRuntime :=
  {| re_digit := ascii_digit;
     re_word := basic_word;
     re_ieq a b := (ascii_lower a =? ascii_lower b)%N;
     json_loads := basic_json_loads;
     float_of_str := basic_float_of_str |}.

(** A literal in which the apostrophe stands for the quotation mark, to
    write JSON documents. *)
Definition pyq (s : string) : pystr :=
  map (fun c => if (c =? 39)%N then quote else c) (py s).

(** A tweet with the given text and flags, every other field at the default
    of the dataclass, and a store that holds it at every reference. *)
Definition sample_tweet (s : string) (reply quoted : bool) (m : list pyval)
    : Tweet :=
  {| tweet_id := py "1234567890";
     author := {| username := py "testuser"; user_id := py "123456";
                  name := py "Test User"; followers := Some 1000 |};
     text := py s; created_at := 0; like_count := 10; retweet_count := 5;
     reply_count := 2; conversation_id := py "conv123";
     trending_score := 0%float; discovered_at := None;
     is_reply := reply; in_reply_to_status_id := None;
     quoted_tweet_id := None; media := m; urls := [];
     has_quoted_content := quoted;
     quality_score := None; quality_issues := PList [];
     filtered_reason := PNone |}.

Definition default_config : Config :=
  {| cfg_enabled := None; cfg_rules := None; cfg_ai_analysis := None |}.

(** ** The rule chain, as the specification describes it

    The four rules in their fixed order, each with the condition under which
    it fails a tweet when judged on its own, the switch that enables it, and
    the result it produces. [_check_rules] is compared with the first failing
    rule of this chain. *)

Inductive rule := MediaOnly | ReplyWithoutContext | TooShort | VagueReference.

Definition rule_order : list rule :=
  [MediaOnly; ReplyWithoutContext; TooShort; VagueReference].

Definition rule_tag (r : rule) : string :=
  match r with
  | MediaOnly => "media_only"
  | ReplyWithoutContext => "reply_without_context"
  | TooShort => "too_short"
  | VagueReference => "vague_reference"
  end.


(** The length rule has no switch. *)
Definition rule_enabled (self : TweetQualityFilter) (r : rule) : bool :=
  match r with
  | MediaOnly => filter_media_only self
  | ReplyWithoutContext => filter_reply_without_context self
  | TooShort => true
  | VagueReference => filter_external_references self
  end.

Section RuleChain.
Context `{RT : PyRuntime}.

Definition rule_fails (self : TweetQualityFilter) (tweet : Tweet) (r : rule)
    : bool :=
  let clean_text := _remove_urls_from_text (text tweet) in
  match r with
  | MediaOnly => (0 <? len (media tweet)) && (len (strip clean_text) <? 10)
  | ReplyWithoutContext =>
    is_reply tweet && negb (has_quoted_content tweet)
    && negb (_has_clear_context clean_text)
  | TooShort =>
    if _is_chinese_text clean_text then len clean_text <? min_text_length self
    else len (split clean_text) <? min_text_length self
  | VagueReference => _has_unclear_external_reference (text tweet)
  end.

Definition rule_reason (self : TweetQualityFilter) (tweet : Tweet) (r : rule)
    : pystr :=
  match r with
  | MediaOnly => py "仅包含媒体，文本内容不足"
  | ReplyWithoutContext => py "回复推文缺乏上下文"
  | TooShort =>
    py "推文过短（<" ++ str_of_int (min_text_length self)
    ++ (if _is_chinese_text (_remove_urls_from_text (text tweet))
        then py "字）" else py "词）")
  | VagueReference => py "包含模糊的外部引用"
  end.

(** The result of running a chain of rules: that of its first failing rule,
    with the one issue tag of that rule. *)
Definition run_chain (self : TweetQualityFilter) (tweet : Tweet)
    (chain : list rule) : QualityFilterResult :=
  match List.find (rule_fails self tweet) chain with
  | Some r =>
    {| passed := false; score := None; issues := tags [rule_tag r];
       reason := PStr (rule_reason self tweet r) |}
  | None =>
    {| passed := true; score := None; issues := PList []; reason := PNone |}
  end.

End RuleChain.

Definition enabled_chain (self : TweetQualityFilter) : list rule :=
  List.filter (rule_enabled self) rule_order.

(** The three switches of the rule configuration. *)
Inductive toggle :=
| FilterMediaOnly | FilterReplyWithoutContext | FilterExternalReferences.


(** The filter built from the same configuration with one switch off. *)
Definition disable (t : toggle) (self : TweetQualityFilter)
    : TweetQualityFilter :=
  {| config := config self; rules_config := rules_config self;
     ai_config := ai_config self; min_text_length := min_text_length self;
     filter_media_only :=
       match t with FilterMediaOnly => false | _ => filter_media_only self end;
     filter_reply_without_context :=
       match t with
       | FilterReplyWithoutContext => false
       | _ => filter_reply_without_context self
       end;
     filter_external_references :=
       match t with
       | FilterExternalReferences => false
       | _ => filter_external_references self
       end;
     ai_enabled := ai_enabled self;
     min_quality_score := min_quality_score self;
     batch_size := batch_size self; max_concurrent := max_concurrent self;
     model := model self; timeout_seconds := timeout_seconds self;
     on_failure := on_failure self |}.

(** ** The length rule in the words of the specification *)

(** The classification of the length rule in the words of the specification:
    the ratio of CJK code points to non-blank characters exceeds 0.3. *)
#[warnings="-inexact-float"]
Definition spec_cjk_dominant (text : pystr) : bool :=
  let cjk := len (List.filter is_cjk text) in
  let non_blank := len (List.filter (fun c => negb (isspace c)) text) in
  negb (non_blank =? 0)
  && (0.3 <? float_of_int cjk / float_of_int non_blank)%float.

Definition spec_length_rule_fails (min_length : Z) (text : pystr) : bool :=
  if spec_cjk_dominant text then len text <? min_length
  else len (split text) <? min_length.

Definition mixed_tweet : Tweet :=
  sample_tweet "这首歌真的好 listen to it now" false false [].

(** The filter with another failure policy. *)
Definition with_on_failure (policy : pystr) (self : TweetQualityFilter)
    : TweetQualityFilter :=
  {| config := config self; rules_config := rules_config self;
     ai_config := ai_config self; min_text_length := min_text_length self;
     filter_media_only := filter_media_only self;
     filter_reply_without_context := filter_reply_without_context self;
     filter_external_references := filter_external_references self;
     ai_enabled := ai_enabled self;
     min_quality_score := min_quality_score self;
     batch_size := batch_size self; max_concurrent := max_concurrent self;
     model := model self; timeout_seconds := timeout_seconds self;
     on_failure := policy |}.

(** [key in data] *)
Definition dict_has (key : pystr) (d : list (pystr * pyval)) : bool :=
  existsb (fun kv => bool_decide (fst kv = key)) d.

(** ** The two stages, as the specification describes them *)

(** The tweets of the AI stage with what their tasks resolve to, in input
    order. *)
Definition gathered (gather : nat -> task_outcome) (tweets : list ref)
    : list (ref * task_outcome) :=
  imap (fun k tweet => (tweet, gather k)) tweets.


(** Does the loop over the results file a tweet with this outcome under
    the passed tweets? *)
Definition task_passes (self : TweetQualityFilter) (o : task_outcome) : bool :=
  match o with
  | Raised _ => bool_decide (on_failure self = py "pass")
  | Returned result => passed result
  end.

(** What the loop over the results writes on the tweet of a task. *)
Definition annotate (self : TweetQualityFilter) (o : task_outcome) (t : Tweet)
    : Tweet :=
  match o with
  | Raised e =>
    if bool_decide (on_failure self = py "pass") then t
    else set_quality_issues (tags ["ai_error"])
           (set_filtered_reason (PStr (py "AI分析失败: " ++ exn_msg e)) t)
  | Returned result =>
    if passed result then set_quality_score (score result) t
    else set_filtered_reason (reason result)
           (set_quality_issues (issues result)
              (set_quality_score (score result) t))
  end.

(** A tweet without the three annotations of the filter. *)
Definition clear_annotations (t : Tweet) : Tweet :=
  set_quality_score None (set_quality_issues PNone (set_filtered_reason PNone t)).

(** Does the rule engine pass the tweet that [r] refers to? *)
Definition rule_passes `{RT : PyRuntime} (self : TweetQualityFilter) (h : heap)
    (r : ref) : bool :=
  passed (_check_rules self (h r)).

(** Two stores that hold the same tweets, up to the annotations. *)
Definition same_tweets (h h' : heap) : Prop :=
  forall r, clear_annotations (h' r) = clear_annotations (h r).

(** The configuration with another value for the key [enabled]. *)
Definition with_enabled (flag : option bool) (c : Config) : Config :=
  {| cfg_enabled := flag; cfg_rules := cfg_rules c;
     cfg_ai_analysis := cfg_ai_analysis c |}.

(** ** Sample inputs *)


(** A tweet that passes every rule, and one that the length rule fails. *)
Definition long_tweet : Tweet :=
  sample_tweet
    "This is a comprehensive tweet that contains enough information and context for readers to understand what is happening and why it matters."
    false false [].

Definition short_tweet : Tweet := sample_tweet "Nice!" false false [].

(** A store whose objects are all [long_tweet], but for [short_tweet] at
    reference 1. *)
Definition sample_heap : heap :=
  fun r => match r with 1%nat => short_tweet | _ => long_tweet end.

(** The configuration with the given batch size, every other key absent. *)
Definition batch_config (n : Z) : Config :=
  {| cfg_enabled := Some true; cfg_rules := None;
     cfg_ai_analysis :=
       Some {| cfg_ai_enabled := None; cfg_min_quality_score := None;
               cfg_batch_size := Some n; cfg_max_concurrent := None;
               cfg_model := None; cfg_timeout_seconds := None;
               cfg_on_failure := None |} |}.

(** Tasks that all return a passing result with score 85, but for the task
    of index 1, which raises. *)
Definition sample_gather : nat -> task_outcome :=
  fun k =>
    match k with
    | 1%nat => Raised {| exn_kind := OtherError; exn_msg := py "API Error" |}
    | _ => Returned {| passed := true; score := Some 85%float;
                       issues := PList []; reason := PNone |}
    end.

(** A CJK text of 22 characters that opens with a vague reference. *)
Definition vague_tweet : Tweet :=
  sample_tweet "这个真的太厉害了完全超出了我的想象和预期范围" false false [].

(** ** Variants of a filter and further samples *)

(** What the rule stage writes on a tweet that fails a rule: the issues and
    the reason of its rule result. *)
Definition rule_annotate `{RT : PyRuntime} (self : TweetQualityFilter)
    (t : Tweet) : Tweet :=
  let result := _check_rules self t in
  set_quality_issues (issues result) (set_filtered_reason (reason result) t).

(** The filter with another batch size. *)
Definition with_batch_size (n : Z) (self : TweetQualityFilter)
    : TweetQualityFilter :=
  {| config := config self; rules_config := rules_config self;
     ai_config := ai_config self; min_text_length := min_text_length self;
     filter_media_only := filter_media_only self;
     filter_reply_without_context := filter_reply_without_context self;
     filter_external_references := filter_external_references self;
     ai_enabled := ai_enabled self;
     min_quality_score := min_quality_score self;
     batch_size := n; max_concurrent := max_concurrent self;
     model := model self; timeout_seconds := timeout_seconds self;
     on_failure := on_failure self |}.

(** The store after the rule stage has gone over [seen]. *)
Definition rule_stage_store `{RT : PyRuntime} (self : TweetQualityFilter)
    (h : heap) (seen : list ref) (h' : heap) : Prop :=
  forall r,
    h' r = if bool_decide (r ∈ seen) && negb (rule_passes self h r)
           then rule_annotate self (h r) else h r.

(** One alternative of the URL pattern: the scheme, then one or more
    characters that are not blank. *)
Definition url_after (scheme l : pystr) : option nat :=
  match prefix_of scheme l with
  | Some rest =>
    match run_length (fun c => negb (isspace c)) rest with
    | O => None
    | n => Some (length scheme + n)%nat
    end
  | None => None
  end.

(** The filter with another minimum text length. *)
Definition with_min_text_length (n : Z) (self : TweetQualityFilter)
    : TweetQualityFilter :=
  {| config := config self; rules_config := rules_config self;
     ai_config := ai_config self; min_text_length := n;
     filter_media_only := filter_media_only self;
     filter_reply_without_context := filter_reply_without_context self;
     filter_external_references := filter_external_references self;
     ai_enabled := ai_enabled self;
     min_quality_score := min_quality_score self;
     batch_size := batch_size self; max_concurrent := max_concurrent self;
     model := model self; timeout_seconds := timeout_seconds self;
     on_failure := on_failure self |}.

(** A reply without any of the cues that [_has_clear_context] looks for. *)
Definition bare_reply : Tweet := sample_tweet "Totally" true false [].

(** [basic_runtime] with the one more text that [float] takes in the
    examples: [float('nan')] is the NaN. *)
Definition nan_runtime : PyRuntime :=
  {| re_digit := ascii_digit;
     re_word := basic_word;
     re_ieq a b := (ascii_lower a =? ascii_lower b)%N;
     json_loads := basic_json_loads;
     float_of_str s :=
       if bool_decide (strip s = py "nan") then Some nan
       else basic_float_of_str s |}.

(** The configuration with the given minimum quality score, every other key
    absent. *)
Definition threshold_config (x : float) : Config :=
  {| cfg_enabled := Some true; cfg_rules := None;
     cfg_ai_analysis :=
       Some {| cfg_ai_enabled := None; cfg_min_quality_score := Some x;
               cfg_batch_size := None; cfg_max_concurrent := None;
               cfg_model := None; cfg_timeout_seconds := None;
               cfg_on_failure := None |} |}.

(** Calls of the scorer that all answer a score of 85, but for the call of
    index 1, which answers a score of 40. *)
Definition sample_calls : nat -> query_outcome :=
  fun k =>
    match k with
    | 1%nat => Responded (pyq "{'score': 40, 'analysis': 'thin'}")
    | _ => Responded (pyq "{'score': 85}")
    end.

(** Calls of the scorer that all answer a text without any JSON object. *)
Definition unreadable_calls : nat -> query_outcome :=
  fun _ => Responded (py "I cannot rate this tweet.").

(** ** The collector: [yougen/core/tweet_collector.py]

    The collector works with a client of the bird command line tool and with
    a file store, whose code is not among these sources. It is embedded
    relative to what their methods come to in each iteration of its loop:
    what the client returns or raises, what the clock reads, what the
    queries of the store answer. The calls that change the store are
    recorded in the order they are made. The tweet objects that the client
    returns are references into the store of objects, as everywhere else.
    Instants ([created_at], the clock) are microseconds on the UTC time
    line. *)

Record Influencer := {
  inf_username : pystr;
  inf_user_id : pystr;
  priority : pystr;
  check_interval : Z;
  topics : list pystr;
  notes : pystr;
  added_at : option Z;
  last_checked : option Z
}.

(** What [bird.get_user_tweets] comes to: the tweets, a [BirdClientError], or
    another exception. *)
Inductive fetch_outcome :=
| Fetched (tweets : list ref)
| BirdClientError (message : pystr)
| FetchRaised (e : exn).

(** The calls that change the store; a tweet is recorded with its value at
    the time of the call. *)
Inductive store_call :=
| save_filtered_tweet (tweet : ref) (value : Tweet)
| save_tweet (tweet : ref) (value : Tweet)
| update_influencer_last_checked (username : pystr).

Class Collaborators := {
  (** [bird.get_user_tweets(username, count)] in the iteration of the given
      index *)
  get_user_tweets : nat -> pystr -> Z -> fetch_outcome;
  (** [datetime.now(timezone.utc)] in that iteration *)
  utc_now : nat -> Z;
  (** [store.tweet_exists(id)] in that iteration *)
  tweet_exists : nat -> pystr -> bool;
  (** [store.get_recent_commented_authors(hours)] in that iteration *)
  get_recent_commented_authors : nat -> Z -> list pystr;
  (** what the scoring tasks of the quality filter resolve to in that
      iteration *)
  scoring : nat -> nat -> task_outcome
}.

(** The attribute of a [TweetCollector] that is not a collaborator. *)
Record TweetCollector := { quality_filter : option TweetQualityFilter }.

(** The state of a run: the tweet objects, the calls made on the store, and
    the list [all_tweets]. *)
Record Collection := {
  objects : heap;
  calls : list store_call;
  all_tweets : list ref
}.

Section Collector.
Context `{RT : PyRuntime} `{W : Collaborators}.

Definition _filter_by_age (k : nat) (h : heap) (tweets : list ref)
    (max_age_minutes : Z) : list ref :=
  let cutoff := utc_now k - max_age_minutes * 60000000 in
  List.filter (fun t => cutoff <? created_at (h t)) tweets.

Definition _filter_processed (k : nat) (h : heap) (tweets : list ref)
    : list ref :=
  let new_tweets :=
    List.filter (fun t => negb (tweet_exists k (tweet_id (h t)))) tweets in
  let recent_authors := get_recent_commented_authors k 0 in
  List.filter
    (fun t => negb (bool_decide (user_id (author (h t)) ∈ recent_authors)))
    new_tweets.

(** The body of the loop of [collect_from_influencers], in the iteration of
    index [k]. A [BirdClientError] is caught and the loop goes on; any other
    exception leaves the function. *)
Definition collect_one (self : TweetCollector) (max_age_minutes : Z) (k : nat)
    (influencer : Influencer) (st : Collection) : outcome Collection :=
  match get_user_tweets k (inf_username influencer) 20 with
  | BirdClientError _ => Ok st
  | FetchRaised e => Raise e
  | Fetched tweets =>
    let recent := _filter_by_age k (objects st) tweets max_age_minutes in
    let new_tweets := _filter_processed k (objects st) recent in
    let quality_filtered :=
      match quality_filter self, new_tweets with
      | Some qf, _ :: _ =>
        match filter_batch qf (scoring k) (objects st) new_tweets with
        | Raise e => Raise e
        | Ok p =>
          Ok (store p,
              calls st ++
              map (fun t => save_filtered_tweet t (store p t))
                (filtered_tweets p),
              passed_tweets p)
        end
      | _, _ => Ok (objects st, calls st, new_tweets)
      end in
    match quality_filtered with
    | Raise e => Raise e
    | Ok (h, log, new_tweets) =>
      Ok {| objects := h;
            calls :=
              log ++ map (fun t => save_tweet t (h t)) new_tweets ++
              [update_influencer_last_checked (inf_username influencer)];
            all_tweets := all_tweets st ++ new_tweets |}
    end
  end.

Fixpoint collect_loop (self : TweetCollector) (max_age_minutes : Z) (k : nat)
    (influencers : list Influencer) (st : Collection) : outcome Collection :=
  match influencers with
  | [] => Ok st
  | influencer :: rest =>
    match collect_one self max_age_minutes k influencer st with
    | Raise e => Raise e
    | Ok st' => collect_loop self max_age_minutes (S k) rest st'
    end
  end.

(** [collect_from_influencers]; the list it returns is [all_tweets]. *)
Definition collect_from_influencers (self : TweetCollector)
    (influencers : list Influencer) (max_age_minutes : Z) (h : heap)
    : outcome Collection :=
  collect_loop self max_age_minutes 0 influencers
    {| objects := h; calls := []; all_tweets := [] |}.

(** The influencers that the client answers for, from the iteration of
    index [k] on. *)
Fixpoint answered (k : nat) (influencers : list Influencer) : list pystr :=
  match influencers with
  | [] => []
  | influencer :: rest =>
    match get_user_tweets k (inf_username influencer) 20 with
    | Fetched _ => inf_username influencer :: answered (S k) rest
    | _ => answered (S k) rest
    end
  end.

End Collector.

(** The tweets saved, the tweets saved as filtered, and the influencers
    marked as checked by a sequence of calls. *)
Definition saved (log : list store_call) : list ref :=
  omap (fun c => match c with save_tweet t _ => Some t | _ => None end) log.

Definition saved_as_filtered (log : list store_call) : list ref :=
  omap (fun c => match c with save_filtered_tweet t _ => Some t | _ => None end)
    log.

Definition checked (log : list store_call) : list pystr :=
  omap (fun c => match c with
                 | update_influencer_last_checked u => Some u
                 | _ => None
                 end) log.

(** Collaborators for the examples: the client returns the tweets 0, 1 and
    2, that the store has not seen, but for the influencer of index 1, for
    whom it fails. *)
Definition sample_collaborators : Collaborators :=
  {| get_user_tweets k _ _ :=
       match k with
       | 1%nat => BirdClientError (py "rate limited")
       | _ => Fetched [0%nat; 1%nat; 2%nat]
       end;
     utc_now _ := 60000000;
     tweet_exists _ _ := false;
     get_recent_commented_authors _ _ := [];
     scoring _ := sample_gather |}.

Definition sample_influencer (u : string) : Influencer :=
  {| inf_username := py u; inf_user_id := py "42"; priority := py "medium";
     check_interval := 15; topics := []; notes := py "";
     added_at := None; last_checked := None |}.

(** * Properties *)

(** ** Strings *)

Lemma lstrip_idem l : lstrip (lstrip l) = lstrip l.
Proof.
  induction l as [|c r IH]; [reflexivity|].
  simpl. destruct (isspace c) eqn:E; [exact IH|]. simpl. rewrite E. reflexivity.
Qed.

Lemma lstrip_app a b :
  lstrip (a ++ b) = match lstrip a with [] => lstrip b | x => x ++ b end.
Proof.
  induction a as [|c r IH]; [reflexivity|].
  simpl. destruct (isspace c); [exact IH|reflexivity].
Qed.

Lemma rstrip_cons c r :
  rstrip (c :: r) =
  match rstrip r with
  | [] => if isspace c then [] else [c]
  | x => c :: x
  end.
Proof.
  unfold rstrip. simpl rev. rewrite lstrip_app.
  destruct (lstrip (rev r)) as [|d m] eqn:E.
  - simpl. destruct (isspace c); reflexivity.
  - rewrite rev_app_distr. simpl.
    destruct (rev m ++ [d]) eqn:E'; [destruct (rev m); discriminate|reflexivity].
Qed.

Lemma rstrip_idem l : rstrip (rstrip l) = rstrip l.
Proof. unfold rstrip. rewrite rev_involutive, lstrip_idem. reflexivity. Qed.

Lemma lstrip_rstrip_lstrip l : lstrip (rstrip (lstrip l)) = rstrip (lstrip l).
Proof.
  induction l as [|c r IH]; [reflexivity|].
  simpl. destruct (isspace c) eqn:E; [exact IH|].
  rewrite rstrip_cons, E.
  destruct (rstrip r); simpl; rewrite E; reflexivity.
Qed.

Lemma strip_idem l : strip (strip l) = strip l.
Proof. unfold strip. rewrite lstrip_rstrip_lstrip, rstrip_idem. reflexivity. Qed.

(** ** Rule engine *)

Section RuleEngineFacts.
Context `{RT : PyRuntime}.

Lemma find_cons {A} (f : A -> bool) x l :
  List.find f (x :: l) = if f x then Some x else List.find f l.
Proof. reflexivity. Qed.

Lemma find_filter {A} (en f : A -> bool) l :
  List.find f (List.filter en l) = List.find (fun x => en x && f x) l.
Proof.
  induction l as [|x l IH]; [reflexivity|].
  simpl. destruct (en x); simpl; [destruct (f x)|]; auto.
Qed.

Lemma new_result_tags p s l r :
  new_result p s (tags l) r =
  {| passed := p; score := s; issues := tags l; reason := r |}.
Proof. reflexivity. Qed.

Lemma new_result_none p s r :
  new_result p s PNone r =
  {| passed := p; score := s; issues := PList []; reason := r |}.
Proof. reflexivity. Qed.

Opaque py str_of_int tags.

(** The nested early returns of [_check_rules] compute the first failing rule
    of the chain of enabled rules. *)
Lemma check_rules_run_chain self tweet :
  _check_rules self tweet = run_chain self tweet (enabled_chain self).
Proof.
  unfold _check_rules, run_chain, enabled_chain, rule_order.
  simpl List.filter.
  rewrite !new_result_tags, new_result_none.
  set (clean := _remove_urls_from_text (text tweet)).
  set (c1 := (0 <? len (media tweet)) && (len (strip clean) <? 10)).
  set (c2 := is_reply tweet && negb (has_quoted_content tweet)).
  set (c2' := _has_clear_context clean).
  set (zh := _is_chinese_text clean).
  set (c3 := len clean <? min_text_length self).
  set (c3' := len (split clean) <? min_text_length self).
  set (c4 := _has_unclear_external_reference (text tweet)).
  assert (F1 : rule_fails self tweet MediaOnly = c1) by reflexivity.
  assert (F2 : rule_fails self tweet ReplyWithoutContext = c2 && negb c2')
    by reflexivity.
  assert (F3 : rule_fails self tweet TooShort = if zh then c3 else c3')
    by reflexivity.
  assert (F4 : rule_fails self tweet VagueReference = c4) by reflexivity.
  assert (R3 : rule_reason self tweet TooShort =
                 py "推文过短（<" ++ str_of_int (min_text_length self)
                 ++ (if zh then py "字）" else py "词）")) by reflexivity.
  clearbody c1 c2 c2' zh c3 c3' c4 clean.
  destruct (filter_media_only self), (filter_reply_without_context self),
    (filter_external_references self);
    rewrite ?find_cons, ?F1, ?F2, ?F3, ?F4; unfold List.find;
    destruct c1, c2, c2', zh, c3, c3', c4; cbv beta iota delta [andb negb];
    rewrite ?R3, ?new_result_tags; reflexivity.
Qed.



(** C3. For every filter and tweet, [_check_rules] evaluates the rules in the
    fixed order media_only, reply_without_context, too_short,
    vague_reference: when some enabled rule fails the tweet, the result is a
    failure that carries exactly one issue tag, the tag of the first such
    rule in that order; when none does, the result is a pass without
    issues. *)
Theorem check_rules_first_failing_rule self tweet :
  rule_order = [MediaOnly; ReplyWithoutContext; TooShort; VagueReference] /\
  match List.find (fun r => rule_enabled self r && rule_fails self tweet r)
          rule_order with
  | Some r =>
    passed (_check_rules self tweet) = false /\
    issues (_check_rules self tweet) = tags [rule_tag r]
  | None =>
    passed (_check_rules self tweet) = true /\
    issues (_check_rules self tweet) = PList []
  end.
Proof.
  split; [reflexivity|].
  rewrite check_rules_run_chain. unfold run_chain, enabled_chain.
  rewrite find_filter.
  destruct (List.find _ rule_order); split; reflexivity.
Qed.


Lemma remove_urls_stripped text :
  strip (_remove_urls_from_text text) = _remove_urls_from_text text.
Proof. apply strip_idem. Qed.

Lemma tags_too_short_distinct :
  tags ["too_short"] <> tags ["vague_reference"] /\ tags ["too_short"] <> PList [].
Proof. split; intros H; vm_compute in H; discriminate. Qed.

(** C6, as amended. For every tweet that neither the media-only nor the
    reply rule fails, the length rule classifies the URL-stripped, trimmed
    text as CJK-dominant exactly when the text is not empty and the ratio of
    its CJK code points to its length, counting every character of it, inner
    blanks included, exceeds 0.3 (the quotient and the comparison are those
    of binary64). A CJK-dominant text fails with the single issue too_short
    when its character count is below [min_text_length] (20 by default),
    any other text when its count of whitespace-separated words is; the rule
    fails in no other case. *)
#[warnings="-inexact-float"]
Theorem length_rule_counts_characters_or_words self tweet :
  let clean := _remove_urls_from_text (text tweet) in
  let cjk := len (List.filter is_cjk clean) in
  let dominant :=
    negb (len clean =? 0)
    && (0.3 <? float_of_int cjk / float_of_int (len clean))%float in
  List.find (fun r => rule_enabled self r && rule_fails self tweet r)
    [MediaOnly; ReplyWithoutContext] = None ->
  _is_chinese_text clean = dominant /\
  min_text_length (init default_config) = 20 /\
  (issues (_check_rules self tweet) = tags ["too_short"] <->
   (if dominant then len clean <? min_text_length self
    else len (split clean) <? min_text_length self) = true) /\
  (issues (_check_rules self tweet) = tags ["too_short"] ->
   passed (_check_rules self tweet) = false).
Proof.
  intros clean cjk dominant Hfirst.
  assert (Hzh : _is_chinese_text clean = dominant).
  { subst dominant cjk clean. unfold _is_chinese_text.
    rewrite remove_urls_stripped.
    destruct (len (_remove_urls_from_text (text tweet)) =? 0); reflexivity. }
  split; [exact Hzh|]. split; [reflexivity|].
  pose proof (check_rules_run_chain self tweet) as H.
  unfold run_chain, enabled_chain in H. rewrite find_filter in H.
  unfold rule_order in H. rewrite !find_cons in H. rewrite !find_cons in Hfirst.
  destruct (rule_enabled self MediaOnly && rule_fails self tweet MediaOnly);
    [discriminate|].
  destruct (rule_enabled self ReplyWithoutContext
            && rule_fails self tweet ReplyWithoutContext); [discriminate|].
  change (rule_enabled self TooShort && rule_fails self tweet TooShort)
    with (if _is_chinese_text clean then len clean <? min_text_length self
          else len (split clean) <? min_text_length self) in H.
  rewrite Hzh in H.
  destruct (if dominant then _ else _).
  - rewrite H. split; [split|]; reflexivity.
  - destruct tags_too_short_distinct as [D1 D2].
    destruct (rule_enabled self VagueReference && _); simpl List.find in H;
      rewrite H; simpl issues; simpl rule_tag; split; try split; intros E;
      try discriminate; try (symmetry in E; contradiction).
Qed.
End RuleEngineFacts.

(** C6, the claim as stated fails: the URL-stripped text of [mixed_tweet] has
    6 CJK code points among 23 characters, 19 of them non-blank. The ratio to
    the non-blank characters exceeds 0.3, so the claim judges the text by its
    23 characters, which pass the default threshold of 20; the code divides
    by all 23 characters, judges the text by its 5 words and fails it. *)
#[warnings="-inexact-float"]
Lemma cjk_ratio_is_not_over_non_blank_characters :
  let clean := @_remove_urls_from_text (text mixed_tweet) in
  len (List.filter is_cjk clean) = 6 /\
  len clean = 23 /\
  len (List.filter (fun c => negb (isspace c)) clean) = 19 /\
  spec_cjk_dominant clean = true /\
  _is_chinese_text clean = false /\
  spec_length_rule_fails 20 clean = false /\
  issues (@_check_rules basic_runtime (init default_config) mixed_tweet)
  = tags ["too_short"].
Proof. vm_compute. repeat split; reflexivity. Qed.

Lemma length_rule_counts_characters_or_words_witness :
  let self := init default_config in
  let tweet := sample_tweet "太棒了！" false false [] in
  List.find (fun r => rule_enabled self r
                      && @rule_fails basic_runtime self tweet r)
    [MediaOnly; ReplyWithoutContext] = None /\
  @_is_chinese_text (@_remove_urls_from_text (text tweet)) = true /\
  issues (@_check_rules basic_runtime self tweet) = tags ["too_short"] /\
  passed (@_check_rules basic_runtime self tweet) = false.
Proof.
  intros self tweet.
  assert (H : List.find (fun r => rule_enabled self r
                                  && @rule_fails basic_runtime self tweet r)
                [MediaOnly; ReplyWithoutContext] = None)
    by (vm_compute; reflexivity).
  split; [exact H|].
  destruct (@length_rule_counts_characters_or_words basic_runtime self tweet H)
    as (Hzh & _ & Hiff & Hpassed).
  assert (Hi : issues (@_check_rules basic_runtime self tweet)
               = tags ["too_short"])
    by (apply Hiff; vm_compute; reflexivity).
  split; [rewrite Hzh; vm_compute; reflexivity|].
  split; [exact Hi|exact (Hpassed Hi)].
Defined.


(** ** Response parser and scoring task *)

Section ParserFacts.
Context `{RT : PyRuntime}.

Lemma dict_get_absent key d default :
  dict_has key d = false -> dict_get key d default = default.
Proof.
  induction d as [|[k v] d IH]; [reflexivity|].
  simpl. destruct (bool_decide (k = key)); [discriminate|]. exact IH.
Qed.

Lemma py_float_default : py_float (PInt 50) = Ok 50%float.
Proof. vm_compute. reflexivity. Qed.

(** C4. For every response of the scorer from which no JSON object can be
    extracted (the pattern finds no match) or decoded ([json.loads] raises),
    and for every failure policy, the parser returns a result with passed
    true, score 50 and the single issue parse_error; so does the scoring
    task, which never consults the policy on this path. *)
Theorem parse_failure_passes_with_score_50 self response (policy : pystr) :
  re_search_group json_pattern response = None \/
  (exists json_str msg,
     re_search_group json_pattern response = Some json_str /\
     json_loads json_str = inr msg) ->
  exists diagnostic,
    let result :=
      {| passed := true; score := Some 50%float;
         issues := tags ["parse_error"]; reason := PStr diagnostic |} in
    _parse_ai_response self response = Ok result /\
    _parse_ai_response (with_on_failure policy self) response = Ok result /\
    _analyze_tweet_quality (with_on_failure policy self) (Responded response)
    = result.
Proof.
  intros [Hnone | (json_str & msg & Hsome & Hbad)].
  - exists (py "无法解析AI响应").
    unfold _analyze_tweet_quality, _parse_ai_response, parse_try.
    rewrite Hnone. repeat split; reflexivity.
  - exists (py "解析AI响应失败: " ++ msg).
    unfold _analyze_tweet_quality, _parse_ai_response, parse_try.
    rewrite Hsome, Hbad. repeat split; reflexivity.
Qed.

(** C7, as amended. For every response whose JSON object is extracted and
    decoded: the score is read with 50 as the default of an absent key, the
    issues with the empty list as the default (a null is replaced by the
    empty list), the analysis with the empty string as the default. When the
    score converts to a number, the result has that score, the issues read,
    passed = (score >= min_quality_score), and the analysis as its reason
    exactly when not passed. When the score is a string that is not a
    number, the result is the parse-error fallback: passed, score 50, the
    single issue parse_error. *)
Theorem parse_decoded_response self response json_str data :
  re_search_group json_pattern response = Some json_str ->
  json_loads json_str = inl (PDict data) ->
  let raw := dict_get (py "score") data (PInt 50) in
  let issues_read :=
    match dict_get (py "issues") data (PList []) with
    | PNone => PList []
    | v => v
    end in
  let analysis := dict_get (py "analysis") data (PStr (py "")) in
  (dict_has (py "score") data = false -> py_float raw = Ok 50%float) /\
  (dict_has (py "issues") data = false -> issues_read = PList []) /\
  (dict_has (py "analysis") data = false -> analysis = PStr (py "")) /\
  (forall s, py_float raw = Ok s ->
     let ok := (min_quality_score self <=? s)%float in
     _parse_ai_response self response =
     Ok {| passed := ok; score := Some s; issues := issues_read;
           reason := if ok then PNone else analysis |}) /\
  (forall text, raw = PStr text -> float_of_str text = None ->
     exists diagnostic,
       _parse_ai_response self response =
       Ok {| passed := true; score := Some 50%float;
             issues := tags ["parse_error"]; reason := PStr diagnostic |}).
Proof.
  intros Hsome Hdata raw issues_read analysis.
  split.
  { intros Habs. subst raw. rewrite dict_get_absent by exact Habs.
    apply py_float_default. }
  split.
  { intros Habs. subst issues_read. rewrite dict_get_absent by exact Habs.
    reflexivity. }
  split.
  { intros Habs. subst analysis. apply dict_get_absent. exact Habs. }
  split.
  - intros s Hs ok.
    unfold _parse_ai_response, parse_try. rewrite Hsome, Hdata.
    fold raw. rewrite Hs. unfold new_result. fold analysis ok.
    subst issues_read.
    destruct (dict_get (py "issues") data (PList [])), ok; reflexivity.
  - intros text Hraw Hbad.
    exists (py "解析AI响应失败: " ++ py "could not convert string to float: " ++ text).
    unfold _parse_ai_response, parse_try. rewrite Hsome, Hdata.
    fold raw. rewrite Hraw. unfold py_float. rewrite Hbad. reflexivity.
Qed.

(** C5. For every filter, a scoring task whose call times out resolves to a
    result (not to an exception) with score 50, the single issue ai_timeout,
    the timeout reason, and passed equal to (on_failure != 'filter'); the
    loop over the results then files the tweet accordingly, with quality
    score 50. *)
Theorem timeout_resolves_to_default_result self :
  let result :=
    {| passed := negb (bool_decide (on_failure self = py "filter"));
       score := Some 50%float; issues := tags ["ai_timeout"];
       reason := PStr (py "AI分析超时") |} in
  _analyze_tweet_quality self TimedOut = result /\
  (forall k, scoring_tasks self (fun _ => TimedOut) k = Returned result) /\
  (forall st tweet,
     passed_tweets (ai_step self st (tweet, Returned result)) =
       (if bool_decide (on_failure self = py "filter") then passed_tweets st
        else passed_tweets st ++ [tweet]) /\
     filtered_tweets (ai_step self st (tweet, Returned result)) =
       (if bool_decide (on_failure self = py "filter")
        then filtered_tweets st ++ [tweet] else filtered_tweets st) /\
     quality_score (store (ai_step self st (tweet, Returned result)) tweet)
     = Some 50%float).
Proof.
  intros result.
  assert (H : _analyze_tweet_quality self TimedOut = result).
  { unfold _analyze_tweet_quality, result.
    destruct (bool_decide (on_failure self = py "filter")); reflexivity. }
  split; [exact H|]. split.
  { intros k. unfold scoring_tasks. rewrite H. reflexivity. }
  intros st tweet. unfold ai_step, result. simpl passed.
  destruct (bool_decide (on_failure self = py "filter")); simpl;
    rewrite fn_lookup_insert; repeat split; reflexivity.
Qed.

End ParserFacts.

Lemma parse_failure_passes_with_score_50_witness :
  let self := init default_config in
  let prose := py "Sorry, I cannot rate this tweet." in
  let broken := py "{score: 85, issues: none}" in
  re_search_group json_pattern prose = None /\
  (exists diagnostic,
     @_analyze_tweet_quality basic_runtime
       (with_on_failure (py "filter") self) (Responded prose)
     = {| passed := true; score := Some 50%float;
          issues := tags ["parse_error"]; reason := PStr diagnostic |}) /\
  re_search_group json_pattern broken = Some broken /\
  @json_loads basic_runtime broken = inr (py "Expecting value") /\
  (exists diagnostic,
     @_analyze_tweet_quality basic_runtime
       (with_on_failure (py "filter") self) (Responded broken)
     = {| passed := true; score := Some 50%float;
          issues := tags ["parse_error"]; reason := PStr diagnostic |}).
Proof.
  intros self prose broken.
  assert (H1 : re_search_group json_pattern prose = None)
    by (vm_compute; reflexivity).
  assert (H2 : re_search_group json_pattern broken = Some broken)
    by (vm_compute; reflexivity).
  assert (H3 : @json_loads basic_runtime broken = inr (py "Expecting value"))
    by (vm_compute; reflexivity).
  split; [exact H1|]. split.
  { destruct (@parse_failure_passes_with_score_50 basic_runtime self prose
                (py "filter") (or_introl H1)) as (diagnostic & _ & _ & Hr).
    exists diagnostic. exact Hr. }
  split; [exact H2|]. split; [exact H3|].
  destruct (@parse_failure_passes_with_score_50 basic_runtime self broken
              (py "filter")
              (or_intror (ex_intro _ broken (ex_intro _ _ (conj H2 H3)))))
    as (diagnostic & _ & _ & Hr).
  exists diagnostic. exact Hr.
Defined.

Lemma parse_decoded_response_witness :
  let self := init default_config in
  let response := pyq "{'score': 85, 'issues': [], 'analysis': 'ok'}" in
  let data := [(py "analysis", PStr (py "ok")); (py "issues", PList []);
               (py "score", PInt 85)] in
  re_search_group json_pattern response = Some response /\
  @json_loads basic_runtime response = inl (PDict data) /\
  @_parse_ai_response basic_runtime self response =
  Ok {| passed := true; score := Some 85%float; issues := PList [];
        reason := PNone |}.
Proof.
  intros self response data.
  assert (H1 : re_search_group json_pattern response = Some response)
    by (vm_compute; reflexivity).
  assert (H2 : @json_loads basic_runtime response = inl (PDict data))
    by (vm_compute; reflexivity).
  split; [exact H1|]. split; [exact H2|].
  destruct (@parse_decoded_response basic_runtime self response response data
              H1 H2) as (_ & _ & _ & Hok & _).
  rewrite (Hok 85%float) by (vm_compute; reflexivity).
  vm_compute. reflexivity.
Defined.

(** C7, the claim as stated fails on a score that is not a number: the JSON
    object below is extracted and decoded, the result carries score 50 and
    is passed although 50 is below the minimum of 60, and its issues are not
    those of the object. *)
Lemma invalid_score_is_a_parse_error :
  let self := init default_config in
  let response := pyq "{'score': 'high', 'issues': [], 'analysis': 'fine'}" in
  exists data result,
    re_search_group json_pattern response = Some response /\
    @json_loads basic_runtime response = inl (PDict data) /\
    dict_get (py "score") data (PInt 50) = PStr (py "high") /\
    dict_get (py "issues") data (PList []) = PList [] /\
    @_parse_ai_response basic_runtime self response = Ok result /\
    score result = Some 50%float /\
    (min_quality_score self <=? 50)%float = false /\
    passed result = true /\
    issues result = tags ["parse_error"].
Proof.
  intros self response.
  eexists. eexists.
  split; [vm_compute; reflexivity|].
  split; [vm_compute; reflexivity|].
  split; [vm_compute; reflexivity|].
  split; [vm_compute; reflexivity|].
  split; [vm_compute; reflexivity|].
  repeat split; vm_compute; reflexivity.
Qed.

(** ** Batches and the AI stage *)

Section Lists.
Context {A B : Type}.

Lemma slice_take_drop (l : list A) (lo hi : Z) :
  0 <= lo <= hi ->
  slice l lo hi = take (Z.to_nat hi - Z.to_nat lo) (drop (Z.to_nat lo) l).
Proof.
  intros H. unfold slice, len.
  destruct (lo <? 0) eqn:E1; [lia|]. destruct (hi <? 0) eqn:E2; [lia|].
  destruct (Z_le_gt_dec (Z.of_nat (length l)) lo) as [Hge|Hlt].
  - rewrite !drop_ge by lia. rewrite !take_nil. reflexivity.
  - rewrite (Z.min_l lo) by lia.
    destruct (Z_le_gt_dec (Z.of_nat (length l)) hi) as [Hge'|Hlt'].
    + rewrite Z.min_r by lia.
      rewrite !take_ge; [reflexivity| |]; rewrite length_drop; lia.
    + rewrite Z.min_l by lia. f_equal. lia.
Qed.

Lemma drop_imap (f : nat -> A -> B) (i : nat) (l : list A) :
  drop i (imap f l) = imap (fun k => f (i + k)%nat) (drop i l).
Proof.
  revert f l. induction i as [|i IH]; intros f l; [reflexivity|].
  destruct l as [|x l]; [reflexivity|]. simpl. rewrite IH. reflexivity.
Qed.

Lemma take_imap (f : nat -> A -> B) (n : nat) (l : list A) :
  take n (imap f l) = imap f (take n l).
Proof.
  revert f n. induction l as [|x l IH]; intros f n; [destruct n; reflexivity|].
  destruct n as [|n]; [reflexivity|]. simpl. rewrite IH. reflexivity.
Qed.

Lemma zip_imap (g : nat -> B) (l : list A) :
  zip l (imap (fun k _ => g k) l) = imap (fun k x => (x, g k)) l.
Proof.
  revert g. induction l as [|x l IH]; intros g; [reflexivity|].
  simpl. f_equal. apply (IH (g ∘ S)).
Qed.

Lemma fmap_fst_imap (g : nat -> B) (l : list A) :
  (imap (fun k x => (x, g k)) l).*1 = l.
Proof.
  revert g. induction l as [|x l IH]; intros g; [reflexivity|].
  simpl. f_equal. apply (IH (g ∘ S)).
Qed.

(** Consecutive chunks of [b] elements make up a prefix of the list. *)
Lemma concat_chunks (b m : nat) (l : list A) :
  concat (map (fun k => take b (drop (k * b) l)) (seq 0 m)) = take (m * b) l.
Proof.
  induction m as [|m IH]; [reflexivity|].
  rewrite seq_S, map_app, concat_app, IH. simpl.
  rewrite app_nil_r, take_take_drop. f_equal. lia.
Qed.

Lemma fold_left_concat (f : B -> A -> B) (ls : list (list A)) (a : B) :
  fold_left f (concat ls) a = fold_left (fun a l => fold_left f l a) ls a.
Proof.
  revert a. induction ls as [|l ls IH]; intros a; [reflexivity|].
  simpl. rewrite fold_left_app. apply IH.
Qed.

End Lists.

(** The starting indices of the batches, for a positive batch size. *)
Lemma py_range_batches (n bs : Z) :
  0 <= n -> 0 < bs ->
  py_range 0 n bs =
  Ok (map (fun k => Z.of_nat (k * Z.to_nat bs))
        (seq 0 (Z.to_nat ((n + bs - 1) / bs)))).
Proof.
  intros Hn Hbs. unfold py_range.
  destruct (bs =? 0) eqn:E; [lia|]. destruct (0 <? bs) eqn:E'; [|lia].
  f_equal. rewrite Z.sub_0_r. apply map_ext. intros k.
  rewrite Nat2Z.inj_mul, Z2Nat.id by lia. lia.
Qed.

Lemma batch_count_covers (n bs : Z) :
  0 <= n -> 0 < bs ->
  (Z.to_nat n <= Z.to_nat ((n + bs - 1) / bs) * Z.to_nat bs)%nat.
Proof.
  intros Hn Hbs.
  assert (H : n <= (n + bs - 1) / bs * bs).
  { pose proof (Z.mul_div_le (n + bs - 1) bs Hbs).
    pose proof (Z.mod_pos_bound (n + bs - 1) bs Hbs).
    pose proof (Z.div_mod (n + bs - 1) bs). lia. }
  assert (0 <= (n + bs - 1) / bs) by (apply Z.div_pos; lia).
  apply Nat2Z.inj_le. rewrite Nat2Z.inj_mul, !Z2Nat.id by lia. exact H.
Qed.

Lemma ai_batch_chunk self gather tweets st (k : nat) :
  0 < batch_size self ->
  ai_batch self gather tweets st (Z.of_nat (k * Z.to_nat (batch_size self))) =
  fold_left (ai_step self)
    (take (Z.to_nat (batch_size self))
       (drop (k * Z.to_nat (batch_size self)) (gathered gather tweets))) st.
Proof.
  intros Hbs. unfold ai_batch, gathered.
  set (b := Z.to_nat (batch_size self)).
  rewrite slice_take_drop by lia.
  replace (Z.to_nat (Z.of_nat (k * b) + batch_size self)
           - Z.to_nat (Z.of_nat (k * b)))%nat with b by lia.
  rewrite Nat2Z.id, zip_imap, drop_imap, take_imap. reflexivity.
Qed.

(** For a positive batch size, the loop over the batches is one pass over
    the tweets and their results in input order. *)
Lemma apply_ai_filters_one_pass self gather h tweets :
  0 < batch_size self ->
  _apply_ai_filters self gather h tweets =
  Ok (fold_left (ai_step self) (gathered gather tweets)
        {| store := h; passed_tweets := []; filtered_tweets := [] |}).
Proof.
  intros Hbs. unfold _apply_ai_filters.
  rewrite py_range_batches by (unfold len; lia). f_equal.
  set (b := Z.to_nat (batch_size self)).
  set (m := Z.to_nat ((len tweets + batch_size self - 1) / batch_size self)).
  set (st := {| store := h; passed_tweets := []; filtered_tweets := [] |}).
  transitivity
    (fold_left (fun st l => fold_left (ai_step self) l st)
       (map (fun k => take b (drop (k * b) (gathered gather tweets)))
          (seq 0 m)) st).
  - generalize st. generalize (seq 0 m). intros ks.
    induction ks as [|k ks IH]; intros st'; [reflexivity|].
    simpl. rewrite <- IH. f_equal. apply ai_batch_chunk. exact Hbs.
  - rewrite <- fold_left_concat, concat_chunks, take_ge; [reflexivity|].
    unfold gathered. rewrite length_imap.
    pose proof (batch_count_covers (len tweets) (batch_size self)
                  ltac:(unfold len; lia) Hbs) as H.
    unfold len in H. rewrite Nat2Z.id in H. exact H.
Qed.

Section OnePass.
Variable self : TweetQualityFilter.

Lemma ai_step_passed st item :
  passed_tweets (ai_step self st item) =
  passed_tweets st ++ (if task_passes self item.2 then [item.1] else []).
Proof.
  destruct item as [tweet [result|e]]; unfold ai_step, task_passes; simpl.
  - destruct (passed result); simpl; rewrite ?app_nil_r; reflexivity.
  - destruct (bool_decide _); simpl; rewrite ?app_nil_r; reflexivity.
Qed.

Lemma ai_step_filtered st item :
  filtered_tweets (ai_step self st item) =
  filtered_tweets st ++ (if task_passes self item.2 then [] else [item.1]).
Proof.
  destruct item as [tweet [result|e]]; unfold ai_step, task_passes; simpl.
  - destruct (passed result); simpl; rewrite ?app_nil_r; reflexivity.
  - destruct (bool_decide _); simpl; rewrite ?app_nil_r; reflexivity.
Qed.

Lemma ai_step_store st item r :
  store (ai_step self st item) r =
  if decide (item.1 = r) then annotate self item.2 (store st r)
  else store st r.
Proof.
  destruct item as [tweet [result|e]]; unfold ai_step, annotate; simpl.
  - destruct (passed result); simpl; destruct (decide (tweet = r)) as [->|Hne];
      rewrite ?fn_lookup_insert, ?fn_lookup_insert_ne by exact Hne; reflexivity.
  - destruct (bool_decide _); simpl; destruct (decide (tweet = r)) as [->|Hne];
      rewrite ?fn_lookup_insert, ?fn_lookup_insert_ne by exact Hne; reflexivity.
Qed.

Lemma one_pass_passed items st :
  passed_tweets (fold_left (ai_step self) items st) =
  passed_tweets st ++ (filter (fun it => task_passes self it.2) items).*1.
Proof.
  revert st. induction items as [|it items IH]; intros st.
  - simpl. rewrite app_nil_r. reflexivity.
  - simpl fold_left. rewrite IH, ai_step_passed, filter_cons.
    destruct (task_passes self it.2) eqn:E.
    + rewrite decide_True by exact I.
      rewrite <- app_assoc. reflexivity.
    + rewrite decide_False by exact id.
      rewrite app_nil_r. reflexivity.
Qed.

Lemma one_pass_filtered items st :
  filtered_tweets (fold_left (ai_step self) items st) =
  filtered_tweets st ++ (filter (fun it => ¬ task_passes self it.2) items).*1.
Proof.
  revert st. induction items as [|it items IH]; intros st.
  - simpl. rewrite app_nil_r. reflexivity.
  - simpl fold_left. rewrite IH, ai_step_filtered, filter_cons.
    destruct (task_passes self it.2) eqn:E.
    + rewrite decide_False by (intros H; exact (H I)).
      rewrite app_nil_r. reflexivity.
    + rewrite decide_True by exact id.
      rewrite <- app_assoc. reflexivity.
Qed.

(** A reference that is not among the tweets of the pass keeps its value. *)
Lemma one_pass_store_other items st r :
  r ∉ items.*1 -> store (fold_left (ai_step self) items st) r = store st r.
Proof.
  revert st. induction items as [|it items IH]; intros st Hr; [reflexivity|].
  simpl in *. rewrite not_elem_of_cons in Hr. destruct Hr as [Hne Hr].
  rewrite IH by exact Hr. rewrite ai_step_store.
  rewrite decide_False by congruence. reflexivity.
Qed.

(** A tweet that occurs once is annotated with the result of its task. *)
Lemma one_pass_store_item items st r o :
  NoDup items.*1 -> (r, o) ∈ items ->
  store (fold_left (ai_step self) items st) r = annotate self o (store st r).
Proof.
  revert st. induction items as [|it items IH]; intros st Hnd Hin.
  - inversion Hin.
  - simpl in *. apply NoDup_cons in Hnd as [Hfresh Hnd].
    apply elem_of_cons in Hin as [<-|Hin].
    + rewrite one_pass_store_other by exact Hfresh.
      rewrite ai_step_store. simpl. rewrite decide_True by reflexivity.
      reflexivity.
    + rewrite (IH _ Hnd Hin). rewrite ai_step_store.
      rewrite decide_False; [reflexivity|].
      intros Heq. apply Hfresh. rewrite Heq.
      apply (list_elem_of_fmap_2 fst _ _ Hin).
Qed.

Lemma annotate_clear o t :
  clear_annotations (annotate self o t) = clear_annotations t.
Proof.
  destruct o as [result|e]; unfold annotate.
  - destruct (passed result); reflexivity.
  - destruct (bool_decide _); reflexivity.
Qed.

(** The pass writes nothing but the three annotations. *)
Lemma one_pass_frame items st r :
  clear_annotations (store (fold_left (ai_step self) items st) r) =
  clear_annotations (store st r).
Proof.
  revert st. induction items as [|it items IH]; intros st; [reflexivity|].
  simpl. rewrite IH, ai_step_store.
  destruct (decide (it.1 = r)); [apply annotate_clear|reflexivity].
Qed.

End OnePass.

(** ** The rule stage *)

Lemma py_range_negative_step (n bs : Z) :
  0 <= n -> bs < 0 -> py_range 0 n bs = Ok [].
Proof.
  intros Hn Hbs. unfold py_range.
  destruct (bs =? 0) eqn:E; [lia|]. destruct (0 <? bs) eqn:E'; [lia|].
  replace (Z.to_nat ((0 - n - bs - 1) / - bs)) with O; [reflexivity|].
  assert ((0 - n - bs - 1) / - bs <= 0); [|lia].
  assert ((0 - n - bs - 1) / - bs < 1); [|lia].
  apply Z.div_lt_upper_bound; lia.
Qed.

Section RuleStage.
Context `{RT : PyRuntime}.
Variable self : TweetQualityFilter.

(** The rules read none of the three annotations. *)
Lemma check_rules_clear t :
  _check_rules self (clear_annotations t) = _check_rules self t.
Proof. reflexivity. Qed.

Lemma check_rules_same t t' :
  clear_annotations t = clear_annotations t' ->
  _check_rules self t = _check_rules self t'.
Proof.
  intros H. rewrite <- (check_rules_clear t), H. apply check_rules_clear.
Qed.

Lemma rule_step_same h st tweet :
  same_tweets h (store st) -> same_tweets h (store (rule_step self st tweet)).
Proof.
  intros Hs r. unfold rule_step.
  destruct (passed (_check_rules self (store st tweet))); simpl; [apply Hs|].
  destruct (decide (tweet = r)) as [->|Hne].
  - rewrite fn_lookup_insert. rewrite <- Hs. reflexivity.
  - rewrite fn_lookup_insert_ne by exact Hne. apply Hs.
Qed.

Lemma rule_step_check h st tweet :
  same_tweets h (store st) ->
  passed (_check_rules self (store st tweet)) = rule_passes self h tweet.
Proof. intros Hs. unfold rule_passes. f_equal. apply check_rules_same, Hs. Qed.

Lemma rule_step_passed h st tweet :
  same_tweets h (store st) ->
  passed_tweets (rule_step self st tweet) =
  passed_tweets st ++ (if rule_passes self h tweet then [tweet] else []).
Proof.
  intros Hs. unfold rule_step. rewrite (rule_step_check h st tweet Hs).
  destruct (rule_passes self h tweet); simpl; rewrite ?app_nil_r; reflexivity.
Qed.

Lemma rule_step_filtered h st tweet :
  same_tweets h (store st) ->
  filtered_tweets (rule_step self st tweet) =
  filtered_tweets st ++ (if rule_passes self h tweet then [] else [tweet]).
Proof.
  intros Hs. unfold rule_step. rewrite (rule_step_check h st tweet Hs).
  destruct (rule_passes self h tweet); simpl; rewrite ?app_nil_r; reflexivity.
Qed.

(** The rule stage writes on failed tweets only. *)
Lemma rule_step_keeps h st tweet r :
  same_tweets h (store st) -> rule_passes self h r = true ->
  store (rule_step self st tweet) r = store st r.
Proof.
  intros Hs Hr. unfold rule_step. rewrite (rule_step_check h st tweet Hs).
  destruct (rule_passes self h tweet) eqn:E; [reflexivity|]. simpl.
  apply fn_lookup_insert_ne. intros ->. congruence.
Qed.

Lemma rule_stage_lists h tweets st :
  same_tweets h (store st) ->
  passed_tweets (fold_left (rule_step self) tweets st) =
    passed_tweets st ++ filter (fun r => rule_passes self h r) tweets /\
  filtered_tweets (fold_left (rule_step self) tweets st) =
    filtered_tweets st ++ filter (fun r => ¬ rule_passes self h r) tweets /\
  same_tweets h (store (fold_left (rule_step self) tweets st)) /\
  (forall r, rule_passes self h r = true ->
     store (fold_left (rule_step self) tweets st) r = store st r).
Proof.
  revert st. induction tweets as [|tweet tweets IH]; intros st Hs.
  - simpl. rewrite !app_nil_r.
    split; [reflexivity|]. split; [reflexivity|]. split; [exact Hs|].
    intros; reflexivity.
  - simpl fold_left.
    destruct (IH _ (rule_step_same h st tweet Hs)) as (Hp & Hf & Hs' & Hk).
    rewrite Hp, Hf, (rule_step_passed h st tweet Hs),
      (rule_step_filtered h st tweet Hs), !filter_cons.
    split; [|split; [|split; [exact Hs'|]]].
    + destruct (rule_passes self h tweet).
      * rewrite decide_True by exact I. rewrite <- app_assoc. reflexivity.
      * rewrite decide_False by exact id. rewrite app_nil_r. reflexivity.
    + destruct (rule_passes self h tweet).
      * rewrite decide_False by (intros H; exact (H I)).
        rewrite app_nil_r. reflexivity.
      * rewrite decide_True by exact id. rewrite <- app_assoc. reflexivity.
    + intros r Hr. rewrite (Hk r Hr). apply (rule_step_keeps h); assumption.
Qed.

Lemma apply_rule_filters_spec h tweets :
  let rules := _apply_rule_filters self h tweets in
  passed_tweets rules = filter (fun r => rule_passes self h r) tweets /\
  filtered_tweets rules = filter (fun r => ¬ rule_passes self h r) tweets /\
  same_tweets h (store rules) /\
  (forall r, rule_passes self h r = true -> store rules r = h r).
Proof.
  apply (rule_stage_lists h tweets
           {| store := h; passed_tweets := []; filtered_tweets := [] |}).
  intros r. reflexivity.
Qed.

End RuleStage.

(** ** The pipeline *)

Section PipelineFacts.
Context `{RT : PyRuntime}.

(** The two lists that [filter_batch] returns, for a positive batch size. *)
Lemma filter_batch_lists self gather h tweets :
  (ai_enabled self = true -> 0 < batch_size self) ->
  exists p,
    filter_batch self gather h tweets = Ok p /\
    passed_tweets p =
      (if ai_enabled self then
         (filter (fun it => task_passes self it.2)
            (gathered gather (filter (fun r => rule_passes self h r) tweets))).*1
       else filter (fun r => rule_passes self h r) tweets) /\
    filtered_tweets p =
      filter (fun r => ¬ rule_passes self h r) tweets ++
      (if ai_enabled self then
         (filter (fun it => ¬ task_passes self it.2)
            (gathered gather (filter (fun r => rule_passes self h r) tweets))).*1
       else []).
Proof.
  intros Hbs. destruct tweets as [|tweet tweets].
  { eexists. split; [reflexivity|]. simpl. destruct (ai_enabled self); split; reflexivity. }
  unfold filter_batch.
  destruct (apply_rule_filters_spec self h (tweet :: tweets))
    as (Hp & Hf & _ & _).
  set (rules := _apply_rule_filters self h (tweet :: tweets)) in *.
  destruct (ai_enabled self) eqn:Eai; simpl andb.
  - destruct (bool_decide (passed_tweets rules = [])) eqn:Eempty; simpl negb.
    + apply bool_decide_eq_true in Eempty.
      eexists. split; [reflexivity|].
      rewrite <- Hp, <- Hf, Eempty. simpl. rewrite app_nil_r. split; reflexivity.
    + rewrite apply_ai_filters_one_pass by (apply Hbs; reflexivity).
      eexists. split; [reflexivity|]. simpl.
      rewrite one_pass_passed, one_pass_filtered, Hp, Hf. simpl.
      split; reflexivity.
  - eexists. split; [reflexivity|]. rewrite Hp, Hf, app_nil_r. split; reflexivity.
Qed.

Lemma gathered_partition self gather (tweets : list ref) :
  (filter (fun it => task_passes self it.2) (gathered gather tweets)).*1 ++
  (filter (fun it => ¬ task_passes self it.2) (gathered gather tweets)).*1
  ≡ₚ tweets.
Proof.
  rewrite <- fmap_app, filter_app_complement.
  unfold gathered. rewrite fmap_fst_imap. reflexivity.
Qed.

(** C10, as amended. For every configuration whose batch size is positive
    (or whose AI stage is disabled), every input list and every outcome of
    the scoring tasks, a result or an exception for each, [filter_batch]
    returns, and the passed and filtered lists together are a permutation of
    the input: no tweet is dropped or duplicated. *)
Theorem filter_batch_partitions_its_input self gather h tweets :
  (ai_enabled self = true -> 0 < batch_size self) ->
  exists p,
    filter_batch self gather h tweets = Ok p /\
    passed_tweets p ++ filtered_tweets p ≡ₚ tweets.
Proof.
  intros Hbs.
  destruct (filter_batch_lists self gather h tweets Hbs) as (p & Hp & Hpass & Hfilt).
  exists p. split; [exact Hp|]. rewrite Hpass, Hfilt.
  rewrite <- (filter_app_complement (fun r => rule_passes self h r) tweets) at 5.
  destruct (ai_enabled self).
  - rewrite (Permutation_app_comm (filter (fun r => ¬ rule_passes self h r) tweets)).
    rewrite app_assoc. apply Permutation_app; [|reflexivity].
    apply gathered_partition.
  - rewrite app_nil_r. reflexivity.
Qed.



(** C1, as amended. For every run of [filter_batch] with the AI stage
    enabled: the run changes no field of any tweet other than the three
    annotations; and when the input holds no tweet object twice, a tweet
    returned as passed differs from its value at input at most in its
    quality score, which the AI stage sets to the score of the result of its
    task (a tweet whose task raised, passed under on_failure = 'pass', is
    unmodified); its quality issues and filtered reason are those of the
    input. *)
Theorem passed_posts_gain_only_their_score self gather h tweets p :
  filter_batch self gather h tweets = Ok p ->
  ai_enabled self = true ->
  NoDup tweets ->
  (forall r, clear_annotations (store p r) = clear_annotations (h r)) /\
  (forall r, r ∈ passed_tweets p ->
     quality_issues (store p r) = quality_issues (h r) /\
     filtered_reason (store p r) = filtered_reason (h r) /\
     exists k,
       passed_tweets (_apply_rule_filters self h tweets) !! k = Some r /\
       match gather k with
       | Returned result =>
         passed result = true /\
         store p r = set_quality_score (score result) (h r)
       | Raised _ => on_failure self = py "pass" /\ store p r = h r
       end).
Proof.
  intros Hp Hai Hnd.
  destruct (apply_rule_filters_spec self h tweets) as (Hrp & Hrf & Hsame & Hkeep).
  set (rules := _apply_rule_filters self h tweets) in *.
  assert (Hrun :
    p = rules /\ passed_tweets rules = [] \/
    exists ai, _apply_ai_filters self gather (store rules) (passed_tweets rules)
               = Ok ai /\
               store p = store ai /\ passed_tweets p = passed_tweets ai).
  { unfold filter_batch in Hp. destruct tweets as [|tweet tweets].
    - left. injection Hp as <-. split; reflexivity.
    - fold rules in Hp. rewrite Hai in Hp. simpl andb in Hp.
      destruct (bool_decide (passed_tweets rules = [])) eqn:E; simpl in Hp.
      + left. apply bool_decide_eq_true in E. injection Hp as <-.
        split; [reflexivity|exact E].
      + right.
        destruct (_apply_ai_filters self gather (store rules)
                    (passed_tweets rules)) as [ai|e]; [|discriminate].
        injection Hp as <-. exists ai. repeat split; reflexivity. }
  destruct Hrun as [[-> Hnil] | (ai & Hrun & Hst & Hpass)].
  { split; [exact Hsame|]. intros r Hr. rewrite Hnil in Hr. inversion Hr. }
  destruct (Z_lt_le_dec 0 (batch_size self)) as [Hbs|Hbs].
  2:{ assert (Hempty : passed_tweets ai = [] /\ store ai = store rules).
      { unfold _apply_ai_filters in Hrun.
        destruct (Z.eq_dec (batch_size self) 0) as [H0|H0].
        - unfold py_range in Hrun. rewrite H0 in Hrun. simpl in Hrun.
          discriminate.
        - rewrite py_range_negative_step in Hrun by (unfold len; lia).
          injection Hrun as <-. split; reflexivity. }
      destruct Hempty as [Hnil Hst'].
      split; [intros r; rewrite Hst, Hst'; apply Hsame|].
      intros r Hr. rewrite Hpass, Hnil in Hr. inversion Hr. }
  rewrite apply_ai_filters_one_pass in Hrun by exact Hbs.
  injection Hrun as <-.
  split.
  { intros r. rewrite Hst, one_pass_frame. apply Hsame. }
  intros r Hr. rewrite Hpass, one_pass_passed in Hr. simpl in Hr.
  apply list_elem_of_fmap in Hr as ([r' o] & -> & Hin). simpl.
  apply list_elem_of_filter in Hin as [Hok Hin]. simpl in Hok.
  assert (Hndp : NoDup (gathered gather (passed_tweets rules)).*1).
  { unfold gathered. rewrite fmap_fst_imap, Hrp. apply NoDup_filter, Hnd. }
  assert (Hstore : store p r' = annotate self o (h r')).
  { rewrite Hst, (one_pass_store_item self _ _ r' o Hndp Hin). simpl.
    f_equal. apply Hkeep.
    assert (Hr' : r' ∈ passed_tweets rules).
    { rewrite <- (fmap_fst_imap gather (passed_tweets rules)).
      apply (list_elem_of_fmap_2 fst _ _ Hin). }
    rewrite Hrp in Hr'. apply list_elem_of_filter in Hr' as [Hr' _].
    apply Is_true_true in Hr'. exact Hr'. }
  unfold gathered in Hin. apply list_elem_of_lookup in Hin as [k Hk].
  rewrite list_lookup_imap in Hk.
  destruct (passed_tweets rules !! k) as [r''|] eqn:Ek; [|discriminate].
  simpl in Hk. injection Hk as -> <-.
  apply Is_true_true in Hok. unfold task_passes in Hok.
  unfold annotate in Hstore.
  destruct (gather k) as [result|e] eqn:Eg.
  - rewrite Hok in Hstore. rewrite Hstore.
    split; [reflexivity|]. split; [reflexivity|].
    exists k. split; [exact Ek|]. rewrite Eg.
    split; [exact Hok|reflexivity].
  - rewrite Hok in Hstore. rewrite Hstore.
    split; [reflexivity|]. split; [reflexivity|].
    exists k. split; [exact Ek|]. rewrite Eg.
    apply bool_decide_eq_true in Hok.
    split; [exact Hok|reflexivity].
Qed.

(** C2, as amended. For every configuration, [filter_batch] of the empty
    list returns two empty lists and changes nothing; and [filter_batch]
    never reads the key [enabled] of the configuration: with any other value
    for that key it returns the same result on every input. *)
Theorem filter_batch_empty_and_enabled_unread (c : Config) (flag : option bool)
    gather h tweets :
  filter_batch (init c) gather h [] =
    Ok {| store := h; passed_tweets := []; filtered_tweets := [] |} /\
  filter_batch (init (with_enabled flag c)) gather h tweets =
    filter_batch (init c) gather h tweets.
Proof. split; reflexivity. Qed.

End PipelineFacts.

(** C1, the claim as stated fails: with the AI stage enabled and a task that
    returns a passing result of score 85, the tweet returned as passed
    carries that score, which it did not have at input. *)
Lemma passed_post_is_annotated_with_its_score :
  let self := init default_config in
  exists p,
    @filter_batch basic_runtime self sample_gather sample_heap [0%nat] = Ok p /\
    ai_enabled self = true /\
    passed_tweets p = [0%nat] /\
    quality_score (sample_heap 0%nat) = None /\
    quality_score (store p 0%nat) = Some 85%float /\
    store p 0%nat <> sample_heap 0%nat.
Proof.
  intros self. eexists.
  split; [vm_compute; reflexivity|].
  split; [reflexivity|]. split; [reflexivity|]. split; [reflexivity|].
  split; [vm_compute; reflexivity|].
  intros H. apply (f_equal quality_score) in H. vm_compute in H. discriminate.
Qed.

Lemma passed_posts_gain_only_their_score_witness :
  let self := init default_config in
  let tweets := [0%nat; 1%nat; 2%nat] in
  exists p,
    @filter_batch basic_runtime self sample_gather sample_heap tweets = Ok p /\
    ai_enabled self = true /\
    NoDup tweets /\
    passed_tweets p = [0%nat; 2%nat] /\
    store p 0%nat = set_quality_score (Some 85%float) (sample_heap 0%nat) /\
    store p 2%nat = sample_heap 2%nat.
Proof.
  intros self tweets.
  assert (Hai : ai_enabled self = true) by reflexivity.
  assert (Hnd : NoDup tweets)
    by (apply (bool_decide_unpack _); vm_compute; exact I).
  assert (Hrules : passed_tweets
                     (@_apply_rule_filters basic_runtime self sample_heap tweets)
                   = [0%nat; 2%nat]) by (vm_compute; reflexivity).
  assert (Hrun : exists p,
            @filter_batch basic_runtime self sample_gather sample_heap tweets
            = Ok p /\ passed_tweets p = [0%nat; 2%nat])
    by (eexists; split; vm_compute; reflexivity).
  destruct Hrun as (p & Hp & Hpass). exists p.
  split; [exact Hp|]. split; [exact Hai|]. split; [exact Hnd|].
  split; [exact Hpass|].
  destruct (@passed_posts_gain_only_their_score basic_runtime self
              sample_gather sample_heap tweets p Hp Hai Hnd) as [_ H].
  rewrite Hpass, Hrules in H.
  split.
  - destruct (H 0%nat) as (_ & _ & k & Hk & Hr);
      [apply (bool_decide_unpack _); vm_compute; exact I|].
    destruct k as [|[|k]]; try discriminate Hk. exact (proj2 Hr).
  - destruct (H 2%nat) as (_ & _ & k & Hk & Hr);
      [apply (bool_decide_unpack _); vm_compute; exact I|].
    destruct k as [|[|k]]; try discriminate Hk. exact (proj2 Hr).
Defined.

(** C2, the claim as stated fails for a disabled filter: with [enabled] set to
    false in the configuration, [filter_batch] still runs the rule stage; it
    returns the tweet below as filtered, annotated, where the claim says it
    is returned as passed and unchanged. *)
Lemma disabled_filter_still_filters :
  let self :=
    init {| cfg_enabled := Some false; cfg_rules := None;
            cfg_ai_analysis := None |} in
  let h : heap := fun _ => short_tweet in
  cfg_enabled (config self) = Some false /\
  exists p,
    @filter_batch basic_runtime self sample_gather h [0%nat] = Ok p /\
    passed_tweets p = [] /\
    filtered_tweets p = [0%nat] /\
    quality_issues (store p 0%nat) = tags ["too_short"] /\
    store p 0%nat <> h 0%nat.
Proof.
  intros self h. split; [reflexivity|]. eexists.
  split; [vm_compute; reflexivity|].
  split; [reflexivity|]. split; [reflexivity|].
  split; [vm_compute; reflexivity|].
  intros H. apply (f_equal quality_issues) in H. vm_compute in H. discriminate.
Qed.

(** C10, the claim as stated fails for a batch size that is not positive:
    with a batch size of -1 the loop of the AI stage runs over an empty
    range, and the tweet below, which passes the rules, is in neither of the
    two lists returned. *)
Lemma negative_batch_size_drops_posts :
  let self := init (batch_config (-1)) in
  batch_size self = -1 /\
  exists p,
    @filter_batch basic_runtime self sample_gather sample_heap [0%nat] = Ok p /\
    passed_tweets p = [] /\
    filtered_tweets p = [] /\
    ~ (passed_tweets p ++ filtered_tweets p ≡ₚ [0%nat]).
Proof.
  intros self. split; [reflexivity|]. eexists.
  split; [vm_compute; reflexivity|].
  split; [reflexivity|]. split; [reflexivity|].
  intros H. apply Permutation_length in H. discriminate.
Qed.

Lemma filter_batch_partitions_its_input_witness :
  let self := init default_config in
  let tweets := [0%nat; 1%nat; 2%nat] in
  (ai_enabled self = true -> 0 < batch_size self) /\
  exists p,
    @filter_batch basic_runtime self sample_gather sample_heap tweets = Ok p /\
    passed_tweets p ++ filtered_tweets p ≡ₚ tweets.
Proof.
  intros self tweets.
  assert (Hbs : ai_enabled self = true -> 0 < batch_size self)
    by (intros _; reflexivity).
  split; [exact Hbs|].
  exact (@filter_batch_partitions_its_input basic_runtime self sample_gather
           sample_heap tweets Hbs).
Defined.


(** ** The unit tests of the repository, evaluated on the embedding

    The cases of [tests/unit/test_quality_filter.py], with the default rule
    configuration of its fixture, on [basic_runtime]. *)

Section UnitTests.
Let check (s : string) (reply quoted : bool) (m : list pyval) :=
  let result :=
    @_check_rules basic_runtime (init default_config)
      (sample_tweet s reply quoted m) in
  (passed result, issues result).
Let photo : list pyval :=
  [PDict [(py "type", PStr (py "photo"));
          (py "url", PStr (py "http://example.com/photo.jpg"))]].

Example test_filter_media_only_tweet :
  check "Nice! 👍" false false photo = (false, tags ["media_only"]).
Proof. vm_compute. reflexivity. Qed.

Example test_allow_media_with_text :
  check "This is a very detailed and comprehensive explanation of what's happening in this amazing photo and exactly why it matters so much to everyone involved in this discussion."
    false false photo = (true, PList []).
Proof. vm_compute. reflexivity. Qed.

Example test_filter_reply_without_context :
  check "Agree!" true false [] = (false, tags ["reply_without_context"]).
Proof. vm_compute. reflexivity. Qed.

Example test_allow_reply_with_quote :
  check "I completely agree with this very important point about the future of AI development and its significant impact on our society today!"
    true true [] = (true, PList []).
Proof. vm_compute. reflexivity. Qed.

Example test_allow_reply_with_clear_context :
  check "I think this innovative approach makes a lot of sense because it addresses the core fundamental issue very effectively with practical solutions."
    true false [] = (true, PList []).
Proof. vm_compute. reflexivity. Qed.

Example test_filter_too_short_chinese :
  check "太棒了！" false false [] = (false, tags ["too_short"]).
Proof. vm_compute. reflexivity. Qed.

Example test_allow_long_chinese :
  check "这是一个非常详细的推文，包含了足够的信息和上下文，让读者能够理解发生了什么。"
    false false [] = (true, PList []).
Proof. vm_compute. reflexivity. Qed.

Example test_filter_too_short_english :
  check "Great stuff!" false false [] = (false, tags ["too_short"]).
Proof. vm_compute. reflexivity. Qed.

Example test_allow_long_english :
  check "This is a comprehensive tweet that contains enough information and context for readers to understand what is happening and why it matters."
    false false [] = (true, PList []).
Proof. vm_compute. reflexivity. Qed.

Example test_filter_vague_chinese_reference :
  check "这个真棒啊真是太棒了" false false [] = (false, tags ["too_short"]).
Proof. vm_compute. reflexivity. Qed.

Example test_filter_vague_english_reference :
  check "This is so good wow amazing" false false []
  = (false, tags ["too_short"]).
Proof. vm_compute. reflexivity. Qed.

Example test_mixed_content :
  check "The new Claude AI 4.5 真的太强了，在各种复杂任务上的performance提升非常明显，特别是reasoning能力！"
    false false [] = (true, PList []).
Proof. vm_compute. reflexivity. Qed.

Example test_remove_urls_from_text :
  _remove_urls_from_text
    (py "Check this out https://example.com/article and http://another.com")
  = py "Check this out  and".
Proof. vm_compute. reflexivity. Qed.

Example test_is_chinese_text :
  _is_chinese_text (py "这是中文文本") = true /\
  _is_chinese_text (py "这是 mixed 文本") = true /\
  _is_chinese_text (py "This is English text") = false.
Proof. vm_compute. repeat split; reflexivity. Qed.

Example test_has_clear_context :
  @_has_clear_context basic_runtime
    (py "This is a sufficiently long text with clear context") = true /\
  @_has_clear_context basic_runtime (py "I think this is good") = true /\
  @_has_clear_context basic_runtime (pyq "He said 'hello' yesterday") = true /\
  @_has_clear_context basic_runtime (py "Great!") = false.
Proof. vm_compute. repeat split; reflexivity. Qed.

Example test_has_unclear_external_reference :
  @_has_unclear_external_reference basic_runtime (py "这个真不错") = true /\
  @_has_unclear_external_reference basic_runtime (py "那个太棒了") = true /\
  @_has_unclear_external_reference basic_runtime (py "This is so good") = true /\
  @_has_unclear_external_reference basic_runtime (py "That is very nice") = true /\
  @_has_unclear_external_reference basic_runtime
    (py "The new product launch was successful") = false.
Proof. vm_compute. repeat split; reflexivity. Qed.

Example test_ai_analysis_high_quality :
  @_analyze_tweet_quality basic_runtime (init default_config)
    (Responded
       (pyq "{'score': 85, 'issues': [], 'analysis': 'High quality content'}"))
  = {| passed := true; score := Some 85%float; issues := PList [];
       reason := PNone |}.
Proof. vm_compute. reflexivity. Qed.

Example test_ai_analysis_low_quality :
  @_analyze_tweet_quality basic_runtime (init default_config)
    (Responded
       (pyq "{'score': 25, 'issues': ['low_information'], 'analysis': 'Too vague'}"))
  = {| passed := false; score := Some 25%float;
       issues := tags ["low_information"]; reason := PStr (py "Too vague") |}.
Proof. vm_compute. reflexivity. Qed.

Example test_ai_failure_handling :
  let e := {| exn_kind := OtherError; exn_msg := py "API Error" |} in
  passed (@_analyze_tweet_quality basic_runtime (init default_config)
            (Failed e)) = true /\
  passed (@_analyze_tweet_quality basic_runtime
            (with_on_failure (py "filter") (init default_config))
            (Failed e)) = false.
Proof. vm_compute. split; reflexivity. Qed.

Example test_filter_batch_multiple_tweets :
  let rules_only :=
    {| cfg_enabled := Some true; cfg_rules := None;
       cfg_ai_analysis :=
         Some {| cfg_ai_enabled := Some false; cfg_min_quality_score := None;
                 cfg_batch_size := None; cfg_max_concurrent := None;
                 cfg_model := None; cfg_timeout_seconds := None;
                 cfg_on_failure := None |} |} in
  let h : heap := fun r =>
    match r with
    | 0%nat =>
      sample_tweet "This is a really good and comprehensive tweet with enough context and detailed information to be very valuable for readers."
        false false []
    | 1%nat => sample_tweet "Nice!" false false []
    | 2%nat => sample_tweet "这个真不错" false false []
    | _ =>
      sample_tweet "这是一个包含足够详细信息和完整上下文的优质推文，能让读者充分理解发生了什么事情以及为什么重要。"
        false false []
    end in
  match @filter_batch basic_runtime (init rules_only) sample_gather h
          [0%nat; 1%nat; 2%nat; 3%nat] with
  | Ok p =>
    passed_tweets p = [0%nat; 3%nat] /\ filtered_tweets p = [1%nat; 2%nat]
  | Raise _ => False
  end.
Proof. vm_compute. split; reflexivity. Qed.

End UnitTests.

(** * Further properties of the code

    Properties of the functions of the filter, read off the source: what the
    rules tell about a text, what the two stages write, and how the parser
    and the scoring task deal with answers that are not the expected
    object. *)

(** ** Rule engine: lengths *)

(** Words are separated by at least one blank. *)
Lemma split_aux_count cur l :
  (2 * length (split_aux cur l)
   <= length l + match cur with [] => 1 | _ => 2 end)%nat.
Proof.
  revert cur. induction l as [|c r IH]; intros cur.
  - destruct cur; simpl; lia.
  - simpl. destruct (isspace c).
    + destruct cur; simpl; specialize (IH []); simpl in IH; lia.
    + specialize (IH (c :: cur)). simpl in IH. destruct cur; lia.
Qed.

Lemma split_count l : 2 * len (split l) <= len l + 1.
Proof. unfold len, split. pose proof (split_aux_count [] l). simpl in *. lia. Qed.

(** Removing matches of a pattern only deletes characters. *)
Lemma re_sub_empty_sublist p skip l : re_sub_empty p skip l `sublist_of` l.
Proof.
  revert skip. induction l as [|c r IH]; intros skip; [constructor|].
  simpl. destruct skip as [|k].
  - destruct (p (c :: r)) as [[|k]|].
    + apply sublist_skip, IH.
    + apply sublist_cons, IH.
    + apply sublist_skip, IH.
  - apply sublist_cons, IH.
Qed.

Lemma lstrip_sublist_self l : lstrip l `sublist_of` l.
Proof.
  induction l as [|c r IH]; [constructor|].
  simpl. destruct (isspace c); [apply sublist_cons, IH|reflexivity].
Qed.

(** Trimming is monotone for subsequences. *)
Lemma lstrip_sublist l1 l2 :
  l1 `sublist_of` l2 -> lstrip l1 `sublist_of` lstrip l2.
Proof.
  induction 1 as [|x l1 l2 H IH|x l1 l2 H IH]; [constructor| |].
  - simpl. destruct (isspace x); [exact IH|apply sublist_skip, H].
  - simpl. destruct (isspace x); [exact IH|].
    apply sublist_cons. etransitivity; [apply lstrip_sublist_self|exact H].
Qed.

Lemma rev_sublist (l1 l2 : pystr) :
  l1 `sublist_of` l2 -> rev l1 `sublist_of` rev l2.
Proof.
  induction 1 as [|x l1 l2 H IH|x l1 l2 H IH]; [constructor| |]; simpl.
  - apply sublist_app; [exact IH|reflexivity].
  - rewrite <- (app_nil_r (rev l1)).
    apply sublist_app; [exact IH|apply sublist_nil_l].
Qed.

Lemma strip_sublist l1 l2 :
  l1 `sublist_of` l2 -> strip l1 `sublist_of` strip l2.
Proof.
  intros H. unfold strip, rstrip.
  apply rev_sublist, lstrip_sublist, rev_sublist, lstrip_sublist, H.
Qed.

Section RuleEngineMore.
Context `{RT : PyRuntime}.

Lemma clean_text_length text :
  len (_remove_urls_from_text text) <= len (strip text).
Proof.
  unfold _remove_urls_from_text, len. apply Nat2Z.inj_le, sublist_length.
  apply strip_sublist, re_sub_empty_sublist.
Qed.

Lemma unclear_reference_is_short text :
  _has_unclear_external_reference text = true -> len (strip text) < 30.
Proof.
  unfold _has_unclear_external_reference. intros H.
  apply existsb_exists in H as (pattern & _ & H).
  apply andb_true_iff in H as [_ H]. lia.
Qed.

(** X1. No tweet whose URL-stripped text has fewer characters than
    [min_text_length] passes the rules, whichever way the length rule
    classifies it: a text judged by its words has no more words than
    characters. *)
Theorem short_text_never_passes self tweet :
  len (_remove_urls_from_text (text tweet)) < min_text_length self ->
  passed (_check_rules self tweet) = false.
Proof.
  intros Hshort. rewrite check_rules_run_chain. unfold run_chain.
  destruct (List.find (rule_fails self tweet) (enabled_chain self)) eqn:E;
    [reflexivity|].
  assert (Hin : In TooShort (enabled_chain self)).
  { unfold enabled_chain. apply filter_In. split; [|reflexivity].
    right; right; left; reflexivity. }
  pose proof (find_none _ _ E _ Hin) as Hf. unfold rule_fails in Hf.
  pose proof (split_count (_remove_urls_from_text (text tweet))) as Hw.
  assert (0 <= len (_remove_urls_from_text (text tweet))) by (unfold len; lia).
  destruct (_is_chinese_text _); lia.
Qed.

Lemma rule_tag_vague r :
  tags [rule_tag r] = tags ["vague_reference"] -> r = VagueReference.
Proof.
  intros H. destruct r; [| | |reflexivity]; vm_compute in H; discriminate.
Qed.

(** X2. The vague-reference rule is reported only for a text of fewer than
    30 characters that the length rule has let through: at least
    [min_text_length] characters for a CJK-dominant text, at least
    [min_text_length] words otherwise. The words of a text of fewer than 30
    characters number at most 15, so with a [min_text_length] of 16 or more
    (the default is 20) the rule is reported for CJK-dominant texts only,
    and with 30 or more it is never reported. *)
Theorem vague_reference_only_for_short_texts self tweet :
  issues (_check_rules self tweet) = tags ["vague_reference"] ->
  let clean := _remove_urls_from_text (text tweet) in
  len (strip (text tweet)) < 30 /\
  min_text_length self < 30 /\
  (if _is_chinese_text clean then min_text_length self <= len clean
   else min_text_length self <= len (split clean)) /\
  (16 <= min_text_length self -> _is_chinese_text clean = true).
Proof.
  intros Hissue clean.
  rewrite check_rules_run_chain in Hissue. unfold run_chain in Hissue.
  destruct (List.find (rule_fails self tweet) (enabled_chain self)) as [r|] eqn:E;
    [|vm_compute in Hissue; discriminate].
  simpl in Hissue. apply rule_tag_vague in Hissue. subst r.
  assert (Hvague : rule_fails self tweet VagueReference = true)
    by (apply (find_some _ _ E)).
  assert (Hlen : rule_fails self tweet TooShort = false).
  { unfold enabled_chain, rule_order in E. simpl List.filter in E.
    destruct (filter_media_only self), (filter_reply_without_context self),
      (filter_external_references self);
      rewrite ?find_cons in E; simpl (List.find _ []) in E;
      repeat match type of E with
      | (if ?b then _ else _) = _ => destruct b eqn:?
      end; first [discriminate E | assumption | reflexivity]. }
  unfold rule_fails in Hvague, Hlen. fold clean in Hlen.
  pose proof (unclear_reference_is_short _ Hvague) as H30.
  pose proof (clean_text_length (text tweet)) as Hclean. fold clean in Hclean.
  pose proof (split_count clean) as Hw.
  split; [exact H30|].
  destruct (_is_chinese_text clean).
  - apply Z.ltb_ge in Hlen. split; [lia|]. split; [exact Hlen|reflexivity].
  - apply Z.ltb_ge in Hlen. split; [lia|]. split; [exact Hlen|]. lia.
Qed.

End RuleEngineMore.

Lemma short_text_never_passes_witness :
  let self := init default_config in
  let tweet := sample_tweet "ok https://example.com/a" false false [] in
  len (@_remove_urls_from_text (text tweet)) < min_text_length self /\
  passed (@_check_rules basic_runtime self tweet) = false.
Proof.
  intros self tweet.
  assert (H : len (@_remove_urls_from_text (text tweet)) < min_text_length self)
    by (vm_compute; reflexivity).
  split; [exact H|].
  exact (@short_text_never_passes basic_runtime self tweet H).
Defined.

Lemma vague_reference_only_for_short_texts_witness :
  let self := init default_config in
  issues (@_check_rules basic_runtime self vague_tweet)
  = tags ["vague_reference"] /\
  len (strip (text vague_tweet)) < 30 /\
  @_is_chinese_text (@_remove_urls_from_text (text vague_tweet)) = true.
Proof.
  intros self.
  assert (H : issues (@_check_rules basic_runtime self vague_tweet)
              = tags ["vague_reference"]) by (vm_compute; reflexivity).
  split; [exact H|].
  destruct (@vague_reference_only_for_short_texts basic_runtime self
              vague_tweet H) as (H30 & _ & _ & Hzh).
  split; [exact H30|]. apply Hzh. vm_compute. discriminate.
Defined.

(** ** The two stages: what they write, and what they leave alone *)

Section StagesMore.
Context `{RT : PyRuntime}.
Variable self : TweetQualityFilter.

Lemma rule_annotate_check t :
  _check_rules self (rule_annotate self t) = _check_rules self t.
Proof. reflexivity. Qed.

Lemma rule_step_store h seen st tweet :
  rule_stage_store self h seen (store st) ->
  rule_stage_store self h (seen ++ [tweet]) (store (rule_step self st tweet)).
Proof.
  intros Hinv r.
  assert (Hcheck : _check_rules self (store st tweet)
                   = _check_rules self (h tweet)).
  { rewrite (Hinv tweet).
    destruct (bool_decide (tweet ∈ seen) && negb (rule_passes self h tweet));
      reflexivity. }
  assert (Hmem : bool_decide (r ∈ seen ++ [tweet])
                 = bool_decide (r ∈ seen) || bool_decide (r = tweet)).
  { apply eq_true_iff_eq.
    rewrite orb_true_iff, !bool_decide_eq_true, elem_of_app, list_elem_of_singleton.
    reflexivity. }
  rewrite Hmem. unfold rule_step. rewrite Hcheck.
  fold (rule_passes self h tweet).
  destruct (rule_passes self h tweet) eqn:Ep; simpl store.
  - rewrite (Hinv r). destruct (bool_decide (r = tweet)) eqn:Er.
    + apply bool_decide_eq_true in Er. subst r. rewrite Ep.
      rewrite !andb_false_r. reflexivity.
    + rewrite orb_false_r. reflexivity.
  - destruct (decide (tweet = r)) as [->|Hne].
    + rewrite fn_lookup_insert. rewrite Ep.
      rewrite (bool_decide_eq_true_2 (r = r)) by reflexivity.
      rewrite orb_true_r. simpl. rewrite (Hinv r), Ep.
      destruct (bool_decide (r ∈ seen)); reflexivity.
    + rewrite fn_lookup_insert_ne by exact Hne.
      rewrite (bool_decide_eq_false_2 (r = tweet)) by congruence.
      rewrite orb_false_r. apply Hinv.
Qed.

Lemma rule_stage_store_fold h tweets seen st :
  rule_stage_store self h seen (store st) ->
  rule_stage_store self h (seen ++ tweets)
    (store (fold_left (rule_step self) tweets st)).
Proof.
  revert seen st. induction tweets as [|tweet tweets IH]; intros seen st Hinv.
  - rewrite app_nil_r. exact Hinv.
  - simpl fold_left. rewrite (cons_middle tweet seen tweets), app_assoc.
    apply IH, rule_step_store, Hinv.
Qed.

Lemma apply_rule_filters_store h tweets :
  rule_stage_store self h tweets (store (_apply_rule_filters self h tweets)).
Proof.
  apply (rule_stage_store_fold h tweets []
           {| store := h; passed_tweets := []; filtered_tweets := [] |}).
  intros r. reflexivity.
Qed.

(** X3. After the rule stage, whatever the list (a tweet may occur in it more
    than once), the store holds: for a tweet of the list that fails a rule,
    its value at input with the issues and the reason of its rule result
    written on it, the quality score as it was; for every other tweet, its
    value at input. *)
Theorem rule_stage_writes_the_rule_result h tweets r :
  store (_apply_rule_filters self h tweets) r =
  if bool_decide (r ∈ tweets) && negb (passed (_check_rules self (h r)))
  then set_quality_issues (issues (_check_rules self (h r)))
         (set_filtered_reason (reason (_check_rules self (h r))) (h r))
  else h r.
Proof. apply apply_rule_filters_store. Qed.

Lemma rule_stage_all_pass l st :
  Forall (fun r => passed (_check_rules self (store st r)) = true) l ->
  fold_left (rule_step self) l st =
  {| store := store st; passed_tweets := passed_tweets st ++ l;
     filtered_tweets := filtered_tweets st |}.
Proof.
  revert st. induction l as [|r l IH]; intros st Hall.
  - simpl. rewrite app_nil_r. destruct st; reflexivity.
  - apply Forall_cons in Hall as [Hr Hall]. simpl fold_left.
    unfold rule_step at 2. rewrite Hr. rewrite IH by exact Hall.
    simpl. rewrite <- app_assoc. reflexivity.
Qed.

(** X4. The rule stage is stable: run again on the tweets it passed, in the
    store it left, it passes every one of them in the same order, filters
    none and writes nothing. *)
Theorem rule_stage_is_stable h tweets :
  let rules := _apply_rule_filters self h tweets in
  _apply_rule_filters self (store rules) (passed_tweets rules) =
  {| store := store rules; passed_tweets := passed_tweets rules;
     filtered_tweets := [] |}.
Proof.
  intros rules. unfold _apply_rule_filters at 1.
  rewrite rule_stage_all_pass; [reflexivity|]. simpl.
  destruct (apply_rule_filters_spec self h tweets) as (Hp & _ & Hsame & _).
  fold rules in Hp, Hsame. rewrite Hp.
  apply Forall_forall. intros r Hr.
  apply list_elem_of_filter in Hr as [Hr _]. apply Is_true_true in Hr.
  rewrite <- Hr. unfold rule_passes. f_equal.
  apply check_rules_same, Hsame.
Qed.

Lemma rule_stage_frame h tweets r :
  r ∉ tweets -> store (_apply_rule_filters self h tweets) r = h r.
Proof.
  intros Hr. rewrite (apply_rule_filters_store h tweets r).
  rewrite (bool_decide_eq_false_2 _ Hr). reflexivity.
Qed.

Lemma gathered_lookup gather (tweets : list ref) k r :
  tweets !! k = Some r -> (r, gather k) ∈ gathered gather tweets.
Proof.
  intros Hk. apply (list_elem_of_lookup_2 _ k).
  unfold gathered. rewrite list_lookup_imap, Hk. reflexivity.
Qed.

Lemma gathered_elem gather (tweets : list ref) r o :
  (r, o) ∈ gathered gather tweets -> exists k, tweets !! k = Some r /\ o = gather k.
Proof.
  intros Hin. apply list_elem_of_lookup in Hin as [k Hk].
  unfold gathered in Hk. rewrite list_lookup_imap in Hk.
  destruct (tweets !! k) as [r'|] eqn:Ek; [|discriminate].
  simpl in Hk. injection Hk as -> <-. exists k. split; [exact Ek|reflexivity].
Qed.

(** X5. For a positive batch size and a list that holds no tweet twice, the
    AI stage returns, and it leaves every tweet of the list as the loop over
    the results annotates it with the outcome of its own task: a passed
    result writes its score; a failed result writes its score, issues and
    reason; an exception writes nothing under on_failure = 'pass', and the
    ai_error issue with its message otherwise. The tweet is returned as
    passed exactly when that outcome passes, as filtered otherwise, and
    tweets outside the list are not written to. *)
Theorem ai_stage_annotates_each_tweet_with_its_outcome gather h tweets :
  0 < batch_size self -> NoDup tweets ->
  exists p,
    _apply_ai_filters self gather h tweets = Ok p /\
    (forall k r, tweets !! k = Some r ->
       store p r = annotate self (gather k) (h r) /\
       (r ∈ passed_tweets p <-> task_passes self (gather k) = true) /\
       (r ∈ filtered_tweets p <-> task_passes self (gather k) = false)) /\
    (forall r, r ∉ tweets -> store p r = h r).
Proof.
  intros Hbs Hnd. rewrite apply_ai_filters_one_pass by exact Hbs.
  eexists. split; [reflexivity|].
  assert (Hnd' : NoDup (gathered gather tweets).*1).
  { unfold gathered. rewrite fmap_fst_imap. exact Hnd. }
  split.
  - intros k r Hk.
    pose proof (gathered_lookup gather tweets k r Hk) as Hin.
    split; [exact (one_pass_store_item self _
             {| store := h; passed_tweets := []; filtered_tweets := [] |}
             r (gather k) Hnd' Hin)|].
    rewrite one_pass_passed, one_pass_filtered. simpl.
    assert (Huniq : forall o, (r, o) ∈ gathered gather tweets -> o = gather k).
    { intros o Ho. apply gathered_elem in Ho as (k' & Hk' & ->).
      rewrite (NoDup_lookup tweets k k' r Hnd Hk Hk'). reflexivity. }
    split; split.
    + intros Hr. apply list_elem_of_fmap in Hr as ([r' o] & Heq & Hin').
      simpl in Heq. subst r'. apply list_elem_of_filter in Hin' as [Hok Hin'].
      simpl in Hok. rewrite <- (Huniq o Hin'). apply Is_true_true, Hok.
    + intros Hok. apply (list_elem_of_fmap_2 fst _ (r, gather k)).
      apply list_elem_of_filter. split; [|exact Hin].
      simpl. apply Is_true_true, Hok.
    + intros Hr. apply list_elem_of_fmap in Hr as ([r' o] & Heq & Hin').
      simpl in Heq. subst r'. apply list_elem_of_filter in Hin' as [Hok Hin'].
      simpl in Hok. rewrite <- (Huniq o Hin').
      destruct (task_passes self o); [destruct Hok; exact I|reflexivity].
    + intros Hok. apply (list_elem_of_fmap_2 fst _ (r, gather k)).
      apply list_elem_of_filter. split; [|exact Hin].
      simpl. rewrite Hok. exact id.
  - intros r Hr.
    apply (one_pass_store_other self _
             {| store := h; passed_tweets := []; filtered_tweets := [] |}).
    unfold gathered. rewrite fmap_fst_imap. exact Hr.
Qed.

(** X6. For positive batch sizes the batch size does not matter: given what
    the scoring task of each tweet resolves to, [filter_batch] returns the
    same lists and leaves the same store whatever the size of the batches. *)
Theorem batch_size_does_not_change_the_outcome gather h tweets (n : Z) :
  0 < batch_size self -> 0 < n ->
  filter_batch (with_batch_size n self) gather h tweets =
  filter_batch self gather h tweets.
Proof.
  intros Hbs Hn. destruct tweets as [|tweet tweets]; [reflexivity|].
  unfold filter_batch.
  change (_apply_rule_filters (with_batch_size n self) h (tweet :: tweets))
    with (_apply_rule_filters self h (tweet :: tweets)).
  change (ai_enabled (with_batch_size n self)) with (ai_enabled self).
  rewrite !apply_ai_filters_one_pass by assumption. reflexivity.
Qed.

(** X7. A batch size that is not positive, with the AI stage enabled and at
    least one tweet that passes the rules: for batch size 0 [filter_batch]
    raises the ValueError of [range]; for a negative batch size it returns
    no passed tweet at all, the rule-filtered tweets as filtered, and the
    store as the rule stage left it, so that every tweet that passed the
    rules is in neither list. *)
Theorem batch_size_not_positive gather h tweets :
  ai_enabled self = true -> batch_size self <= 0 ->
  passed_tweets (_apply_rule_filters self h tweets) <> [] ->
  let rules := _apply_rule_filters self h tweets in
  if batch_size self =? 0 then
    exists e, filter_batch self gather h tweets = Raise e /\
              exn_kind e = ValueError
  else
    filter_batch self gather h tweets =
    Ok {| store := store rules; passed_tweets := [];
          filtered_tweets := filtered_tweets rules |}.
Proof.
  intros Hai Hbs Hpass rules.
  destruct tweets as [|tweet tweets]; [destruct Hpass; reflexivity|].
  unfold filter_batch. fold rules. rewrite Hai.
  rewrite (bool_decide_eq_false_2 _ Hpass). simpl andb. cbv iota.
  unfold _apply_ai_filters.
  destruct (batch_size self =? 0) eqn:E0.
  - apply Z.eqb_eq in E0. unfold py_range. rewrite E0. simpl.
    eexists. split; reflexivity.
  - apply Z.eqb_neq in E0.
    rewrite py_range_negative_step by (unfold len; lia).
    simpl. rewrite app_nil_r. reflexivity.
Qed.

(** X8. Whatever the configuration and the outcomes of the scoring tasks,
    when [filter_batch] returns: the passed and filtered lists together hold
    no tweet more often than the input does; every tweet returned as passed
    passes the rules, and the passed list is in input order; and a tweet
    that is not in the input is not written to. *)
Theorem filter_batch_returns_only_input_tweets gather h tweets p :
  filter_batch self gather h tweets = Ok p ->
  passed_tweets p ++ filtered_tweets p ⊆+ tweets /\
  passed_tweets p `sublist_of` filter (fun r => rule_passes self h r) tweets /\
  (forall r, r ∉ tweets -> store p r = h r).
Proof.
  intros Hp.
  destruct (apply_rule_filters_spec self h tweets) as (Hrp & Hrf & _ & _).
  pose proof (rule_stage_frame h tweets) as Hframe.
  set (rules := _apply_rule_filters self h tweets) in *.
  assert (Hpart : passed_tweets rules ++ filtered_tweets rules ≡ₚ tweets).
  { rewrite Hrp, Hrf. apply filter_app_complement. }
  assert (Hrules : filter_batch self gather h tweets = Ok rules ->
            passed_tweets rules ++ filtered_tweets rules ⊆+ tweets /\
            passed_tweets rules `sublist_of`
              filter (fun r => rule_passes self h r) tweets /\
            (forall r, r ∉ tweets -> store rules r = h r)).
  { intros _. split; [rewrite Hpart; reflexivity|].
    split; [rewrite Hrp; reflexivity|exact Hframe]. }
  destruct tweets as [|tweet tweets].
  { injection Hp as <-. apply Hrules. reflexivity. }
  unfold filter_batch in Hp. fold rules in Hp.
  destruct (ai_enabled self && negb (bool_decide (passed_tweets rules = [])))
    eqn:Eai.
  2:{ injection Hp as <-. apply Hrules. unfold filter_batch. fold rules.
      rewrite Eai. reflexivity. }
  clear Hrules.
  destruct (_apply_ai_filters self gather (store rules) (passed_tweets rules))
    as [ai|e] eqn:Erun; [|discriminate].
  injection Hp as <-. simpl.
  assert (Hai : passed_tweets ai ++ filtered_tweets ai ⊆+ passed_tweets rules /\
                passed_tweets ai `sublist_of` passed_tweets rules /\
                (forall r, r ∉ passed_tweets rules -> store ai r = store rules r)).
  { unfold _apply_ai_filters in Erun.
    destruct (Z_lt_le_dec 0 (batch_size self)) as [Hbs|Hbs].
    - fold (_apply_ai_filters self gather (store rules) (passed_tweets rules))
        in Erun.
      rewrite apply_ai_filters_one_pass in Erun by exact Hbs.
      injection Erun as <-.
      rewrite one_pass_passed, one_pass_filtered. simpl.
      split; [rewrite gathered_partition; reflexivity|].
      split.
      + rewrite <- (fmap_fst_imap gather (passed_tweets rules)) at 2.
        apply fmap_sublist, sublist_filter.
      + intros r Hr.
        apply (one_pass_store_other self _
                 {| store := store rules; passed_tweets := [];
                    filtered_tweets := [] |}).
        unfold gathered. rewrite fmap_fst_imap. exact Hr.
    - destruct (Z.eq_dec (batch_size self) 0) as [H0|H0].
      + unfold py_range in Erun. rewrite H0 in Erun. simpl in Erun.
        discriminate.
      + rewrite py_range_negative_step in Erun by (unfold len; lia).
        injection Erun as <-. simpl.
        split; [apply submseteq_nil_l|].
        split; [apply sublist_nil_l|]. intros; reflexivity. }
  destruct Hai as (Hsub & Hsl & Hst).
  split.
  - rewrite <- Hpart.
    rewrite (Permutation_app_comm (passed_tweets rules)).
    rewrite app_assoc.
    rewrite (Permutation_app_comm (passed_tweets ai)), <- app_assoc.
    apply submseteq_app; [reflexivity|exact Hsub].
  - split; [rewrite <- Hrp; exact Hsl|].
    intros r Hr. rewrite Hst; [apply Hframe, Hr|].
    intros Hin. apply Hr. rewrite Hrp in Hin.
    apply list_elem_of_filter in Hin as [_ Hin]. exact Hin.
Qed.

End StagesMore.

Lemma ai_stage_annotates_each_tweet_with_its_outcome_witness :
  let self := with_on_failure (py "filter") (init (batch_config 2)) in
  let tweets := [0%nat; 1%nat; 2%nat] in
  0 < batch_size self /\ NoDup tweets /\
  exists p,
    _apply_ai_filters self sample_gather sample_heap tweets = Ok p /\
    store p 1%nat =
      set_quality_issues (tags ["ai_error"])
        (set_filtered_reason (PStr (py "AI分析失败: API Error"))
           (sample_heap 1%nat)) /\
    1%nat ∈ filtered_tweets p /\
    store p 5%nat = sample_heap 5%nat.
Proof.
  intros self tweets.
  assert (Hbs : 0 < batch_size self) by reflexivity.
  assert (Hnd : NoDup tweets)
    by (apply (bool_decide_unpack _); vm_compute; exact I).
  split; [exact Hbs|]. split; [exact Hnd|].
  destruct (ai_stage_annotates_each_tweet_with_its_outcome self sample_gather
              sample_heap tweets Hbs Hnd) as (p & Hp & Hk & Hframe).
  exists p. split; [exact Hp|].
  destruct (Hk 1%nat 1%nat eq_refl) as (Hst & _ & Hf).
  split; [rewrite Hst; vm_compute; reflexivity|].
  split; [apply Hf; vm_compute; reflexivity|].
  apply Hframe. apply (bool_decide_unpack _). vm_compute. exact I.
Defined.

Lemma batch_size_does_not_change_the_outcome_witness :
  let self := init default_config in
  let tweets := [0%nat; 1%nat; 2%nat] in
  0 < batch_size self /\ 0 < 2 /\
  @filter_batch basic_runtime (with_batch_size 2 self) sample_gather
    sample_heap tweets =
  @filter_batch basic_runtime self sample_gather sample_heap tweets.
Proof.
  intros self tweets.
  assert (Hbs : 0 < batch_size self) by reflexivity.
  assert (Hn : 0 < 2) by reflexivity.
  split; [exact Hbs|]. split; [exact Hn|].
  exact (@batch_size_does_not_change_the_outcome basic_runtime self
           sample_gather sample_heap tweets 2 Hbs Hn).
Defined.

Lemma batch_size_not_positive_witness :
  let negative := init (batch_config (-1)) in
  let zero := init (batch_config 0) in
  let rules :=
    @_apply_rule_filters basic_runtime negative sample_heap [0%nat] in
  (ai_enabled negative = true /\ batch_size negative <= 0 /\
   passed_tweets rules <> []) /\
  (ai_enabled zero = true /\ batch_size zero <= 0) /\
  @filter_batch basic_runtime negative sample_gather sample_heap [0%nat] =
    Ok {| store := store rules; passed_tweets := [];
          filtered_tweets := filtered_tweets rules |} /\
  exists e,
    @filter_batch basic_runtime zero sample_gather sample_heap [0%nat]
    = Raise e /\ exn_kind e = ValueError.
Proof.
  intros negative zero rules.
  assert (Hai : ai_enabled negative = true) by reflexivity.
  assert (Hbs : batch_size negative <= 0) by (vm_compute; discriminate).
  assert (Hpass : passed_tweets rules <> [])
    by (intros H; vm_compute in H; discriminate).
  assert (Hai0 : ai_enabled zero = true) by reflexivity.
  assert (Hbs0 : batch_size zero <= 0) by (vm_compute; discriminate).
  split; [split; [exact Hai|split; [exact Hbs|exact Hpass]]|].
  split; [split; [exact Hai0|exact Hbs0]|].
  split.
  - exact (@batch_size_not_positive basic_runtime negative sample_gather
             sample_heap [0%nat] Hai Hbs Hpass).
  - exact (@batch_size_not_positive basic_runtime zero sample_gather
             sample_heap [0%nat] Hai0 Hbs0 Hpass).
Defined.

Lemma filter_batch_returns_only_input_tweets_witness :
  let self := init default_config in
  let tweets := [0%nat; 1%nat; 2%nat] in
  exists p,
    @filter_batch basic_runtime self sample_gather sample_heap tweets = Ok p /\
    passed_tweets p ++ filtered_tweets p ⊆+ tweets /\
    store p 7%nat = sample_heap 7%nat.
Proof.
  intros self tweets.
  destruct (@filter_batch_lists basic_runtime self sample_gather sample_heap
              tweets (fun _ => eq_refl)) as (p & Hp & _).
  exists p. split; [exact Hp|].
  destruct (@filter_batch_returns_only_input_tweets basic_runtime self
              sample_gather sample_heap tweets p Hp) as (Hsub & _ & Hframe).
  split; [exact Hsub|].
  apply Hframe. apply (bool_decide_unpack _). vm_compute. exact I.
Defined.

(** ** The response parser and the scoring task: failures *)

Lemma py_lbrace : py "{" = [123%N].
Proof. vm_compute. reflexivity. Qed.

Lemma py_rbrace : py "}" = [125%N].
Proof. vm_compute. reflexivity. Qed.

Lemma last_index_none (p : N -> bool) l :
  Forall (fun c => p c = false) l -> last_index p l = None.
Proof.
  induction 1 as [|c r Hc _ IH]; [reflexivity|].
  simpl. rewrite IH, Hc. reflexivity.
Qed.

Lemma last_index_app (p : N -> bool) mid c post :
  p c = true -> Forall (fun d => p d = false) post ->
  last_index p (mid ++ c :: post) = Some (length mid).
Proof.
  intros Hc Hpost. induction mid as [|m mid IH].
  - simpl. rewrite (last_index_none p post Hpost), Hc. reflexivity.
  - simpl. rewrite IH. reflexivity.
Qed.

Lemma json_pattern_object mid post :
  (forall c, c ∈ post -> [c] <> py "}") ->
  json_pattern (py "{" ++ mid ++ py "}" ++ post) = Some (length mid + 2)%nat.
Proof.
  intros Hpost. rewrite py_lbrace, py_rbrace. cbn [app].
  unfold json_pattern.
  rewrite bool_decide_eq_true_2 by (symmetry; exact py_lbrace).
  rewrite (last_index_app _ mid 125%N post); [reflexivity| |].
  - apply bool_decide_eq_true_2. symmetry. exact py_rbrace.
  - apply Forall_forall. intros d Hd. apply bool_decide_eq_false_2.
    apply Hpost, Hd.
Qed.

Lemma take_object mid post :
  take (length mid + 2) (py "{" ++ mid ++ py "}" ++ post)
  = py "{" ++ mid ++ py "}".
Proof.
  rewrite py_lbrace, py_rbrace.
  replace (length mid + 2)%nat with (length (([123%N] ++ mid) ++ [125%N]))
    by (rewrite !length_app; simpl; lia).
  change ([123%N] ++ mid ++ [125%N] ++ post)
    with ([123%N] ++ (mid ++ [125%N] ++ post)).
  rewrite (app_assoc [123%N] mid), (app_assoc _ [125%N] post).
  rewrite take_app_length. rewrite <- app_assoc. reflexivity.
Qed.

Lemma re_search_group_hit (p : pystr -> option nat) l n :
  p l = Some n -> re_search_group p l = Some (take n l).
Proof. intros H. destruct l; simpl; rewrite H; reflexivity. Qed.

Lemma re_search_group_miss (p : pystr -> option nat) c r :
  p (c :: r) = None -> re_search_group p (c :: r) = re_search_group p r.
Proof. intros H. simpl. rewrite H. reflexivity. Qed.

Lemma search_object pre mid post :
  (forall c, c ∈ pre -> [c] <> py "{") ->
  (forall c, c ∈ post -> [c] <> py "}") ->
  re_search_group json_pattern (pre ++ py "{" ++ mid ++ py "}" ++ post)
  = Some (py "{" ++ mid ++ py "}").
Proof.
  intros Hpre Hpost. induction pre as [|c pre IH].
  - rewrite app_nil_l.
    rewrite (re_search_group_hit _ _ _ (json_pattern_object mid post Hpost)).
    rewrite take_object. reflexivity.
  - rewrite <- app_comm_cons.
    assert (Hc : json_pattern (c :: pre ++ py "{" ++ mid ++ py "}" ++ post)
                 = None).
    { unfold json_pattern.
      rewrite bool_decide_eq_false_2; [reflexivity|].
      apply Hpre. left. }
    rewrite (re_search_group_miss _ _ _ Hc).
    apply IH. intros d Hd. apply Hpre. right. exact Hd.
Qed.

Section ParserMore.
Context `{RT : PyRuntime}.

(** X9. The parser finds a JSON object inside any wrapping: for every
    response made of a text without opening brace, an object that runs from
    an opening to a closing brace (with any characters, braces included, in
    between), and a text without closing brace, the string handed to the
    decoder is that object, and the result of the parser, as that of the
    scoring task, is the one for the object alone. *)
Theorem json_object_is_found_inside_any_wrapping self pre mid post :
  (forall c, c ∈ pre -> [c] <> py "{") ->
  (forall c, c ∈ post -> [c] <> py "}") ->
  let object := py "{" ++ mid ++ py "}" in
  let response := pre ++ object ++ post in
  re_search_group json_pattern response = Some object /\
  _parse_ai_response self response = _parse_ai_response self object /\
  _analyze_tweet_quality self (Responded response)
  = _analyze_tweet_quality self (Responded object).
Proof.
  intros Hpre Hpost object response.
  assert (H1 : re_search_group json_pattern response = Some object).
  { unfold response, object. rewrite <- !app_assoc.
    apply search_object; assumption. }
  assert (H2 : re_search_group json_pattern object = Some object).
  { pose proof (search_object [] mid [] ltac:(intros c Hc; inversion Hc)
                  ltac:(intros c Hc; inversion Hc)) as H.
    rewrite app_nil_l, app_nil_r in H. exact H. }
  split; [exact H1|].
  assert (H3 : _parse_ai_response self response
               = _parse_ai_response self object).
  { unfold _parse_ai_response, parse_try. rewrite H1, H2. reflexivity. }
  split; [exact H3|].
  unfold _analyze_tweet_quality. rewrite H3. reflexivity.
Qed.

Lemma new_result_issues p s i r : issues (new_result p s i r) <> PNone.
Proof. destruct i; discriminate. Qed.

Lemma tags_not_none l : tags l <> PNone.
Proof. discriminate. Qed.

Lemma on_exception_issues self e : issues (on_exception self e) <> PNone.
Proof.
  unfold on_exception. destruct (bool_decide _); apply new_result_issues.
Qed.

Lemma pass_is_not_filter : py "pass" <> py "filter".
Proof. vm_compute. discriminate. Qed.

(** X10. A score that [float] cannot take (null, a list or an object) is not
    a parse error: the TypeError passes the handler of the parser, and the
    scoring task resolves it by the failure policy. Under on_failure =
    'pass' the tweet passes with no score and no issue; under any other
    policy it is filtered with the issue ai_error. *)
Theorem unconvertible_score_is_left_to_the_failure_policy self response
    json_str data :
  re_search_group json_pattern response = Some json_str ->
  json_loads json_str = inl (PDict data) ->
  match dict_get (py "score") data (PInt 50) with
  | PNone | PList _ | PDict _ => True
  | _ => False
  end ->
  (exists e, _parse_ai_response self response = Raise e /\
             exn_kind e = TypeError) /\
  let result := _analyze_tweet_quality self (Responded response) in
  score result = None /\
  if bool_decide (on_failure self = py "pass") then
    passed result = true /\ issues result = PList [] /\ reason result = PNone
  else
    passed result = false /\ issues result = tags ["ai_error"] /\
    exists msg, reason result = PStr (py "AI分析异常: " ++ msg).
Proof.
  intros Hsome Hdata Hscore.
  assert (Hraise : exists e, _parse_ai_response self response = Raise e /\
                             exn_kind e = TypeError).
  { unfold _parse_ai_response, parse_try. rewrite Hsome, Hdata.
    destruct (dict_get (py "score") data (PInt 50)); try destruct Hscore;
      (eexists; split; reflexivity). }
  split; [exact Hraise|]. destruct Hraise as (e & He & Hk).
  unfold _analyze_tweet_quality. rewrite He. unfold on_exception.
  destruct (bool_decide (on_failure self = py "pass")).
  - repeat split.
  - split; [reflexivity|]. split; [reflexivity|]. split; [reflexivity|].
    eexists. reflexivity.
Qed.

(** What a failure of the scoring task comes from, under the policy
    'pass'. *)
Lemma scoring_task_failure_under_pass self call :
  on_failure self = py "pass" ->
  passed (_analyze_tweet_quality self call) = false ->
  exists response json_str data s,
    call = Responded response /\
    re_search_group json_pattern response = Some json_str /\
    json_loads json_str = inl (PDict data) /\
    py_float (dict_get (py "score") data (PInt 50)) = Ok s /\
    (min_quality_score self <=? s)%float = false /\
    _analyze_tweet_quality self call =
    new_result false (Some s) (dict_get (py "issues") data (PList []))
      (dict_get (py "analysis") data (PStr (py ""))).
Proof.
  intros Hpol Hfail.
  assert (Hexn : forall e, passed (on_exception self e) = true).
  { intros e. unfold on_exception.
    rewrite bool_decide_eq_true_2 by exact Hpol. reflexivity. }
  destruct call as [response| |e].
  - unfold _analyze_tweet_quality, _parse_ai_response, parse_try in *.
    destruct (re_search_group json_pattern response) as [json_str|] eqn:Es;
      [|discriminate].
    destruct (json_loads json_str) as [[| | | | | |data]|msg] eqn:Ej;
      try (simpl in Hfail; rewrite Hexn in Hfail; discriminate);
      try discriminate.
    destruct (py_float (dict_get (py "score") data (PInt 50))) as [s|e] eqn:Ef.
    + simpl in Hfail.
      exists response, json_str, data, s.
      split; [reflexivity|]. split; [exact Es|]. split; [exact Ej|].
      split; [exact Ef|]. split; [exact Hfail|].
      simpl. rewrite Hfail. reflexivity.
    + destruct (parse_handler_catches e); [discriminate|].
      rewrite Hexn in Hfail. discriminate.
  - simpl in Hfail.
    rewrite bool_decide_eq_false_2 in Hfail; [discriminate|].
    rewrite Hpol. exact pass_is_not_filter.
  - simpl in Hfail. rewrite Hexn in Hfail. discriminate.
Qed.

(** X11. Under on_failure = 'pass' the scoring task fails a tweet for one
    reason only: the response held a JSON object that was decoded and whose
    score, converted to a number, is not at least min_quality_score. No
    timeout, no exception of the call and no response that cannot be parsed
    fails a tweet. *)
Theorem pass_policy_fails_only_a_decoded_low_score self call :
  on_failure self = py "pass" ->
  passed (_analyze_tweet_quality self call) = false ->
  exists response json_str data s,
    call = Responded response /\
    re_search_group json_pattern response = Some json_str /\
    json_loads json_str = inl (PDict data) /\
    py_float (dict_get (py "score") data (PInt 50)) = Ok s /\
    (min_quality_score self <=? s)%float = false /\
    _analyze_tweet_quality self call =
    new_result false (Some s) (dict_get (py "issues") data (PList []))
      (dict_get (py "analysis") data (PStr (py ""))).
Proof. exact (scoring_task_failure_under_pass self call). Qed.

(** X12. Every result that the rule engine or the scoring task produces
    carries an issue list: [__post_init__] replaces a missing one by the
    empty list, also when the scorer answers a null for its issues. *)
Theorem results_never_lack_their_issues self tweet call :
  issues (_check_rules self tweet) <> PNone /\
  issues (_analyze_tweet_quality self call) <> PNone.
Proof.
  split.
  - rewrite check_rules_run_chain. unfold run_chain.
    destruct (List.find _ _); simpl; [apply tags_not_none|discriminate].
  - destruct call as [response| |e]; simpl.
    + unfold _parse_ai_response, parse_try.
      destruct (re_search_group json_pattern response) as [json_str|];
        [|apply new_result_issues].
      destruct (json_loads json_str) as [[| | | | | |data]|msg];
        try apply on_exception_issues; try apply new_result_issues.
      destruct (py_float _) as [s|e]; [apply new_result_issues|].
      destruct (parse_handler_catches e);
        [apply new_result_issues|apply on_exception_issues].
    + apply tags_not_none.
    + apply on_exception_issues.
Qed.

End ParserMore.

Lemma json_object_is_found_inside_any_wrapping_witness :
  let self := init default_config in
  let pre := py "Here is my assessment: " in
  let mid := pyq "'score': 40, 'issues': ['low_information']" in
  let post := py " Hope this helps." in
  (forall c, c ∈ pre -> [c] <> py "{") /\
  (forall c, c ∈ post -> [c] <> py "}") /\
  re_search_group json_pattern (pre ++ (py "{" ++ mid ++ py "}") ++ post)
  = Some (py "{" ++ mid ++ py "}") /\
  passed (@_analyze_tweet_quality basic_runtime self
            (Responded (pre ++ (py "{" ++ mid ++ py "}") ++ post))) = false.
Proof.
  intros self pre mid post.
  assert (Hpre : forall c, c ∈ pre -> [c] <> py "{").
  { apply Forall_forall. apply (bool_decide_unpack _). vm_compute. exact I. }
  assert (Hpost : forall c, c ∈ post -> [c] <> py "}").
  { apply Forall_forall. apply (bool_decide_unpack _). vm_compute. exact I. }
  split; [exact Hpre|]. split; [exact Hpost|].
  destruct (@json_object_is_found_inside_any_wrapping basic_runtime self
              pre mid post Hpre Hpost) as (H1 & _ & H3).
  split; [exact H1|]. rewrite H3. vm_compute. reflexivity.
Defined.

Lemma unconvertible_score_is_left_to_the_failure_policy_witness :
  let self := with_on_failure (py "filter") (init default_config) in
  let response := pyq "{'score': null, 'issues': []}" in
  let result := @_analyze_tweet_quality basic_runtime self (Responded response) in
  re_search_group json_pattern response = Some response /\
  @json_loads basic_runtime response
  = inl (PDict [(py "issues", PList []); (py "score", PNone)]) /\
  passed result = false /\ score result = None /\
  issues result = tags ["ai_error"].
Proof.
  intros self response result.
  assert (Hs : re_search_group json_pattern response = Some response)
    by (vm_compute; reflexivity).
  assert (Hj : @json_loads basic_runtime response
               = inl (PDict [(py "issues", PList []); (py "score", PNone)]))
    by (vm_compute; reflexivity).
  split; [exact Hs|]. split; [exact Hj|].
  destruct (@unconvertible_score_is_left_to_the_failure_policy basic_runtime
              self response response _ Hs Hj I) as (_ & Hscore & Hrest).
  fold result in Hscore, Hrest.
  destruct Hrest as (Hp & Hi & _).
  split; [exact Hp|]. split; [exact Hscore|exact Hi].
Defined.

Lemma pass_policy_fails_only_a_decoded_low_score_witness :
  let self := init default_config in
  let call := Responded (pyq "{'score': 40, 'analysis': 'thin'}") in
  on_failure self = py "pass" /\
  passed (@_analyze_tweet_quality basic_runtime self call) = false /\
  exists s,
    (min_quality_score self <=? s)%float = false /\
    @_analyze_tweet_quality basic_runtime self call =
    new_result false (Some s) (PList []) (PStr (py "thin")).
Proof.
  intros self call.
  assert (Hpol : on_failure self = py "pass") by reflexivity.
  assert (Hfail : passed (@_analyze_tweet_quality basic_runtime self call)
                  = false) by (vm_compute; reflexivity).
  split; [exact Hpol|]. split; [exact Hfail|].
  destruct (@pass_policy_fails_only_a_decoded_low_score basic_runtime self
              call Hpol Hfail)
    as (response & json_str & data & s & Hc & Hs & Hj & Hf & Hlow & Hr).
  exists s. split; [exact Hlow|]. rewrite Hr.
  injection Hc as <-.
  assert (Hs' : re_search_group json_pattern
                  (pyq "{'score': 40, 'analysis': 'thin'}")
                = Some (pyq "{'score': 40, 'analysis': 'thin'}"))
    by (vm_compute; reflexivity).
  rewrite Hs' in Hs. injection Hs as <-.
  assert (Hj' : @json_loads basic_runtime
                  (pyq "{'score': 40, 'analysis': 'thin'}")
                = inl (PDict [(py "analysis", PStr (py "thin"));
                              (py "score", PInt 40)]))
    by (vm_compute; reflexivity).
  rewrite Hj' in Hj. injection Hj as <-.
  vm_compute. reflexivity.
Defined.

(** ** Removing URLs *)

Lemma run_length_le (f : N -> bool) l : (run_length f l <= length l)%nat.
Proof. induction l as [|c r IH]; simpl; [lia|]. destruct (f c); simpl; lia. Qed.

Lemma run_length_app (f : N -> bool) s r :
  forallb f s = true ->
  run_length f (s ++ r) = (length s + run_length f r)%nat.
Proof.
  induction s as [|c s IH]; intros H; [reflexivity|].
  simpl in H. apply andb_true_iff in H as [Hc Hs].
  simpl. rewrite Hc, (IH Hs). reflexivity.
Qed.

Lemma prefix_of_spec s l r : prefix_of s l = Some r <-> l = s ++ r.
Proof.
  revert l. induction s as [|a s IH]; intros l.
  - simpl. split; congruence.
  - destruct l as [|b l]; simpl; [split; discriminate|].
    destruct (N.eqb_spec a b) as [->|Hne].
    + rewrite IH. split; [intros ->; reflexivity|intros H; congruence].
    + split; [discriminate|intros H; congruence].
Qed.

Lemma lstrip_suffix l : exists w, l = w ++ lstrip l.
Proof.
  induction l as [|c r [w IH]]; [exists []; reflexivity|].
  simpl. destruct (isspace c).
  - exists (c :: w). simpl. f_equal. exact IH.
  - exists []. reflexivity.
Qed.

Lemma rstrip_prefix l : exists w, l = rstrip l ++ w.
Proof.
  destruct (lstrip_suffix (rev l)) as [w Hw]. exists (rev w).
  unfold rstrip. rewrite <- rev_app_distr, <- Hw, rev_involutive. reflexivity.
Qed.

(** The removal of the matches of a pattern whose matches run to the end of
    the run of non-blank characters they start in, and which depends on the
    characters of its match only. *)
Section Removal.
Variable p : pystr -> option nat.
Let nonspace (c : N) : bool := negb (isspace c).
Hypothesis whole_run :
  forall l n, p l = Some n -> n = run_length nonspace l /\ (0 < n)%nat.
Hypothesis local :
  forall a b n, p a = Some n -> take n a = take n b -> is_Some (p b).

Lemma no_match_nil : p [] = None.
Proof.
  destruct (p []) as [n|] eqn:E; [|reflexivity].
  apply whole_run in E. simpl in E. lia.
Qed.

Lemma no_match_at_space c r : isspace c = true -> p (c :: r) = None.
Proof.
  intros Hc. destruct (p (c :: r)) as [n|] eqn:E; [|reflexivity].
  apply whole_run in E. simpl in E. unfold nonspace in E.
  rewrite Hc in E. simpl in E. lia.
Qed.

Lemma re_sub_skip k l : re_sub_empty p k l = re_sub_empty p 0 (drop k l).
Proof.
  revert k. induction l as [|c r IH]; intros k.
  - destruct k; reflexivity.
  - destruct k as [|k]; [reflexivity|]. simpl. apply IH.
Qed.

Lemma drop_run l :
  drop (run_length nonspace l) l = [] \/
  exists c r, drop (run_length nonspace l) l = c :: r /\ isspace c = true.
Proof.
  induction l as [|c r IH]; [left; reflexivity|].
  simpl. unfold nonspace at 1 3. destruct (isspace c) eqn:E; simpl.
  - right. exists c, r. split; [reflexivity|exact E].
  - exact IH.
Qed.

(** The leading run of non-blank characters of the result is a prefix of
    the text. *)
Lemma re_sub_head l :
  let out := re_sub_empty p 0 l in
  take (run_length nonspace out) out = take (run_length nonspace out) l.
Proof.
  induction l as [|c r IH]; [reflexivity|].
  simpl re_sub_empty. destruct (p (c :: r)) as [[|k]|] eqn:E.
  - apply whole_run in E. lia.
  - apply whole_run in E as [E _]. simpl in E.
    destruct (nonspace c) eqn:Ec; [|discriminate]. injection E as ->.
    rewrite re_sub_skip.
    destruct (drop_run r) as [->|(c' & r' & -> & Hc')]; [reflexivity|].
    simpl. rewrite (no_match_at_space c' r' Hc'). simpl.
    unfold nonspace at 1 3. rewrite Hc'. reflexivity.
  - simpl. destruct (nonspace c); [|reflexivity].
    simpl. f_equal. exact IH.
Qed.

Lemma re_sub_no_match k l : re_search p (re_sub_empty p k l) = false.
Proof.
  revert k. induction l as [|c r IH]; intros k.
  - simpl. rewrite no_match_nil. reflexivity.
  - destruct k as [|k]; [|apply IH]. simpl re_sub_empty.
    destruct (p (c :: r)) as [[|j]|] eqn:E.
    + apply whole_run in E. lia.
    + apply IH.
    + simpl. destruct (p (c :: re_sub_empty p 0 r)) as [n|] eqn:E2; [|apply IH].
      exfalso. pose proof (whole_run _ _ E2) as [Hn Hpos]. simpl in Hn.
      destruct (nonspace c) eqn:Ec; [|lia].
      assert (Ht : take n (c :: re_sub_empty p 0 r) = take n (c :: r)).
      { rewrite Hn. simpl. f_equal. apply re_sub_head. }
      destruct (local _ _ _ E2 Ht) as [m Hm]. congruence.
Qed.

Lemma re_search_tail c r : re_search p (c :: r) = false -> re_search p r = false.
Proof. simpl. destruct (p (c :: r)); [discriminate|exact id]. Qed.

Lemma re_search_head l : re_search p l = false -> p l = None.
Proof. destruct l; simpl; destruct (p _); (discriminate || reflexivity). Qed.

Lemma re_search_suffix a s : re_search p (a ++ s) = false -> re_search p s = false.
Proof.
  induction a as [|c a IH]; [exact id|]. intros H.
  apply IH, (re_search_tail c), H.
Qed.

Lemma re_search_prefix a w : re_search p (a ++ w) = false -> re_search p a = false.
Proof.
  induction a as [|c a IH]; intros H.
  - simpl. rewrite no_match_nil. reflexivity.
  - pose proof (re_search_head _ H) as Hc.
    pose proof (IH (re_search_tail _ _ H)) as Hr.
    simpl. destruct (p (c :: a)) as [n|] eqn:E; [|exact Hr].
    exfalso. pose proof (whole_run _ _ E) as [Hn _].
    pose proof (run_length_le nonspace (c :: a)) as Hle.
    assert (Ht : take n (c :: a) = take n ((c :: a) ++ w)).
    { rewrite take_app_le by lia. reflexivity. }
    destruct (local _ _ _ E Ht) as [m Hm]. congruence.
Qed.

Lemma re_search_strip l : re_search p l = false -> re_search p (strip l) = false.
Proof.
  intros H. unfold strip.
  destruct (lstrip_suffix l) as [w Hw].
  destruct (rstrip_prefix (lstrip l)) as [w' Hw'].
  apply (re_search_prefix _ w'). rewrite <- Hw'.
  apply (re_search_suffix w). rewrite <- Hw. exact H.
Qed.

Lemma re_sub_fixed l : re_search p l = false -> re_sub_empty p 0 l = l.
Proof.
  induction l as [|c r IH]; [reflexivity|]. intros H.
  simpl. rewrite (re_search_head _ H). f_equal.
  apply IH, (re_search_tail c), H.
Qed.

End Removal.

Lemma url_pattern_after l :
  url_pattern l =
  match url_after (py "https://") l with
  | Some n => Some n
  | None => url_after (py "http://") l
  end.
Proof. reflexivity. Qed.

Lemma schemes_have_no_blank :
  forallb (fun c => negb (isspace c)) (py "https://") = true /\
  forallb (fun c => negb (isspace c)) (py "http://") = true.
Proof. split; vm_compute; reflexivity. Qed.

Lemma url_after_some scheme l n :
  forallb (fun c => negb (isspace c)) scheme = true ->
  url_after scheme l = Some n ->
  exists c rest,
    l = scheme ++ c :: rest /\ isspace c = false /\
    n = run_length (fun c => negb (isspace c)) l /\ (length scheme < n)%nat.
Proof.
  intros Hs H. unfold url_after in H.
  destruct (prefix_of scheme l) as [rest|] eqn:E; [|discriminate].
  apply prefix_of_spec in E. subst l.
  rewrite (run_length_app _ _ _ Hs).
  destruct rest as [|c rest]; [discriminate|]. simpl in *.
  destruct (isspace c) eqn:Ec; simpl in *; [discriminate|].
  injection H as <-. exists c, rest.
  split; [reflexivity|]. split; [exact Ec|].
  split; [reflexivity|lia].
Qed.

Lemma url_after_hit scheme c rest :
  isspace c = false -> is_Some (url_after scheme (scheme ++ c :: rest)).
Proof.
  intros Hc. unfold url_after.
  rewrite (proj2 (prefix_of_spec scheme _ (c :: rest)) eq_refl).
  simpl. rewrite Hc. simpl. eexists. reflexivity.
Qed.

(** A match of the URL pattern has a scheme and at least one more character,
    and runs to the next blank. *)
Lemma url_pattern_some l n :
  url_pattern l = Some n ->
  exists scheme c rest,
    (scheme = py "https://" \/ scheme = py "http://") /\
    l = scheme ++ c :: rest /\ isspace c = false /\
    n = run_length (fun c => negb (isspace c)) l /\ (length scheme < n)%nat.
Proof.
  intros H. rewrite url_pattern_after in H.
  destruct schemes_have_no_blank as [Hs Hp].
  destruct (url_after (py "https://") l) as [m|] eqn:E.
  - injection H as ->.
    destruct (url_after_some _ _ _ Hs E) as (c & rest & H1 & H2 & H3 & H4).
    exists (py "https://"), c, rest. repeat split; auto.
  - destruct (url_after_some _ _ _ Hp H) as (c & rest & H1 & H2 & H3 & H4).
    exists (py "http://"), c, rest. repeat split; auto.
Qed.

Lemma url_pattern_hit scheme c rest :
  scheme = py "https://" \/ scheme = py "http://" -> isspace c = false ->
  is_Some (url_pattern (scheme ++ c :: rest)).
Proof.
  intros Hs Hc. rewrite url_pattern_after.
  destruct (url_after (py "https://") (scheme ++ c :: rest)) as [m|] eqn:E;
    [eexists; reflexivity|].
  destruct Hs as [->| ->].
  - destruct (url_after_hit (py "https://") c rest Hc) as [m Hm]. congruence.
  - apply url_after_hit, Hc.
Qed.

Lemma url_pattern_whole_run l n :
  url_pattern l = Some n ->
  n = run_length (fun c => negb (isspace c)) l /\ (0 < n)%nat.
Proof.
  intros H. destruct (url_pattern_some l n H) as (s & c & rest & _ & _ & _ & Hn & Hlt).
  split; [exact Hn|lia].
Qed.

Lemma url_pattern_local a b n :
  url_pattern a = Some n -> take n a = take n b -> is_Some (url_pattern b).
Proof.
  intros H Ht.
  destruct (url_pattern_some a n H) as (s & c & rest & Hs & Ha & Hc & _ & Hlt).
  assert (Hb : b = s ++ c :: (take (n - length (s ++ [c])) rest ++ drop n b)).
  { rewrite <- (take_drop n b) at 1. rewrite <- Ht, Ha.
    rewrite (cons_middle c s rest), app_assoc.
    rewrite take_app_ge by (rewrite length_app; simpl; lia).
    rewrite <- !app_assoc. reflexivity. }
  rewrite Hb. apply url_pattern_hit; assumption.
Qed.

(** X13. [_remove_urls_from_text] leaves no URL behind: the pattern matches
    nowhere in its result, that is, in the result no scheme http:// or
    https:// is followed by a character that is not blank (a scheme alone
    may stay); and the function is idempotent. *)
Theorem remove_urls_leaves_no_url text :
  let clean := _remove_urls_from_text text in
  re_search url_pattern clean = false /\
  (forall before scheme c rest,
     scheme = py "https://" \/ scheme = py "http://" ->
     clean = before ++ scheme ++ c :: rest -> isspace c = true) /\
  _remove_urls_from_text clean = clean.
Proof.
  intros clean.
  assert (H : re_search url_pattern clean = false).
  { apply (re_search_strip _ url_pattern_whole_run url_pattern_local).
    apply (re_sub_no_match _ url_pattern_whole_run url_pattern_local). }
  split; [exact H|]. split.
  - intros before scheme c rest Hs Hclean.
    destruct (isspace c) eqn:Ec; [reflexivity|exfalso].
    rewrite Hclean in H. apply re_search_suffix, re_search_head in H.
    destruct (url_pattern_hit scheme c rest Hs Ec) as [m Hm]. congruence.
  - unfold _remove_urls_from_text at 1.
    rewrite (re_sub_fixed _ _ H). apply strip_idem.
Qed.

(** ** Rule engine: what a rule result tells *)

Lemma strip_sublist_self l : strip l `sublist_of` l.
Proof.
  unfold strip, rstrip.
  transitivity (lstrip l); [|apply lstrip_sublist_self].
  rewrite <- (rev_involutive (lstrip l)) at 2.
  apply rev_sublist, lstrip_sublist_self.
Qed.

Lemma remove_urls_sublist text : _remove_urls_from_text text `sublist_of` text.
Proof.
  unfold _remove_urls_from_text.
  transitivity (re_sub_empty url_pattern 0 text);
    [apply strip_sublist_self|apply re_sub_empty_sublist].
Qed.

Lemma re_search_alt_none (p q : pystr -> option nat) l :
  re_search (re_alt p q) l = false ->
  re_search p l = false /\ re_search q l = false.
Proof.
  induction l as [|c r IH]; simpl; unfold re_alt at 1.
  - destruct (p []), (q []); try discriminate. split; reflexivity.
  - destruct (p (c :: r)), (q (c :: r)); try discriminate. exact IH.
Qed.

Lemma re_search_at (p : pystr -> option nat) a s :
  re_search p (a ++ s) = false -> p s = None.
Proof. intros H. apply re_search_head, (re_search_suffix p a), H. Qed.

#[warnings="-inexact-float"]
Lemma zero_ratio y : (0.3 <? float_of_int 0 / y)%float = false.
Proof.
  rewrite ltb_spec, div_spec.
  replace (Prim2SF (float_of_int 0)) with (S754_zero false)
    by (vm_compute; reflexivity).
  destruct (Prim2SF y) as [s|s| |s m e]; vm_compute; reflexivity.
Qed.

Section RulesMore.
Context `{RT : PyRuntime}.

Lemma rule_tag_inj r r0 : tags [rule_tag r] = tags [rule_tag r0] -> r = r0.
Proof.
  destruct r, r0; try reflexivity; intros H; vm_compute in H; discriminate.
Qed.

Lemma all_rules r : In r rule_order.
Proof. destruct r; simpl; auto. Qed.

Lemma enabled_chain_In self r :
  In r (enabled_chain self) <-> rule_enabled self r = true.
Proof.
  unfold enabled_chain. rewrite filter_In. pose proof (all_rules r). tauto.
Qed.

(** A tweet passes exactly when no enabled rule fails it. *)
Lemma check_rules_passes self tweet :
  passed (_check_rules self tweet) = true <->
  forall r, rule_enabled self r = true -> rule_fails self tweet r = false.
Proof.
  rewrite check_rules_run_chain. unfold run_chain.
  destruct (List.find (rule_fails self tweet) (enabled_chain self)) as [r|] eqn:E.
  - simpl. split; [discriminate|]. intros H.
    apply find_some in E as [Hin Hf].
    apply enabled_chain_In in Hin. rewrite (H r Hin) in Hf. discriminate.
  - simpl. split; [|reflexivity]. intros _ r Hr.
    apply (find_none _ _ E). apply enabled_chain_In, Hr.
Qed.

(** The issue of a failure names an enabled rule that fails the tweet. *)
Lemma issue_names_a_failing_rule self tweet r :
  issues (_check_rules self tweet) = tags [rule_tag r] ->
  rule_enabled self r = true /\ rule_fails self tweet r = true.
Proof.
  rewrite check_rules_run_chain. unfold run_chain.
  destruct (List.find (rule_fails self tweet) (enabled_chain self)) as [r'|] eqn:E;
    simpl; intros H.
  - apply rule_tag_inj in H. subst r'.
    apply find_some in E as [Hin Hf]. apply enabled_chain_In in Hin.
    split; assumption.
  - vm_compute in H. discriminate.
Qed.

Lemma context_pattern_none c rest :
  context_pattern (c :: rest) = None ->
  re_digit c = false /\ [c] <> py "?" /\ [c] <> py "？".
Proof.
  unfold context_pattern, re_alt, re_set. simpl run_length.
  destruct (re_digit c); [discriminate|].
  destruct (quoted_pattern (c :: rest)); [discriminate|].
  destruct (bool_decide ([c] = py "？")) eqn:E1; [discriminate|].
  destruct (bool_decide ([c] = py "?")) eqn:E2; [discriminate|].
  intros _. apply bool_decide_eq_false in E1, E2. repeat split; assumption.
Qed.

(** X14. A reply is failed for its missing context only without any cue in
    its text: when [_check_rules] reports the issue reply_without_context,
    the rule is switched on, the tweet is a reply without quoted content,
    and its URL-stripped text has at most 30 characters, none of the eight
    opinion words, no digit, no question mark of either width and no quoted
    segment. *)
Theorem reply_without_context_only_without_cues self tweet :
  issues (_check_rules self tweet) = tags ["reply_without_context"] ->
  let clean := _remove_urls_from_text (text tweet) in
  filter_reply_without_context self = true /\
  is_reply tweet = true /\ has_quoted_content tweet = false /\
  len clean <= 30 /\
  (forall w, w ∈ opinion_words -> contains w clean = false) /\
  (forall c, c ∈ clean ->
     re_digit c = false /\ [c] <> py "?" /\ [c] <> py "？") /\
  re_search quoted_pattern clean = false.
Proof.
  intros H clean.
  apply (issue_names_a_failing_rule self tweet ReplyWithoutContext) in H
    as [Hon Hf].
  split; [exact Hon|]. unfold rule_fails in Hf. fold clean in Hf.
  apply andb_true_iff in Hf as [Hf Hctx].
  apply andb_true_iff in Hf as [Hreply Hquoted].
  split; [exact Hreply|].
  split; [destruct (has_quoted_content tweet); [discriminate|reflexivity]|].
  unfold _has_clear_context in Hctx.
  destruct (30 <? len clean) eqn:E30; [discriminate|].
  destruct (existsb (fun word => contains word clean) opinion_words) eqn:Ew;
    [discriminate|].
  destruct (re_search context_pattern clean) eqn:Ep; [discriminate|].
  split; [lia|]. split; [|split].
  - intros w Hw. apply list_elem_of_In in Hw.
    destruct (contains w clean) eqn:Ec; [|reflexivity].
    assert (existsb (fun word => contains word clean) opinion_words = true)
      by (apply existsb_exists; exists w; split; assumption).
    congruence.
  - intros c Hc. apply list_elem_of_split in Hc as (a & b & Hc).
    rewrite Hc in Ep. apply re_search_at in Ep.
    apply (context_pattern_none c b Ep).
  - unfold context_pattern in Ep.
    apply re_search_alt_none in Ep as [_ Ep].
    apply re_search_alt_none in Ep as [Ep _]. exact Ep.
Qed.

(** X15. Relaxing the rules never fails a tweet that passed: a tweet that
    passes [_check_rules] still passes with any one of the three switches
    turned off, and with any smaller minimum text length. *)
Theorem relaxing_the_rules_keeps_a_passing_tweet self tweet :
  passed (_check_rules self tweet) = true ->
  (forall t, passed (_check_rules (disable t self) tweet) = true) /\
  (forall n, n <= min_text_length self ->
     passed (_check_rules (with_min_text_length n self) tweet) = true).
Proof.
  intros H. rewrite check_rules_passes in H. split.
  - intros t. apply check_rules_passes. intros r Hr.
    change (rule_fails (disable t self) tweet r) with (rule_fails self tweet r).
    apply H. destruct t, r; simpl in *; congruence.
  - intros n Hn. apply check_rules_passes. intros r Hr.
    change (rule_enabled (with_min_text_length n self) r)
      with (rule_enabled self r) in Hr.
    specialize (H r Hr). destruct r; try exact H.
    unfold rule_fails in *. simpl min_text_length.
    destruct (_is_chinese_text _); lia.
Qed.

(** X16. The rules read four things of a tweet: its text, whether it has
    media, whether it is a reply and whether it has quoted content. Two
    tweets that agree on these get the same rule result, whatever their
    authors, counters, URL lists, reply and quote identifiers or
    annotations. *)
Theorem rules_read_four_fields self t t' :
  text t = text t' ->
  (media t = [] <-> media t' = []) ->
  is_reply t = is_reply t' ->
  has_quoted_content t = has_quoted_content t' ->
  _check_rules self t = _check_rules self t'.
Proof.
  intros Htext Hmedia Hreply Hquoted.
  assert (Hm : (0 <? len (media t)) = (0 <? len (media t'))).
  { destruct (media t) as [|m l], (media t') as [|m' l']; try reflexivity.
    - destruct Hmedia as [Hmedia _]. discriminate (Hmedia eq_refl).
    - destruct Hmedia as [_ Hmedia]. discriminate (Hmedia eq_refl). }
  unfold _check_rules. rewrite Htext, Hm, Hreply, Hquoted. reflexivity.
Qed.

(** X17. A text without any character of the CJK block is never classified
    as Chinese, and neither is what [_remove_urls_from_text] leaves of it;
    so a tweet with such a text that passes the rules has at least
    [min_text_length] words. *)
Theorem text_without_cjk_is_counted_in_words self tweet :
  (forall c, c ∈ text tweet -> is_cjk c = false) ->
  _is_chinese_text (text tweet) = false /\
  _is_chinese_text (_remove_urls_from_text (text tweet)) = false /\
  (passed (_check_rules self tweet) = true ->
   min_text_length self <= len (split (_remove_urls_from_text (text tweet)))).
Proof.
  intros Hcjk.
  assert (Hnot : forall l, (forall c, c ∈ l -> is_cjk c = false) ->
                           _is_chinese_text l = false).
  { intros l Hl. unfold _is_chinese_text.
    assert (Hnil : List.filter is_cjk l = []).
    { induction l as [|c r IH]; [reflexivity|].
      simpl. rewrite (Hl c) by left. apply IH.
      intros d Hd. apply Hl. right. exact Hd. }
    rewrite Hnil. destruct (len (strip l) =? 0); [reflexivity|].
    apply zero_ratio. }
  assert (Hclean : _is_chinese_text (_remove_urls_from_text (text tweet))
                   = false).
  { apply Hnot. intros c Hc. apply Hcjk.
    apply (elem_of_sublist _ _ _ Hc (remove_urls_sublist (text tweet))). }
  split; [apply Hnot, Hcjk|]. split; [exact Hclean|].
  intros Hpass. rewrite check_rules_passes in Hpass.
  specialize (Hpass TooShort eq_refl). unfold rule_fails in Hpass.
  rewrite Hclean in Hpass. lia.
Qed.

End RulesMore.

Lemma reply_without_context_only_without_cues_witness :
  let self := init default_config in
  let clean := _remove_urls_from_text (text bare_reply) in
  issues (@_check_rules basic_runtime self bare_reply)
  = tags ["reply_without_context"] /\
  len clean <= 30 /\ re_search quoted_pattern clean = false.
Proof.
  intros self clean.
  assert (H : issues (@_check_rules basic_runtime self bare_reply)
              = tags ["reply_without_context"]) by (vm_compute; reflexivity).
  split; [exact H|].
  destruct (@reply_without_context_only_without_cues basic_runtime self
              bare_reply H) as (_ & _ & _ & Hlen & _ & _ & Hq).
  split; [exact Hlen|exact Hq].
Defined.

Lemma relaxing_the_rules_keeps_a_passing_tweet_witness :
  let self := init default_config in
  passed (@_check_rules basic_runtime self long_tweet) = true /\
  passed (@_check_rules basic_runtime (disable FilterMediaOnly self) long_tweet)
  = true /\
  passed (@_check_rules basic_runtime (with_min_text_length 5 self) long_tweet)
  = true.
Proof.
  intros self.
  assert (H : passed (@_check_rules basic_runtime self long_tweet) = true)
    by (vm_compute; reflexivity).
  split; [exact H|].
  destruct (@relaxing_the_rules_keeps_a_passing_tweet basic_runtime self
              long_tweet H) as [Hswitch Hlen].
  split; [apply Hswitch|]. apply Hlen. vm_compute. discriminate.
Defined.

Lemma rules_read_four_fields_witness :
  let self := init default_config in
  let t := long_tweet in
  let t' := set_quality_score (Some 85%float) long_tweet in
  text t = text t' /\ (media t = [] <-> media t' = []) /\
  is_reply t = is_reply t' /\ has_quoted_content t = has_quoted_content t' /\
  @_check_rules basic_runtime self t = @_check_rules basic_runtime self t'.
Proof.
  intros self t t'.
  assert (H1 : text t = text t') by (vm_compute; reflexivity).
  assert (H2 : media t = [] <-> media t' = [])
    by (vm_compute; split; exact id).
  assert (H3 : is_reply t = is_reply t') by (vm_compute; reflexivity).
  assert (H4 : has_quoted_content t = has_quoted_content t')
    by (vm_compute; reflexivity).
  split; [exact H1|]. split; [exact H2|]. split; [exact H3|].
  split; [exact H4|].
  exact (@rules_read_four_fields basic_runtime self t t' H1 H2 H3 H4).
Defined.

Lemma text_without_cjk_is_counted_in_words_witness :
  let self := init default_config in
  (forall c, c ∈ text long_tweet -> is_cjk c = false) /\
  _is_chinese_text (text long_tweet) = false /\
  (passed (@_check_rules basic_runtime self long_tweet) = true ->
   min_text_length self
   <= len (split (_remove_urls_from_text (text long_tweet)))).
Proof.
  intros self.
  assert (H : forall c, c ∈ text long_tweet -> is_cjk c = false).
  { apply Forall_forall. apply (bool_decide_unpack _). vm_compute. exact I. }
  split; [exact H|].
  destruct (@text_without_cjk_is_counted_in_words basic_runtime self
              long_tweet H) as (H1 & _ & H3).
  split; [exact H1|exact H3].
Defined.

(** ** Scores that are not numbers, and the pipeline under the policy 'pass' *)

Lemma SFcompare_refl x : SFcompare x x = Some Eq \/ x = S754_nan.
Proof.
  destruct x as [s|s| |s m e]; simpl.
  - left; reflexivity.
  - left. destruct s; reflexivity.
  - right; reflexivity.
  - left. rewrite Z.compare_refl, Pcompare_refl. destruct s; reflexivity.
Qed.

Lemma nan_is_not_above (m s : float) : is_nan s = true -> (m <=? s)%float = false.
Proof.
  unfold is_nan. rewrite FloatAxioms.eqb_spec, leb_spec. unfold SFeqb, SFleb.
  intros H. destruct (SFcompare_refl (Prim2SF s)) as [E|E].
  - rewrite E in H. discriminate.
  - rewrite E. destruct (Prim2SF m); reflexivity.
Qed.

Section NotANumber.
Context `{RT : PyRuntime}.

(** X18. A score that is not a number passes no threshold: when the decoded
    score converts to the NaN (as the JSON literal NaN and the string 'nan'
    do in Python), the parser returns a failure with that score, the issues
    and the analysis of the object, whatever min_quality_score is, zero and
    negative thresholds included. *)
Theorem nan_score_passes_no_threshold self response json_str data s :
  re_search_group json_pattern response = Some json_str ->
  json_loads json_str = inl (PDict data) ->
  py_float (dict_get (py "score") data (PInt 50)) = Ok s ->
  is_nan s = true ->
  _parse_ai_response self response =
  Ok (new_result false (Some s) (dict_get (py "issues") data (PList []))
        (dict_get (py "analysis") data (PStr (py "")))) /\
  passed (_analyze_tweet_quality self (Responded response)) = false.
Proof.
  intros Hs Hj Hf Hnan.
  assert (H : _parse_ai_response self response =
              Ok (new_result false (Some s)
                    (dict_get (py "issues") data (PList []))
                    (dict_get (py "analysis") data (PStr (py ""))))).
  { unfold _parse_ai_response, parse_try. rewrite Hs, Hj, Hf.
    rewrite (nan_is_not_above (min_quality_score self) s Hnan). reflexivity. }
  split; [exact H|]. unfold _analyze_tweet_quality. rewrite H. reflexivity.
Qed.

(** X19. The AI stage under the policy 'pass', with the scoring tasks of the
    source, a positive batch size and no tweet twice in the list: every
    tweet is returned, as passed or as filtered; and a tweet is filtered only
    when the call for it answered a JSON object whose score, as a number, is
    not at least min_quality_score. The tweet then carries that score, with
    the issues and the analysis of the object as its issues and reason. No
    timeout, exception or unreadable answer filters a tweet. *)
Theorem ai_stage_under_pass_filters_only_low_scores self calls h tweets :
  0 < batch_size self -> NoDup tweets -> on_failure self = py "pass" ->
  exists p,
    _apply_ai_filters self (scoring_tasks self calls) h tweets = Ok p /\
    forall k r, tweets !! k = Some r ->
      (r ∈ passed_tweets p \/ r ∈ filtered_tweets p) /\
      (r ∈ filtered_tweets p ->
       exists response json_str data s,
         calls k = Responded response /\
         re_search_group json_pattern response = Some json_str /\
         json_loads json_str = inl (PDict data) /\
         py_float (dict_get (py "score") data (PInt 50)) = Ok s /\
         (min_quality_score self <=? s)%float = false /\
         let result :=
           new_result false (Some s) (dict_get (py "issues") data (PList []))
             (dict_get (py "analysis") data (PStr (py ""))) in
         store p r =
         set_filtered_reason (reason result)
           (set_quality_issues (issues result)
              (set_quality_score (Some s) (h r)))).
Proof.
  intros Hbs Hnd Hpol. rewrite apply_ai_filters_one_pass by exact Hbs.
  eexists. split; [reflexivity|]. intros k r Hk.
  set (gather := scoring_tasks self calls).
  pose proof (gathered_lookup gather tweets k r Hk) as Hin.
  assert (Hnd' : NoDup (gathered gather tweets).*1).
  { unfold gathered. rewrite fmap_fst_imap. exact Hnd. }
  rewrite one_pass_passed, one_pass_filtered. simpl.
  split.
  - destruct (task_passes self (gather k)) eqn:E; [left|right];
      apply (list_elem_of_fmap_2 fst _ (r, gather k));
      apply list_elem_of_filter; (split; [|exact Hin]).
    + change (Is_true (task_passes self (gather k))). rewrite E. exact I.
    + change (¬ Is_true (task_passes self (gather k))). rewrite E. exact id.
  - intros Hr. apply list_elem_of_fmap in Hr as ([r' o] & Heq & Hin').
    simpl in Heq. subst r'. apply list_elem_of_filter in Hin' as [Hfail Hin'].
    simpl in Hfail.
    apply gathered_elem in Hin' as (k' & Hk' & ->).
    rewrite <- (NoDup_lookup tweets k k' r Hnd Hk Hk') in Hfail.
    assert (Hf : passed (_analyze_tweet_quality self (calls k)) = false).
    { change (¬ Is_true (passed (_analyze_tweet_quality self (calls k))))
        in Hfail.
      destruct (passed _); [exfalso; apply Hfail; exact I|reflexivity]. }
    destruct (scoring_task_failure_under_pass self (calls k) Hpol Hf)
      as (response & json_str & data & s & Hc & Hs & Hj & Hfl & Hlow & Hres).
    exists response, json_str, data, s.
    split; [exact Hc|]. split; [exact Hs|]. split; [exact Hj|].
    split; [exact Hfl|]. split; [exact Hlow|].
    rewrite (one_pass_store_item self _
               {| store := h; passed_tweets := []; filtered_tweets := [] |}
               r (gather k) Hnd' Hin).
    unfold gather, scoring_tasks, annotate. rewrite Hres. reflexivity.
Qed.

End NotANumber.

Lemma nan_score_passes_no_threshold_witness :
  let self := init (threshold_config 0%float) in
  let response := pyq "{'score': 'nan', 'analysis': 'unsure'}" in
  re_search_group json_pattern response = Some response /\
  @json_loads nan_runtime response
  = inl (PDict [(py "analysis", PStr (py "unsure"));
                (py "score", PStr (py "nan"))]) /\
  @py_float nan_runtime (PStr (py "nan")) = Ok nan /\
  is_nan nan = true /\
  min_quality_score self = 0%float /\
  passed (@_analyze_tweet_quality nan_runtime self (Responded response))
  = false.
Proof.
  intros self response.
  assert (Hs : re_search_group json_pattern response = Some response)
    by (vm_compute; reflexivity).
  assert (Hj : @json_loads nan_runtime response
               = inl (PDict [(py "analysis", PStr (py "unsure"));
                             (py "score", PStr (py "nan"))]))
    by (vm_compute; reflexivity).
  assert (Hf : @py_float nan_runtime (PStr (py "nan")) = Ok nan)
    by (vm_compute; reflexivity).
  assert (Hnan : is_nan nan = true) by (vm_compute; reflexivity).
  split; [exact Hs|]. split; [exact Hj|]. split; [exact Hf|].
  split; [exact Hnan|]. split; [reflexivity|].
  exact (proj2 (@nan_score_passes_no_threshold nan_runtime self response
                  response _ nan Hs Hj Hf Hnan)).
Defined.

Lemma ai_stage_under_pass_filters_only_low_scores_witness :
  let self := init (batch_config 2) in
  let tweets := [0%nat; 1%nat; 2%nat] in
  0 < batch_size self /\ NoDup tweets /\ on_failure self = py "pass" /\
  exists p,
    _apply_ai_filters self (@scoring_tasks basic_runtime self sample_calls)
      sample_heap tweets = Ok p /\
    passed_tweets p = [0%nat; 2%nat] /\
    filtered_tweets p = [1%nat] /\
    exists s,
      (min_quality_score self <=? s)%float = false /\
      quality_score (store p 1%nat) = Some s.
Proof.
  intros self tweets.
  assert (Hbs : 0 < batch_size self) by reflexivity.
  assert (Hnd : NoDup tweets)
    by (apply (bool_decide_unpack _); vm_compute; exact I).
  assert (Hpol : on_failure self = py "pass") by reflexivity.
  split; [exact Hbs|]. split; [exact Hnd|]. split; [exact Hpol|].
  destruct (@ai_stage_under_pass_filters_only_low_scores basic_runtime self
              sample_calls sample_heap tweets Hbs Hnd Hpol) as (p & Hp & H).
  exists p. split; [exact Hp|].
  assert (Hlists :
    match _apply_ai_filters self (@scoring_tasks basic_runtime self sample_calls)
            sample_heap tweets with
    | Ok q => passed_tweets q = [0%nat; 2%nat] /\ filtered_tweets q = [1%nat]
    | Raise _ => False
    end) by (vm_compute; split; reflexivity).
  rewrite Hp in Hlists. destruct Hlists as [Hpass Hfilt].
  split; [exact Hpass|]. split; [exact Hfilt|].
  destruct (H 1%nat 1%nat eq_refl) as [_ H1].
  destruct H1 as (response & json_str & data & s & _ & _ & _ & _ & Hlow & Hst).
  { rewrite Hfilt. left. }
  exists s. split; [exact Hlow|]. rewrite Hst. reflexivity.
Defined.

(** ** Which tweets are scored, and what an unreadable answer does *)

Lemma apply_ai_filters_ext self gather gather' h (tweets : list ref) :
  (forall k, (k < length tweets)%nat -> gather k = gather' k) ->
  _apply_ai_filters self gather h tweets = _apply_ai_filters self gather' h tweets.
Proof.
  intros Hagree.
  destruct (Z_lt_le_dec 0 (batch_size self)) as [Hbs|Hbs].
  - rewrite !apply_ai_filters_one_pass by exact Hbs. do 2 f_equal.
    unfold gathered. apply imap_ext. intros k r Hk. simpl. f_equal.
    apply Hagree. apply lookup_lt_Some in Hk. exact Hk.
  - unfold _apply_ai_filters.
    destruct (Z.eq_dec (batch_size self) 0) as [H0|H0].
    + unfold py_range. rewrite H0. reflexivity.
    + rewrite py_range_negative_step by (unfold len; lia). reflexivity.
Qed.

Section ScoredTweets.
Context `{RT : PyRuntime}.

(** X20. Only tweets that pass the rules are scored: [filter_batch] consults
    the outcomes of the scoring tasks at the indices below the number of
    tweets that pass the rules, and nowhere else; with the AI stage disabled
    it consults none. *)
Theorem only_rule_passed_tweets_are_scored self gather gather' h tweets :
  (ai_enabled self = true ->
   forall k,
     (k < length (filter (fun r => rule_passes self h r) tweets))%nat ->
     gather k = gather' k) ->
  filter_batch self gather h tweets = filter_batch self gather' h tweets.
Proof.
  intros Hagree. destruct tweets as [|tweet tweets]; [reflexivity|].
  unfold filter_batch.
  destruct (apply_rule_filters_spec self h (tweet :: tweets)) as (Hp & _).
  set (rules := _apply_rule_filters self h (tweet :: tweets)) in *.
  destruct (ai_enabled self) eqn:Eai; [|reflexivity]. simpl andb.
  destruct (negb (bool_decide (passed_tweets rules = []))); [|reflexivity].
  rewrite (apply_ai_filters_ext self gather gather' (store rules)
             (passed_tweets rules)); [reflexivity|].
  rewrite Hp. apply Hagree. reflexivity.
Qed.

Lemma unreadable_answer_result self response :
  re_search_group json_pattern response = None \/
  (exists json_str msg,
     re_search_group json_pattern response = Some json_str /\
     json_loads json_str = inr msg) ->
  exists diagnostic,
    _analyze_tweet_quality self (Responded response)
    = parse_error_result diagnostic.
Proof.
  intros [Hnone | (json_str & msg & Hsome & Hbad)];
    unfold _analyze_tweet_quality, _parse_ai_response, parse_try.
  - rewrite Hnone. eexists. reflexivity.
  - rewrite Hsome, Hbad. eexists. reflexivity.
Qed.

(** X21. An answer that cannot be read passes the tweet under every failure
    policy, 'filter' included: in the AI stage with the scoring tasks of the
    source, a positive batch size and no tweet twice in the list, a tweet
    whose call answered a text without JSON object, or with one that does
    not decode, is returned as passed, with 50 written as its quality score
    and nothing else changed. *)
Theorem unreadable_answer_passes_under_every_policy self calls h tweets :
  0 < batch_size self -> NoDup tweets ->
  exists p,
    _apply_ai_filters self (scoring_tasks self calls) h tweets = Ok p /\
    forall k r response,
      tweets !! k = Some r -> calls k = Responded response ->
      (re_search_group json_pattern response = None \/
       (exists json_str msg,
          re_search_group json_pattern response = Some json_str /\
          json_loads json_str = inr msg)) ->
      r ∈ passed_tweets p /\ (r ∉ filtered_tweets p) /\
      store p r = set_quality_score (Some 50%float) (h r).
Proof.
  intros Hbs Hnd. rewrite apply_ai_filters_one_pass by exact Hbs.
  eexists. split; [reflexivity|]. intros k r response Hk Hc Hbad.
  set (gather := scoring_tasks self calls).
  pose proof (gathered_lookup gather tweets k r Hk) as Hin.
  assert (Hnd' : NoDup (gathered gather tweets).*1).
  { unfold gathered. rewrite fmap_fst_imap. exact Hnd. }
  destruct (unreadable_answer_result self response Hbad) as [diagnostic Hres].
  assert (Hg : gather k = Returned (parse_error_result diagnostic)).
  { unfold gather, scoring_tasks. rewrite Hc, Hres. reflexivity. }
  rewrite one_pass_passed, one_pass_filtered. simpl.
  split; [|split].
  - apply (list_elem_of_fmap_2 fst _ (r, gather k)).
    apply list_elem_of_filter. split; [|exact Hin].
    change (Is_true (task_passes self (gather k))). rewrite Hg. exact I.
  - intros Hr. apply list_elem_of_fmap in Hr as ([r' o] & Heq & Hin').
    simpl in Heq. subst r'. apply list_elem_of_filter in Hin' as [Hfail Hin'].
    apply gathered_elem in Hin' as (k' & Hk' & ->).
    rewrite <- (NoDup_lookup tweets k k' r Hnd Hk Hk') in Hfail.
    apply Hfail. change (Is_true (task_passes self (gather k))).
    rewrite Hg. exact I.
  - rewrite (one_pass_store_item self _
               {| store := h; passed_tweets := []; filtered_tweets := [] |}
               r (gather k) Hnd' Hin).
    rewrite Hg. reflexivity.
Qed.

End ScoredTweets.

Lemma only_rule_passed_tweets_are_scored_witness :
  let self := init default_config in
  let tweets := [0%nat; 1%nat; 2%nat] in
  let other : nat -> task_outcome :=
    fun k => match k with
             | 0%nat | 1%nat => sample_gather k
             | _ => Raised {| exn_kind := OtherError; exn_msg := py "late" |}
             end in
  length (filter (fun r => @rule_passes basic_runtime self sample_heap r) tweets)
  = 2%nat /\
  @filter_batch basic_runtime self sample_gather sample_heap tweets =
  @filter_batch basic_runtime self other sample_heap tweets.
Proof.
  intros self tweets other.
  assert (Hn : length (filter (fun r => @rule_passes basic_runtime self
                                          sample_heap r) tweets) = 2%nat)
    by (vm_compute; reflexivity).
  split; [exact Hn|].
  apply (@only_rule_passed_tweets_are_scored basic_runtime self sample_gather
           other sample_heap tweets).
  intros _ k Hk. rewrite Hn in Hk.
  destruct k as [|[|k]]; [reflexivity|reflexivity|lia].
Defined.

Lemma unreadable_answer_passes_under_every_policy_witness :
  let self := with_on_failure (py "filter") (init default_config) in
  let tweets := [0%nat; 1%nat] in
  0 < batch_size self /\ NoDup tweets /\
  re_search_group json_pattern (py "I cannot rate this tweet.") = None /\
  exists p,
    _apply_ai_filters self (@scoring_tasks basic_runtime self unreadable_calls)
      sample_heap tweets = Ok p /\
    1%nat ∈ passed_tweets p /\
    store p 1%nat = set_quality_score (Some 50%float) (sample_heap 1%nat).
Proof.
  intros self tweets.
  assert (Hbs : 0 < batch_size self) by reflexivity.
  assert (Hnd : NoDup tweets)
    by (apply (bool_decide_unpack _); vm_compute; exact I).
  assert (Hnone : re_search_group json_pattern (py "I cannot rate this tweet.")
                  = None) by (vm_compute; reflexivity).
  split; [exact Hbs|]. split; [exact Hnd|]. split; [exact Hnone|].
  destruct (@unreadable_answer_passes_under_every_policy basic_runtime self
              unreadable_calls sample_heap tweets Hbs Hnd) as (p & Hp & H).
  exists p. split; [exact Hp|].
  destruct (H 1%nat 1%nat (py "I cannot rate this tweet.") eq_refl eq_refl
              (or_introl Hnone)) as (Hin & _ & Hst).
  split; [exact Hin|exact Hst].
Defined.

(** ** The collector *)

Lemma saved_app l l' : saved (l ++ l') = saved l ++ saved l'.
Proof. apply omap_app. Qed.

Lemma saved_as_filtered_app l l' :
  saved_as_filtered (l ++ l') = saved_as_filtered l ++ saved_as_filtered l'.
Proof. apply omap_app. Qed.

Lemma checked_app l l' : checked (l ++ l') = checked l ++ checked l'.
Proof. apply omap_app. Qed.

Lemma saved_save_tweet (g : ref -> Tweet) l :
  saved (map (fun t => save_tweet t (g t)) l) = l /\
  saved_as_filtered (map (fun t => save_tweet t (g t)) l) = [] /\
  checked (map (fun t => save_tweet t (g t)) l) = [].
Proof.
  induction l as [|t l (IH1 & IH2 & IH3)]; [repeat split|].
  split; [|split]; [cbn; f_equal; exact IH1|exact IH2|exact IH3].
Qed.

Lemma saved_save_filtered_tweet (g : ref -> Tweet) l :
  saved (map (fun t => save_filtered_tweet t (g t)) l) = [] /\
  saved_as_filtered (map (fun t => save_filtered_tweet t (g t)) l) = l /\
  checked (map (fun t => save_filtered_tweet t (g t)) l) = [].
Proof.
  induction l as [|t l (IH1 & IH2 & IH3)]; [repeat split|].
  split; [|split]; [exact IH1|cbn; f_equal; exact IH2|exact IH3].
Qed.

Section CollectorFacts.
Context `{RT : PyRuntime} `{W : Collaborators}.
Variable self : TweetCollector.
Variable max_age_minutes : Z.

(** What one iteration adds to the calls and to the list. *)
Lemma collect_one_calls k influencer st st' :
  collect_one self max_age_minutes k influencer st = Ok st' ->
  exists more,
    calls st' = calls st ++ more /\
    all_tweets st' = all_tweets st ++ saved more /\
    checked more = answered k [influencer].
Proof.
  unfold collect_one. simpl answered.
  destruct (get_user_tweets k (inf_username influencer) 20) as [tweets|msg|e].
  2:{ intros H. injection H as <-. exists []. rewrite !app_nil_r.
      repeat split. }
  2:{ discriminate. }
  set (new_tweets := _filter_processed k (objects st) _).
  clearbody new_tweets.
  destruct (quality_filter self) as [qf|].
  - destruct new_tweets as [|t l].
    + intros H. injection H as <-. simpl.
      exists [update_influencer_last_checked (inf_username influencer)].
      repeat split.
    + destruct (filter_batch qf (scoring k) (objects st) (t :: l))
        as [p|e]; [|discriminate].
      intros H. injection H as <-. simpl.
      eexists. split; [rewrite <- app_assoc; reflexivity|].
      destruct (saved_save_filtered_tweet (store p) (filtered_tweets p))
        as (F1 & _ & F3).
      destruct (saved_save_tweet (store p) (passed_tweets p)) as (S1 & _ & S3).
      rewrite !saved_app, !checked_app, F1, F3, S1, S3.
      simpl. rewrite app_nil_r. split; reflexivity.
  - intros H. injection H as <-. simpl.
    eexists. split; [reflexivity|].
    destruct (saved_save_tweet (objects st) new_tweets) as (S1 & _ & S3).
    rewrite !saved_app, !checked_app, S1, S3.
    simpl. rewrite app_nil_r. split; reflexivity.
Qed.

Lemma collect_loop_calls influencers k st st' :
  collect_loop self max_age_minutes k influencers st = Ok st' ->
  exists more,
    calls st' = calls st ++ more /\
    all_tweets st' = all_tweets st ++ saved more /\
    checked more = answered k influencers.
Proof.
  revert k st. induction influencers as [|influencer rest IH]; intros k st H.
  - injection H as <-. exists []. rewrite !app_nil_r. repeat split.
  - simpl in H.
    destruct (collect_one self max_age_minutes k influencer st) as [st1|e]
      eqn:E1; [|discriminate].
    destruct (collect_one_calls k influencer st st1 E1) as (m1 & C1 & A1 & K1).
    destruct (IH (S k) st1 H) as (m2 & C2 & A2 & K2).
    exists (m1 ++ m2). rewrite C2, C1, A2, A1, saved_app, checked_app, K1, K2.
    rewrite <- !app_assoc. split; [reflexivity|]. split; [reflexivity|].
    simpl. destruct (get_user_tweets k (inf_username influencer) 20);
      reflexivity.
Qed.

(** X22. When [collect_from_influencers] returns, the list it returns is
    the list of the tweets it saved with [save_tweet], in the order of the
    calls, and it has marked as checked, in order, the influencers for whom
    the client returned tweets, and no other: an influencer whose fetch
    raised a BirdClientError is skipped. *)
Theorem collector_returns_the_tweets_it_saved influencers h c :
  collect_from_influencers self influencers max_age_minutes h = Ok c ->
  all_tweets c = saved (calls c) /\
  checked (calls c) = answered 0 influencers.
Proof.
  intros H. apply collect_loop_calls in H as (more & C & A & K).
  simpl in C, A. rewrite C. split; assumption.
Qed.

(** X23. One iteration of the collector with a quality filter whose batch
    size is positive (or whose AI stage is off), or with no filter, for an
    influencer whose tweets the client returns: the iteration returns, and
    every new tweet (recent, not seen by the store, not of a recently
    commented author) is saved exactly once, with [save_filtered_tweet] if
    the filter filtered it and with [save_tweet] otherwise; the filtered
    ones are saved first, as the filter annotated them, and the others are
    added to the list returned. Without a filter every new tweet is saved
    with [save_tweet], unchanged. *)
Theorem collector_saves_every_new_tweet_once k influencer st tweets :
  get_user_tweets k (inf_username influencer) 20 = Fetched tweets ->
  (forall qf, quality_filter self = Some qf ->
     ai_enabled qf = true -> 0 < batch_size qf) ->
  let new_tweets :=
    _filter_processed k (objects st)
      (_filter_by_age k (objects st) tweets max_age_minutes) in
  exists st' kept filtered,
    collect_one self max_age_minutes k influencer st = Ok st' /\
    calls st' =
      calls st ++
      map (fun t => save_filtered_tweet t (objects st' t)) filtered ++
      map (fun t => save_tweet t (objects st' t)) kept ++
      [update_influencer_last_checked (inf_username influencer)] /\
    all_tweets st' = all_tweets st ++ kept /\
    kept ++ filtered ≡ₚ new_tweets /\
    (quality_filter self = None ->
     kept = new_tweets /\ filtered = [] /\ objects st' = objects st).
Proof.
  intros Hfetch Hbs new_tweets. unfold collect_one. rewrite Hfetch.
  fold new_tweets. clearbody new_tweets.
  destruct (quality_filter self) as [qf|] eqn:Eqf.
  - destruct new_tweets as [|t l].
    + eexists _, [], []. split; [reflexivity|].
      split; [reflexivity|]. split; [reflexivity|]. split; [reflexivity|].
      intros H. discriminate H.
    + destruct (filter_batch_lists qf (scoring k) (objects st) (t :: l)
                  (Hbs qf eq_refl)) as (p & Hp & Hpass & Hfilt).
      rewrite Hp. eexists _, (passed_tweets p), (filtered_tweets p).
      split; [reflexivity|]. simpl.
      split; [rewrite <- app_assoc; reflexivity|].
      split; [reflexivity|]. split; [|intros H; discriminate H].
      rewrite Hpass, Hfilt.
      rewrite <- (filter_app_complement
                    (fun r => rule_passes qf (objects st) r) (t :: l)) at 5.
      destruct (ai_enabled qf).
      * rewrite (Permutation_app_comm
                   (filter (fun r => ¬ rule_passes qf (objects st) r) (t :: l))).
        rewrite app_assoc. apply Permutation_app; [|reflexivity].
        apply gathered_partition.
      * rewrite app_nil_r. reflexivity.
  - eexists _, new_tweets, [].
    split; [reflexivity|]. simpl. rewrite app_nil_r.
    repeat split; reflexivity.
Qed.

(** X24. The collector catches the errors of the client only. With a quality
    filter whose AI stage is on and whose batch size is 0, the iteration for
    an influencer with a new tweet that passes the rules raises the
    ValueError of the filter, which leaves [collect_from_influencers]: the
    run ends with that exception, whatever influencers are left. *)
Theorem collector_does_not_catch_the_errors_of_the_filter k influencer rest st
    tweets qf :
  get_user_tweets k (inf_username influencer) 20 = Fetched tweets ->
  quality_filter self = Some qf ->
  ai_enabled qf = true -> batch_size qf = 0 ->
  let new_tweets :=
    _filter_processed k (objects st)
      (_filter_by_age k (objects st) tweets max_age_minutes) in
  (exists t, t ∈ new_tweets /\ rule_passes qf (objects st) t = true) ->
  exists e,
    collect_loop self max_age_minutes k (influencer :: rest) st = Raise e /\
    exn_kind e = ValueError.
Proof.
  intros Hfetch Hqf Hai Hbs new_tweets (t & Hin & Hpass).
  assert (Hraise : exists e,
            filter_batch qf (scoring k) (objects st) new_tweets = Raise e /\
            exn_kind e = ValueError).
  { destruct (apply_rule_filters_spec qf (objects st) new_tweets) as (Hp & _).
    assert (Hne : passed_tweets (_apply_rule_filters qf (objects st) new_tweets)
                  <> []).
    { rewrite Hp. intros Hnil.
      assert (Ht : t ∈ filter (fun r => rule_passes qf (objects st) r)
                          new_tweets).
      { apply list_elem_of_filter. split; [rewrite Hpass; exact I|exact Hin]. }
      rewrite Hnil in Ht. inversion Ht. }
    destruct new_tweets as [|t0 l]; [inversion Hin|].
    unfold filter_batch. rewrite Hai, (bool_decide_eq_false_2 _ Hne).
    simpl andb. cbv iota. unfold _apply_ai_filters, py_range.
    rewrite Hbs. simpl. eexists. split; reflexivity. }
  destruct Hraise as (e & He & Hk). exists e. split; [|exact Hk].
  simpl. unfold collect_one. rewrite Hfetch, Hqf. fold new_tweets.
  destruct new_tweets as [|t0 l]; [inversion Hin|]. rewrite He. reflexivity.
Qed.

End CollectorFacts.

Lemma collector_returns_the_tweets_it_saved_witness :
  let self := {| quality_filter := Some (init default_config) |} in
  let influencers :=
    [sample_influencer "alice"; sample_influencer "bob";
     sample_influencer "carol"] in
  exists c,
    @collect_from_influencers basic_runtime sample_collaborators self
      influencers 30 sample_heap = Ok c /\
    all_tweets c = [0%nat; 2%nat; 0%nat; 2%nat] /\
    saved (calls c) = [0%nat; 2%nat; 0%nat; 2%nat] /\
    checked (calls c) = [py "alice"; py "carol"].
Proof.
  intros self influencers.
  assert (Hrun :
    match @collect_from_influencers basic_runtime sample_collaborators self
            influencers 30 sample_heap with
    | Ok c => all_tweets c = [0%nat; 2%nat; 0%nat; 2%nat]
    | Raise _ => False
    end) by (vm_compute; reflexivity).
  destruct (@collect_from_influencers basic_runtime sample_collaborators self
              influencers 30 sample_heap) as [c|e] eqn:E; [|destruct Hrun].
  exists c. split; [reflexivity|]. split; [exact Hrun|].
  destruct (@collector_returns_the_tweets_it_saved basic_runtime
              sample_collaborators self 30 influencers sample_heap c E)
    as [Hsaved Hchecked].
  split; [rewrite <- Hsaved; exact Hrun|].
  rewrite Hchecked. vm_compute. reflexivity.
Defined.

Lemma collector_saves_every_new_tweet_once_witness :
  let self := {| quality_filter := Some (init default_config) |} in
  let st := {| objects := sample_heap; calls := []; all_tweets := [] |} in
  @get_user_tweets sample_collaborators 0%nat (py "alice") 20
  = Fetched [0%nat; 1%nat; 2%nat] /\
  (forall qf, quality_filter self = Some qf ->
     ai_enabled qf = true -> 0 < batch_size qf) /\
  exists st' kept filtered,
    @collect_one basic_runtime sample_collaborators self 30 0%nat
      (sample_influencer "alice") st = Ok st' /\
    all_tweets st' = kept /\
    kept ++ filtered ≡ₚ [0%nat; 1%nat; 2%nat].
Proof.
  intros self st.
  assert (Hfetch : @get_user_tweets sample_collaborators 0%nat (py "alice") 20
                   = Fetched [0%nat; 1%nat; 2%nat]) by reflexivity.
  assert (Hbs : forall qf, quality_filter self = Some qf ->
                  ai_enabled qf = true -> 0 < batch_size qf).
  { intros qf Hqf _. injection Hqf as <-. reflexivity. }
  split; [exact Hfetch|]. split; [exact Hbs|].
  destruct (@collector_saves_every_new_tweet_once basic_runtime
              sample_collaborators self 30 0%nat (sample_influencer "alice")
              st [0%nat; 1%nat; 2%nat] Hfetch Hbs)
    as (st' & kept & filtered & Hrun & _ & Hall & Hperm & _).
  exists st', kept, filtered. split; [exact Hrun|].
  split; [exact Hall|].
  assert (Hnew : @_filter_processed sample_collaborators 0%nat sample_heap
                   (@_filter_by_age sample_collaborators 0%nat sample_heap
                      [0%nat; 1%nat; 2%nat] 30)
                 = [0%nat; 1%nat; 2%nat]) by (vm_compute; reflexivity).
  simpl objects in Hperm. rewrite Hnew in Hperm. exact Hperm.
Defined.

Lemma collector_does_not_catch_the_errors_of_the_filter_witness :
  let qf := init (batch_config 0) in
  let self := {| quality_filter := Some qf |} in
  let st := {| objects := sample_heap; calls := []; all_tweets := [] |} in
  ai_enabled qf = true /\ batch_size qf = 0 /\
  @rule_passes basic_runtime qf sample_heap 0%nat = true /\
  exists e,
    @collect_loop basic_runtime sample_collaborators self 30 0%nat
      [sample_influencer "alice"; sample_influencer "bob"] st = Raise e /\
    exn_kind e = ValueError.
Proof.
  intros qf self st.
  assert (Hpass : @rule_passes basic_runtime qf sample_heap 0%nat = true)
    by (vm_compute; reflexivity).
  split; [reflexivity|]. split; [reflexivity|]. split; [exact Hpass|].
  apply (@collector_does_not_catch_the_errors_of_the_filter basic_runtime
           sample_collaborators self 30 0%nat (sample_influencer "alice")
           [sample_influencer "bob"] st [0%nat; 1%nat; 2%nat] qf);
    try reflexivity.
  exists 0%nat. split; [|exact Hpass].
  apply (bool_decide_unpack _). vm_compute. exact I.
Defined.
